(** * ink-id: volumetric sampling, surface detection, training sampler
      and feature extraction

    A shallow embedding of [inkid/data/Volume.py], [trainvol.py] and
    [features.py].  Arrays are numpy arrays: a shape together with the
    nested items; indices and slice bounds are Python integers ([Z]) with
    Python's treatment of negative values; exceptions are values of an
    error monad. *)

From Stdlib Require Import String.
From Stdlib Require Import ZArith List Lia Bool QArith Qabs Reals Lra.
Import ListNotations.

Local Open Scope Z_scope.

(** ** Exceptions and the error monad *)

Inductive exn : Type :=
| IndexError
| ValueError
| AssertionError
| ZeroDivisionError
| AttributeError
| UnboundLocalError.

Inductive result (A : Type) : Type :=
| Ok (a : A)
| Raise (e : exn).

Arguments Ok {A} a.
Arguments Raise {A} e.

Definition bind {A B : Type} (c : result A) (k : A -> result B) : result B :=
  match c with
  | Ok a => k a
  | Raise e => Raise e
  end.

Notation "x <- c ;; k" := (bind c (fun x => k))
  (at level 61, c at next level, right associativity).
Notation "' p <- c ;; k" := (bind c (fun x => let p := x in k))
  (at level 61, p pattern, c at next level, right associativity).

Definition assert (b : bool) : result unit :=
  if b then Ok tt else Raise AssertionError.

(** ** Python sequences: indexing, slicing, ranges *)

Module Py.

(** [seq[i]] on a sequence of length [n]: a negative index counts from the
    end; anything outside [-n, n) is an [IndexError]. *)
Definition norm_index (n : nat) (i : Z) : option nat :=
  if (0 <=? i) && (i <? Z.of_nat n) then Some (Z.to_nat i)
  else if (i <? 0) && (- Z.of_nat n <=? i) then Some (Z.to_nat (i + Z.of_nat n))
  else None.

Definition getitem {A : Type} (l : list A) (i : Z) : result A :=
  match norm_index (length l) i with
  | Some k => match nth_error l k with
              | Some a => Ok a
              | None => Raise IndexError
              end
  | None => Raise IndexError
  end.

(** One bound of [seq[start:stop]]: a negative bound counts from the end and
    the outcome is clipped to [0, n]. *)
Definition clip (n : nat) (i : Z) : nat :=
  if i <? 0 then Z.to_nat (Z.max 0 (i + Z.of_nat n))
  else Z.to_nat (Z.min i (Z.of_nat n)).

Definition slice_len (n : nat) (start stop : Z) : nat :=
  (clip n stop - clip n start)%nat.

Definition slice {A : Type} (l : list A) (start stop : Z) : list A :=
  let lo := clip (length l) start in
  let hi := clip (length l) stop in
  firstn (hi - lo) (skipn lo l).

(** [range(lo, hi)] *)
Definition range (lo hi : Z) : list Z :=
  map (fun k => lo + Z.of_nat k) (seq 0 (Z.to_nat (hi - lo))).

(** [int(x)] on a finite number: truncation towards zero. *)
Definition int (q : Q) : Z := Z.quot (Qnum q) (Z.pos (Qden q)).

(** [math.modf(x)]: fractional and integral part, both carrying the sign of
    [x]. *)
Definition modf (q : Q) : Q * Q :=
  let i := inject_Z (int q) in ((q - i)%Q, i).

End Py.

(** ** numpy arrays *)

Module Np.

Record ndarray2 (A : Type) : Type := mk2 {
  rows2 : nat;
  cols2 : nat;
  items2 : list (list A)
}.

Record ndarray3 (A : Type) : Type := mk3 {
  dim0 : nat;
  dim1 : nat;
  dim2 : nat;
  items3 : list (list (list A))
}.

Arguments mk2 {A}. Arguments rows2 {A}. Arguments cols2 {A}. Arguments items2 {A}.
Arguments mk3 {A}. Arguments dim0 {A}. Arguments dim1 {A}. Arguments dim2 {A}.
Arguments items3 {A}.

Definition shape2 {A} (a : ndarray2 A) : nat * nat := (rows2 a, cols2 a).
Definition shape3 {A} (a : ndarray3 A) : nat * nat * nat := (dim0 a, dim1 a, dim2 a).

(** The items agree with the shape. *)
Definition wf_rows {A} (c : nat) (ls : list (list A)) : Prop :=
  Forall (fun r => length r = c) ls.

Definition wf2 {A} (a : ndarray2 A) : Prop :=
  length (items2 a) = rows2 a /\ wf_rows (cols2 a) (items2 a).

Definition wf3 {A} (a : ndarray3 A) : Prop :=
  length (items3 a) = dim0 a /\
  Forall (fun p => length p = dim1 a /\ wf_rows (dim2 a) p) (items3 a).

Definition shape2_eqb (s t : nat * nat) : bool :=
  Nat.eqb (fst s) (fst t) && Nat.eqb (snd s) (snd t).

Definition shape3_eqb (s t : nat * nat * nat) : bool :=
  Nat.eqb (fst (fst s)) (fst (fst t)) && Nat.eqb (snd (fst s)) (snd (fst t))
  && Nat.eqb (snd s) (snd t).

(** [np.zeros(shape)] *)
Definition zeros2 {A} (zero : A) (r c : nat) : ndarray2 A :=
  mk2 r c (repeat (repeat zero c) r).

Definition zeros3 {A} (zero : A) (d0 d1 d2 : nat) : ndarray3 A :=
  mk3 d0 d1 d2 (repeat (repeat (repeat zero d2) d1) d0).

(** [a[i, j]] and [a[i, j, k]]: every index is checked against its own
    axis. *)
Definition getitem2 {A} (a : ndarray2 A) (i j : Z) : result A :=
  match Py.norm_index (rows2 a) i, Py.norm_index (cols2 a) j with
  | Some i', Some j' =>
      match nth_error (items2 a) i' with
      | Some r => match nth_error r j' with
                  | Some v => Ok v
                  | None => Raise IndexError
                  end
      | None => Raise IndexError
      end
  | _, _ => Raise IndexError
  end.

Definition getitem3 {A} (a : ndarray3 A) (i j k : Z) : result A :=
  match Py.norm_index (dim0 a) i, Py.norm_index (dim1 a) j,
        Py.norm_index (dim2 a) k with
  | Some i', Some j', Some k' =>
      match nth_error (items3 a) i' with
      | Some p =>
          match nth_error p j' with
          | Some r => match nth_error r k' with
                      | Some v => Ok v
                      | None => Raise IndexError
                      end
          | None => Raise IndexError
          end
      | None => Raise IndexError
      end
  | _, _, _ => Raise IndexError
  end.

(** [a[i, j]] on a 3-d array: the vector along the last axis. *)
Definition getvec3 {A} (a : ndarray3 A) (i j : Z) : result (list A) :=
  match Py.norm_index (dim0 a) i, Py.norm_index (dim1 a) j with
  | Some i', Some j' =>
      match nth_error (items3 a) i' with
      | Some p => match nth_error p j' with
                  | Some r => Ok r
                  | None => Raise IndexError
                  end
      | None => Raise IndexError
      end
  | _, _ => Raise IndexError
  end.

(** [a[i0:i1, j0:j1]]: slicing never raises; each axis of the outcome has the
    length its own slice gives. *)
Definition slice2 {A} (a : ndarray2 A) (i0 i1 j0 j1 : Z) : ndarray2 A :=
  mk2 (Py.slice_len (rows2 a) i0 i1) (Py.slice_len (cols2 a) j0 j1)
      (map (fun r => Py.slice r j0 j1) (Py.slice (items2 a) i0 i1)).

(** [a[i0:i1, j0:j1, k0:k1]] *)
Definition slice3 {A} (a : ndarray3 A) (i0 i1 j0 j1 k0 k1 : Z) : ndarray3 A :=
  mk3 (Py.slice_len (dim0 a) i0 i1) (Py.slice_len (dim1 a) j0 j1)
      (Py.slice_len (dim2 a) k0 k1)
      (map (fun p => map (fun r => Py.slice r k0 k1) (Py.slice p j0 j1))
           (Py.slice (items3 a) i0 i1)).

(** [a[i, j0:j1, k0:k1]]: an integer on the first axis, slices on the other
    two. *)
Definition plane_slice {A} (a : ndarray3 A) (i j0 j1 k0 k1 : Z)
  : result (ndarray2 A) :=
  match Py.norm_index (dim0 a) i with
  | Some i' =>
      match nth_error (items3 a) i' with
      | Some p =>
          Ok (mk2 (Py.slice_len (dim1 a) j0 j1) (Py.slice_len (dim2 a) k0 k1)
                  (map (fun r => Py.slice r k0 k1) (Py.slice p j0 j1)))
      | None => Raise IndexError
      end
  | None => Raise IndexError
  end.

Definition flatten2 {A} (a : ndarray2 A) : list A := concat (items2 a).
Definition flatten3 {A} (a : ndarray3 A) : list A := concat (concat (items3 a)).

(** Array access by position (for positions inside the array), and an array
    given by its cells. *)
Definition at2 {A} (d : A) (a : ndarray2 A) (i j : nat) : A :=
  nth j (nth i (items2 a) []) d.

Definition at3 {A} (d : A) (a : ndarray3 A) (i j k : nat) : A :=
  nth k (nth j (nth i (items3 a) []) []) d.

Definition tabulate3 {A} (d0 d1 d2 : nat) (f : nat -> nat -> nat -> A)
  : ndarray3 A :=
  mk3 d0 d1 d2
    (map (fun i => map (fun j => map (fun k => f i j k) (seq 0 d2)) (seq 0 d1))
         (seq 0 d0)).

End Np.

(** ** inkid/data/Volume.py *)

Module Volume.

(** [self._data], indexed [z, y, x]. *)
Definition t : Type := Np.ndarray3 Z.

Definition intensity_at (v : t) (x y z : Q) : result Z :=
  Np.getitem3 v (Py.int z) (Py.int y) (Py.int x).

(** Floating-point arithmetic is carried out over the rationals: the
    reads, and so what raises, do not depend on it, and the blend is the
    one of the source wherever the products and sums are exact in binary64
    (lattice points, dyadic fractional parts). *)
Definition interpolate_at (v : t) (x y z : Q) : result Q :=
  let '(dx, x0) := Py.modf x in
  let '(dy, y0) := Py.modf y in
  let '(dz, z0) := Py.modf z in
  let x1 := (x0 + 1)%Q in
  let y1 := (y0 + 1)%Q in
  let z1 := (z0 + 1)%Q in
  a <- intensity_at v x0 y0 z0 ;; b <- intensity_at v x1 y0 z0 ;;
  let c00 := (inject_Z a * (1 - dx) + inject_Z b * dx)%Q in
  a <- intensity_at v x0 y1 z0 ;; b <- intensity_at v x1 y0 z0 ;;
  let c10 := (inject_Z a * (1 - dx) + inject_Z b * dx)%Q in
  a <- intensity_at v x0 y0 z1 ;; b <- intensity_at v x1 y0 z1 ;;
  let c01 := (inject_Z a * (1 - dx) + inject_Z b * dx)%Q in
  a <- intensity_at v x0 y1 z1 ;; b <- intensity_at v x1 y1 z1 ;;
  let c11 := (inject_Z a * (1 - dx) + inject_Z b * dx)%Q in
  let c0 := (c00 * (1 - dy) + c10 * dy)%Q in
  let c1 := (c01 * (1 - dy) + c11 * dy)%Q in
  let c := (c0 * (1 - dz) + c1 * dz)%Q in
  Ok c.

(** The textbook trilinear blend of the eight corners around [(x, y, z)],
    first along x, then y, then z: what the documentation of
    [interpolate_at] refers to. *)
Definition trilinear_reference (v : t) (x y z : Q) : result Q :=
  let '(dx, x0) := Py.modf x in
  let '(dy, y0) := Py.modf y in
  let '(dz, z0) := Py.modf z in
  let x1 := (x0 + 1)%Q in
  let y1 := (y0 + 1)%Q in
  let z1 := (z0 + 1)%Q in
  v000 <- intensity_at v x0 y0 z0 ;; v100 <- intensity_at v x1 y0 z0 ;;
  v010 <- intensity_at v x0 y1 z0 ;; v110 <- intensity_at v x1 y1 z0 ;;
  v001 <- intensity_at v x0 y0 z1 ;; v101 <- intensity_at v x1 y0 z1 ;;
  v011 <- intensity_at v x0 y1 z1 ;; v111 <- intensity_at v x1 y1 z1 ;;
  let c00 := (inject_Z v000 * (1 - dx) + inject_Z v100 * dx)%Q in
  let c10 := (inject_Z v010 * (1 - dx) + inject_Z v110 * dx)%Q in
  let c01 := (inject_Z v001 * (1 - dx) + inject_Z v101 * dx)%Q in
  let c11 := (inject_Z v011 * (1 - dx) + inject_Z v111 * dx)%Q in
  let c0 := (c00 * (1 - dy) + c10 * dy)%Q in
  let c1 := (c01 * (1 - dy) + c11 * dy)%Q in
  Ok (c0 * (1 - dz) + c1 * dz)%Q.

(** [get_subvolume]: the oriented sampling loop is commented out in the
    source; what runs is the axis-aligned crop with its literal bounds. *)
Definition get_subvolume (v : t) (center_xyz : list Q) (shape_zyx : list Z)
    (x_vec y_vec z_vec : list Q) : result (Np.ndarray3 Z) :=
  _ <- assert (Nat.eqb (length center_xyz) 3) ;;
  _ <- assert (Nat.eqb (length shape_zyx) 3) ;;
  _ <- assert (Nat.eqb (length x_vec) 3) ;;
  _ <- assert (Nat.eqb (length y_vec) 3) ;;
  _ <- assert (Nat.eqb (length z_vec) 3) ;;
  match map Py.int center_xyz with
  | [x; y; z] =>
      let subvolume :=
        Np.slice3 v (z - 48) (z + 48) (y - 48) (y + 48) (x - 24) (x + 24) in
      if negb (Np.shape3_eqb (Np.shape3 subvolume) (96, 96, 48)%nat)
      then Ok (Np.zeros3 0 96 96 48)
      else Ok subvolume
  | _ => Raise ValueError
  end.

Definition x_axis : list Q := [1; 0; 0]%Q.
Definition y_axis : list Q := [0; 1; 0]%Q.
Definition z_axis : list Q := [0; 0; 1]%Q.

End Volume.

(** ** Loops and in-place updates *)

(** [for i in l: body] over a state [S], stopping at the first exception. *)
Fixpoint for_ {S : Type} (l : list Z) (body : Z -> S -> result S) (s : S)
  : result S :=
  match l with
  | [] => Ok s
  | i :: l' => s' <- body i s ;; for_ l' body s'
  end.

Fixpoint upd {A : Type} (n : nat) (f : A -> A) (l : list A) : list A :=
  match l, n with
  | [], _ => []
  | a :: l', O => f a :: l'
  | a :: l', S n' => a :: upd n' f l'
  end.

Module NpSet.

(** [l[i] = v] *)
Definition setitem1 {A} (l : list A) (i : Z) (v : A) : result (list A) :=
  match Py.norm_index (length l) i with
  | Some i' => Ok (upd i' (fun _ => v) l)
  | None => Raise IndexError
  end.

(** [a[i, j] = v] *)
Definition setitem2 {A} (a : Np.ndarray2 A) (i j : Z) (v : A)
  : result (Np.ndarray2 A) :=
  match Py.norm_index (Np.rows2 a) i, Py.norm_index (Np.cols2 a) j with
  | Some i', Some j' =>
      Ok (Np.mk2 (Np.rows2 a) (Np.cols2 a)
                 (upd i' (upd j' (fun _ => v)) (Np.items2 a)))
  | _, _ => Raise IndexError
  end.

(** [a[c] = plane] for a plane of the shape of [a[c]] *)
Definition setplane3 {A} (a : Np.ndarray3 A) (c : Z) (p : Np.ndarray2 A)
  : result (Np.ndarray3 A) :=
  match Py.norm_index (Np.dim0 a) c with
  | Some c' =>
      if Np.shape2_eqb (Np.shape2 p) (Np.dim1 a, Np.dim2 a)
      then Ok (Np.mk3 (Np.dim0 a) (Np.dim1 a) (Np.dim2 a)
                      (upd c' (fun _ => Np.items2 p) (Np.items3 a)))
      else Raise ValueError
  | None => Raise IndexError
  end.

End NpSet.

(** ** Reductions on integer data *)

Module Red.

Definition sum (l : list Z) : Z := fold_left Z.add l 0.

(** [np.max] and [np.min]: no identity, so an empty operand raises. *)
Definition max (l : list Z) : result Z :=
  match l with
  | [] => Raise ValueError
  | a :: l' => Ok (fold_left Z.max l' a)
  end.

Definition min (l : list Z) : result Z :=
  match l with
  | [] => Raise ValueError
  | a :: l' => Ok (fold_left Z.min l' a)
  end.

(** [np.mean] on integer data, exact; [None] is the NaN of an empty operand. *)
Definition mean (l : list Z) : option Q :=
  match l with
  | [] => None
  | _ => Some (inject_Z (sum l) / inject_Z (Z.of_nat (length l)))%Q
  end.

(** [np.max(a, axis=2)]: raises when the reduced axis is empty. *)
Definition max_axis2 (a : Np.ndarray3 Z) : result (Np.ndarray2 Z) :=
  if Nat.eqb (Np.dim2 a) 0 then Raise ValueError
  else Ok (Np.mk2 (Np.dim0 a) (Np.dim1 a)
             (map (map (fun r => match max r with Ok m => m | Raise _ => 0 end))
                  (Np.items3 a))).

(** [np.where(cond)[0]] on a vector: the indices at which [cond] holds. *)
Fixpoint where_from (cond : Z -> bool) (k : Z) (l : list Z) : list Z :=
  match l with
  | [] => []
  | a :: l' => if cond a then k :: where_from cond (k + 1) l'
               else where_from cond (k + 1) l'
  end.

Definition where_ (cond : Z -> bool) (l : list Z) : list Z := where_from cond 0 l.

End Red.

(** ** trainvol.py *)

Module TrainVol.

(** [np.where(a > 0, 1, 0)] *)
Definition binarize (a : Np.ndarray2 Z) : Np.ndarray2 Z :=
  Np.mk2 (Np.rows2 a) (Np.cols2 a)
         (map (map (fun v => if v >? 0 then 1 else 0)) (Np.items2 a)).

(** [t_mean == 1]; a NaN mean compares unequal. *)
Definition mean_is_one (m : option Q) : bool :=
  match m with
  | Some q => Qeq_bool q 1
  | None => false
  end.

(** The literal [.99] *)
Definition ink_label : Q := 99 # 100.

(** The relabelling loop of [__init__] (lines 26-35), on the binarized
    annotation. *)
Definition adjust_ground_truth (raw_ground_truth : Np.ndarray2 Z) (NR : Z)
  : result (Np.ndarray2 Q) :=
  let rows := Z.of_nat (Np.rows2 raw_ground_truth) in
  let cols := Z.of_nat (Np.cols2 raw_ground_truth) in
  for_ (Py.range NR (rows - NR)) (fun i gt =>
    for_ (Py.range NR (cols - NR)) (fun j gt =>
      let t_mean :=
        Red.mean (Np.flatten2
          (Np.slice2 raw_ground_truth (i - NR) (i + NR) (j - NR) (j + NR))) in
      if mean_is_one t_mean then NpSet.setitem2 gt i j ink_label
      else Ok gt) gt)
    (Np.zeros2 0%Q (Np.rows2 raw_ground_truth) (Np.cols2 raw_ground_truth)).

(** [find_frag_surf_at_thresh]: reads [raw_volume] and [fragment_buffer],
    produces [(frag_mask, surf_pts)]. *)
Definition find_frag_surf_at_thresh (raw_volume : Np.ndarray3 Z)
    (fragment_buffer : Z) (thresh : Z)
  : result (Np.ndarray2 Z * Np.ndarray2 Z) :=
  maxes <- Red.max_axis2 raw_volume ;;
  let frag_mask := Np.zeros2 0 (Np.rows2 maxes) (Np.cols2 maxes) in
  let surf_pts := Np.zeros2 0 (Np.rows2 maxes) (Np.cols2 maxes) in
  let n := fragment_buffer in
  for_ (Py.range n (Z.of_nat (Np.dim0 raw_volume) - n - 1)) (fun i st =>
    for_ (Py.range n (Z.of_nat (Np.dim1 raw_volume) - n - 1)) (fun j st =>
      let '(frag_mask, surf_pts) := st in
      m <- Red.min (Np.flatten2
             (Np.slice2 maxes (i - n) (i + n + 1) (j - n) (j + n + 1))) ;;
      if m >? thresh then
        frag_mask <- NpSet.setitem2 frag_mask i j 1 ;;
        vector <- Np.getvec3 raw_volume i j ;;
        k <- Py.getitem (Red.where_ (fun v => v >? thresh) vector) 0 ;;
        surf_pts <- NpSet.setitem2 surf_pts i j k ;;
        Ok (frag_mask, surf_pts)
      else Ok (frag_mask, surf_pts)) st)
    (frag_mask, surf_pts).

Section WithRandom.

(** [np.random]: the generator state is threaded explicitly. *)
Variable rng : Type.
(** [np.random.shuffle(a)] *)
Variable shuffle : rng -> list Z -> list Z * rng.
(** [np.random.randint(n)] *)
Variable randint : rng -> Z -> Z * rng.

Record t : Type := mk {
  current_spot : Z;
  fragment_buffer : Z;
  NR : Z;
  C_IN : Z;
  C_BACK : Z;
  raw_volume : Np.ndarray3 Z;
  raw_ground_truth : Np.ndarray2 Z;
  ground_truth : Np.ndarray2 Q;
  flt_volume : Np.ndarray3 Z;
  train_style : string;
  total_vects : Z;
  frag_mask : Np.ndarray2 Z;
  surf_pts : Np.ndarray2 Z;
  (** [None] until [make_train_with_style] has run *)
  train_inds : option (list Z);
  gen : rng
}.

Definition set_cursor_pool (self : t) (spot : Z) (pool : option (list Z))
    (g : rng) : t :=
  mk spot (fragment_buffer self) (NR self) (C_IN self) (C_BACK self)
     (raw_volume self) (raw_ground_truth self) (ground_truth self)
     (flt_volume self) (train_style self) (total_vects self)
     (frag_mask self) (surf_pts self) pool g.

Definition set_style (self : t) (style : string) : t :=
  mk (current_spot self) (fragment_buffer self) (NR self) (C_IN self)
     (C_BACK self) (raw_volume self) (raw_ground_truth self)
     (ground_truth self) (flt_volume self) style (total_vects self)
     (frag_mask self) (surf_pts self) (train_inds self) (gen self).

(** [__init__], from the two loaded arrays. *)
Definition init (volume : Np.ndarray3 Z) (truth : Np.ndarray2 Z)
    (CUT_IN CUT_BACK NR THRESH : Z) (g : rng) : result t :=
  let raw_ground_truth := binarize truth in
  ground_truth <- adjust_ground_truth raw_ground_truth NR ;;
  let total_vects := Z.of_nat (Np.dim0 volume) * Z.of_nat (Np.dim1 volume) in
  '(frag_mask, surf_pts) <- find_frag_surf_at_thresh volume 4 THRESH ;;
  Ok (mk 0 4 NR CUT_IN CUT_BACK volume raw_ground_truth ground_truth volume
         "drop" total_vects frag_mask surf_pts None g).

(** [ind] is a Python integer: with a width of 0, [ind % width] raises
    [ZeroDivisionError].  The quotient [ind / width] is taken exactly; the
    float quotient of the source truncates to the same row as long as
    [|ind| < 2^53], which holds of every index of an array in memory. *)
Definition ind_to_coord (self : t) (ind : Z) : result (Z * Z) :=
  let width := Z.of_nat (Np.dim1 (raw_volume self)) in
  if width =? 0 then Raise ZeroDivisionError
  else
    let col := ind mod width in
    let row := Py.int (inject_Z ind / inject_Z width) in
    Ok (row, col).

Definition coord_to_ind (self : t) (row col : Z) : Z :=
  let width := Z.of_nat (Np.dim1 (raw_volume self)) in
  (row * width) + col.

(** [np.zeros(shape)] raises on a negative dimension. *)
Definition check_dims (dims : list Z) : result unit :=
  if forallb (fun d => 0 <=? d) dims then Ok tt else Raise ValueError.

(** [np.flipud] *)
Definition flipud {A} (a : Np.ndarray2 A) : Np.ndarray2 A :=
  Np.mk2 (Np.rows2 a) (Np.cols2 a) (rev (Np.items2 a)).

(** The state of the loop of [next_batch]: the two batches, the row counter
    and the generator. *)
Definition batch_state : Type :=
  (Np.ndarray3 Z * Np.ndarray2 Q * Z * rng)%type.

(** The window of one index (lines 64-66, and again 92-94):
    [flt_volume[row, col-NR:col+NR, surf-BK:surf+IN]]. *)
Definition window_at (self : t) (ind : Z) : result (Z * Z * Np.ndarray2 Z) :=
  let NR := NR self in
  let IN := C_IN self in
  let BK := C_BACK self in
  '(row, col) <- ind_to_coord self ind ;;
  surf <- Np.getitem2 (surf_pts self) row col ;;
  to_put <- Np.plane_slice (flt_volume self) row (col - NR) (col + NR)
                           (surf - BK) (surf + IN) ;;
  Ok (row, col, to_put).

Definition next_batch_step (self : t) (ind : Z) (st : batch_state)
  : result batch_state :=
  let '(to_return_x, to_return_y, c, g) := st in
  '(row, col, to_put) <- window_at self ind ;;
  _ <- match Py.norm_index (Np.dim0 to_return_x) c with
       | Some _ => Ok tt
       | None => Raise IndexError
       end ;;
  if Np.shape2_eqb (Np.shape2 to_put)
       (Np.dim1 to_return_x, Np.dim2 to_return_x)
  then
    let '(r, g) := randint g 10 in
    let to_put := if r mod 2 =? 0 then flipud to_put else to_put in
    to_return_x <- NpSet.setplane3 to_return_x c to_put ;;
    gt <- Np.getitem2 (ground_truth self) row col ;;
    to_return_y <- NpSet.setitem2 to_return_y c 0 gt ;;
    gt <- Np.getitem2 (ground_truth self) row col ;;
    to_return_y <- NpSet.setitem2 to_return_y c 1 (1 - gt)%Q ;;
    Ok (to_return_x, to_return_y, c + 1, g)
  else Ok (to_return_x, to_return_y, c + 1, g).

Definition next_batch (self : t) (batch_size : Z)
  : result (Np.ndarray3 Z * Np.ndarray2 Q * t) :=
  let width := 2 * NR self in
  let height := C_IN self + C_BACK self in
  _ <- check_dims [batch_size; width; height] ;;
  let to_return_x :=
    Np.zeros3 0 (Z.to_nat batch_size) (Z.to_nat width) (Z.to_nat height) in
  let to_return_y := Np.zeros2 0%Q (Z.to_nat batch_size) 2 in
  self <- (if current_spot self + batch_size >? total_vects self then
             match train_inds self with
             | Some inds =>
                 let '(inds, g) := shuffle (gen self) inds in
                 Ok (set_cursor_pool self 0 (Some inds) g)
             | None => Raise AttributeError
             end
           else Ok self) ;;
  let start := current_spot self in
  let end_ := start + batch_size in
  inds <- match train_inds self with
          | Some inds => Ok inds
          | None => Raise AttributeError
          end ;;
  let batch_inds := Py.slice inds start end_ in
  '(to_return_x, to_return_y, _, g) <-
     for_ batch_inds (next_batch_step self)
          (to_return_x, to_return_y, 0, gen self) ;;
  Ok (to_return_x, to_return_y,
      set_cursor_pool self end_ (train_inds self) g).

Definition predict_step (self : t) (ind : Z) (to_return_x : Np.ndarray3 Z)
  : result (Np.ndarray3 Z) :=
  '(row, col, to_put) <- window_at self ind ;;
  _ <- match Py.norm_index (Np.dim0 to_return_x) ind with
       | Some _ => Ok tt
       | None => Raise IndexError
       end ;;
  if Np.shape2_eqb (Np.shape2 to_put)
       (Np.dim1 to_return_x, Np.dim2 to_return_x)
  then NpSet.setplane3 to_return_x ind to_put
  else Ok to_return_x.

Definition get_predict_batch (self : t) : result (Np.ndarray3 Z) :=
  let width := 2 * NR self in
  let height := C_IN self + C_BACK self in
  _ <- check_dims [total_vects self; width; height] ;;
  let to_return_x :=
    Np.zeros3 0 (Z.to_nat (total_vects self)) (Z.to_nat width)
              (Z.to_nat height) in
  for_ (Py.range 0 (total_vects self)) (predict_step self) to_return_x.

Definition get_output_shape (self : t) : nat * nat :=
  (Np.dim0 (flt_volume self), Np.dim1 (flt_volume self)).

Definition make_train_with_style (self : t) (style : string) (dropout : Q)
  : result t :=
  _ <- check_dims [total_vects self] ;;
  let ind_pool := repeat 0 (Z.to_nat (total_vects self)) in
  ind_pool <-
    for_ (Py.range 0 (Z.of_nat (Np.dim0 (raw_volume self)))) (fun row pool =>
      for_ (Py.range 0 (Z.of_nat (Np.dim1 (raw_volume self)))) (fun col pool =>
        m <- Np.getitem2 (frag_mask self) row col ;;
        if negb (m =? 0) then
          let ind := coord_to_ind self row col in
          NpSet.setitem1 pool ind ind
        else Ok pool) pool) ind_pool ;;
  let ind_pool := filter (fun v => negb (v =? 0)) ind_pool in
  if String.eqb style "drop" then
    let self := set_style self "drop" in
    let n := Z.of_nat (List.length ind_pool) in
    let '(ind_pool, g) := shuffle (gen self) ind_pool in
    let train_inds := Py.slice ind_pool 0 (Py.int (dropout * inject_Z n)) in
    let '(train_inds, g) := shuffle g train_inds in
    Ok (set_cursor_pool self (current_spot self) (Some train_inds) g)
  else if String.eqb style "rhalf" then
    let self := set_style self "rhalf" in
    let split := (inject_Z (Z.of_nat (Np.dim1 (raw_volume self))) / 2)%Q in
    let train_inds :=
      filter (fun ind => negb (Qle_bool (inject_Z (ind mod 2)) split)) ind_pool in
    let '(train_inds, g) := shuffle (gen self) train_inds in
    Ok (set_cursor_pool self (current_spot self) (Some train_inds) g)
  else if String.eqb style "lhalf" then
    let self := set_style self "lhalf" in
    let split := (inject_Z (Z.of_nat (Np.dim1 (raw_volume self))) / 2)%Q in
    let train_inds :=
      filter (fun ind => negb (Qle_bool split (inject_Z (ind mod 2)))) ind_pool in
    let '(train_inds, g) := shuffle (gen self) train_inds in
    Ok (set_cursor_pool self (current_spot self) (Some train_inds) g)
  else Raise UnboundLocalError.

(** A sampler whose maps all have the shape of the surface. *)
Definition wf (self : t) : Prop :=
  let rows := Np.dim0 (raw_volume self) in
  let cols := Np.dim1 (raw_volume self) in
  Np.wf3 (flt_volume self) /\
  Np.dim0 (flt_volume self) = rows /\ Np.dim1 (flt_volume self) = cols /\
  Np.wf2 (surf_pts self) /\ Np.shape2 (surf_pts self) = (rows, cols) /\
  Np.wf2 (ground_truth self) /\ Np.shape2 (ground_truth self) = (rows, cols) /\
  Np.wf2 (frag_mask self) /\ Np.shape2 (frag_mask self) = (rows, cols) /\
  total_vects self = Z.of_nat rows * Z.of_nat cols.

(** The indices of a pool are linear indices of the surface. *)
Definition in_range (self : t) (pool : list Z) : Prop :=
  Forall (fun ind => 0 <= ind < total_vects self) pool.

(** The point of a linear index is marked in the fragment mask. *)
Definition marked (self : t) (ind : Z) : Prop :=
  exists row col m,
    ind_to_coord self ind = Ok (row, col) /\
    Np.getitem2 (frag_mask self) row col = Ok m /\ m <> 0.

End WithRandom.

End TrainVol.

(** ** inkid/ops/ops.py *)

Module Ops.

(** Two points and a distance: whether the squares of that side centred on
    the points overlap.  The numbers are taken exactly, as Python integers
    are; on floats the source compares the rounded differences. *)
Definition are_coordinates_within (p1 p2 : Q * Q) (distance : Q) : bool :=
  let '(x1, y1) := p1 in
  let '(x2, y2) := p2 in
  negb (Qle_bool distance (Qabs (x1 - x2)))
  && negb (Qle_bool distance (Qabs (y1 - y2))).

End Ops.

(** ** features.py *)

Module Features.

(** A float64 cell of a feature map: a finite value, taken as an exact real,
    or NaN. *)
Inductive f64 : Type :=
| Fin (r : R)
| NaN.

Definition sumsq (l : list R) : R := fold_right (fun x acc => x * x + acc)%R 0%R l.

(** [np.mean], [np.sum], [np.std] of integer data as float64 cells. *)
Definition mean (l : list Z) : f64 :=
  match l with
  | [] => NaN
  | _ => Fin (IZR (Red.sum l) / INR (List.length l))%R
  end.

Definition sum (l : list Z) : f64 := Fin (IZR (Red.sum l)).

Definition std (l : list Z) : f64 :=
  match l with
  | [] => NaN
  | _ =>
      let m := (IZR (Red.sum l) / INR (List.length l))%R in
      Fin (sqrt (sumsq (map (fun v => IZR v - m)%R l) / INR (List.length l)))
  end.

(** [np.count_nonzero(np.where(cond, v, 0))] *)
Definition count_where (cond : Z -> bool) (l : list Z) : nat :=
  List.length
    (filter (fun v => negb (v =? 0)) (map (fun v => if cond v then v else 0) l)).

(** [np.nan_to_num] *)
Definition nan_to_num (a : Np.ndarray2 f64) : Np.ndarray2 f64 :=
  Np.mk2 (Np.rows2 a) (Np.cols2 a)
    (map (map (fun c => match c with Fin r => Fin r | NaN => Fin 0 end))
         (Np.items2 a)).

Definition is_nan (c : f64) : bool :=
  match c with Fin _ => false | NaN => true end.

Definition to_real (c : f64) : R :=
  match c with Fin r => r | NaN => 0%R end.

Definition normalize_row (r : list R) : list R :=
  let norm := sqrt (sumsq r) in
  let norm := if Req_dec_T norm 0 then 1%R else norm in
  map (fun x => x / norm)%R r.

(** [sklearn.preprocessing.normalize(X)] with its defaults ([norm='l2'],
    [axis=1]), after the library's documentation: the input check rejects
    NaN and arrays without a sample or without a feature; then every row is
    divided by its own Euclidean norm, a row of norm zero being left as it
    is. *)
Definition normalize (X : Np.ndarray2 f64) : result (Np.ndarray2 R) :=
  if existsb (existsb is_nan) (Np.items2 X) then Raise ValueError
  else if Nat.eqb (Np.rows2 X) 0 || Nat.eqb (Np.cols2 X) 0 then Raise ValueError
  else Ok (Np.mk2 (Np.rows2 X) (Np.cols2 X)
             (map (fun r => normalize_row (map to_real r)) (Np.items2 X))).

(** [np.swapaxes(a, 1, 2)] and [np.swapaxes(a, 0, 2)] *)
Definition swapaxes_1_2 {A} (d : A) (a : Np.ndarray3 A) : Np.ndarray3 A :=
  Np.tabulate3 (Np.dim0 a) (Np.dim2 a) (Np.dim1 a)
    (fun i j k => Np.at3 d a i k j).

Definition swapaxes_0_2 {A} (d : A) (a : Np.ndarray3 A) : Np.ndarray3 A :=
  Np.tabulate3 (Np.dim2 a) (Np.dim1 a) (Np.dim0 a)
    (fun i j k => Np.at3 d a k j i).

(** [np.array(features)] on a list of maps of one shape [(rows, cols)] *)
Definition stack (rows cols : nat) (features : list (Np.ndarray2 R))
  : Np.ndarray3 R :=
  Np.mk3 (List.length features) rows cols (map Np.items2 features).

(** The six single-vector maps. *)
Record single : Type := mk_single {
  depth_vals : Np.ndarray2 f64;
  avg_vals : Np.ndarray2 f64;
  sum_vals : Np.ndarray2 f64;
  min_vals : Np.ndarray2 f64;
  max_vals : Np.ndarray2 f64;
  std_vals : Np.ndarray2 f64
}.

(** The four neighbourhood maps. *)
Record neigh : Type := mk_neigh {
  mean_neigh : Np.ndarray2 f64;
  sum_neigh : Np.ndarray2 f64;
  surf_stdev_neigh : Np.ndarray2 f64;
  depth_neigh : Np.ndarray2 f64
}.

(** The depth window [srf:cut] at a point. *)
Definition window (surf_pts : Np.ndarray2 Z) (CUT_IN CUT_BACK i j : Z)
  : result (Z * Z) :=
  s <- Np.getitem2 surf_pts i j ;;
  let srf := s - CUT_BACK in
  let srf := if srf <? 0 then 0 else srf in
  let cut := srf + CUT_IN in
  Ok (srf, cut).

Definition single_step (volume : Np.ndarray3 Z) (surf_pts : Np.ndarray2 Z)
    (CUT_IN CUT_BACK THRESH : Z) (i j : Z) (m : single) : result single :=
  '(srf, cut) <- window surf_pts CUT_IN CUT_BACK i j ;;
  vec <- Np.getvec3 volume i j ;;
  let tmp_vect := Py.slice vec srf cut in
  let depth := count_where (fun v => v >? THRESH) tmp_vect in
  depth_vals <- NpSet.setitem2 (depth_vals m) i j (Fin (INR depth)) ;;
  avg_vals <- NpSet.setitem2 (avg_vals m) i j (mean tmp_vect) ;;
  sum_vals <- NpSet.setitem2 (sum_vals m) i j (sum tmp_vect) ;;
  mn <- Red.min tmp_vect ;;
  min_vals <- NpSet.setitem2 (min_vals m) i j (Fin (IZR mn)) ;;
  mx <- Red.max tmp_vect ;;
  max_vals <- NpSet.setitem2 (max_vals m) i j (Fin (IZR mx)) ;;
  std_vals <- NpSet.setitem2 (std_vals m) i j (std tmp_vect) ;;
  Ok (mk_single depth_vals avg_vals sum_vals min_vals max_vals std_vals).

Definition neigh_step (volume : Np.ndarray3 Z) (surf_pts : Np.ndarray2 Z)
    (CUT_IN CUT_BACK NR THRESH : Z) (i j : Z) (m : neigh) : result neigh :=
  '(srf, cut) <- window surf_pts CUT_IN CUT_BACK i j ;;
  let neigh_vects :=
    Np.flatten3 (Np.slice3 volume (i - NR) (i + NR + 1) (j - NR) (j + NR + 1)
                           srf cut) in
  mean_neigh <- NpSet.setitem2 (mean_neigh m) i j (mean neigh_vects) ;;
  sum_neigh <- NpSet.setitem2 (sum_neigh m) i j (sum neigh_vects) ;;
  surf_stdev_neigh <-
    NpSet.setitem2 (surf_stdev_neigh m) i j (std neigh_vects) ;;
  depth_neigh <-
    NpSet.setitem2 (depth_neigh m) i j
      (Fin (INR (count_where (fun v => v <? THRESH) neigh_vects))) ;;
  Ok (mk_neigh mean_neigh sum_neigh surf_stdev_neigh depth_neigh).

(** [extract_for_vol]; [cached] is what loading the cache file gave, if it
    could be loaded.  The closing [np.save] is not part of the model. *)
Definition extract_for_vol (cached : option (Np.ndarray3 R))
    (volume : Np.ndarray3 Z) (surf_pts : Np.ndarray2 Z)
    (CUT_IN CUT_BACK NEIGH_RADIUS THRESH : Z) : result (Np.ndarray3 R) :=
  match cached with
  | Some features => Ok features
  | None =>
      let rows := Np.dim0 volume in
      let cols := Np.dim1 volume in
      let z := Np.zeros2 (Fin 0) rows cols in
      s <- for_ (Py.range 0 (Z.of_nat rows)) (fun i m =>
             for_ (Py.range 0 (Z.of_nat cols))
                  (fun j m => single_step volume surf_pts CUT_IN CUT_BACK
                                          THRESH i j m) m)
             (mk_single z z z z z z) ;;
      f0 <- normalize (nan_to_num (sum_vals s)) ;;
      f1 <- normalize (depth_vals s) ;;
      f2 <- normalize (avg_vals s) ;;
      f3 <- normalize (nan_to_num (min_vals s)) ;;
      f4 <- normalize (nan_to_num (max_vals s)) ;;
      f5 <- normalize (nan_to_num (std_vals s)) ;;
      let NR := NEIGH_RADIUS in
      n <- for_ (Py.range NR (Z.of_nat rows - NR)) (fun i m =>
             for_ (Py.range NR (Z.of_nat cols - NR))
                  (fun j m => neigh_step volume surf_pts CUT_IN CUT_BACK NR
                                         THRESH i j m) m)
             (mk_neigh z z z z) ;;
      f6 <- normalize (nan_to_num (mean_neigh n)) ;;
      f7 <- normalize (nan_to_num (sum_neigh n)) ;;
      f8 <- normalize (nan_to_num (surf_stdev_neigh n)) ;;
      f9 <- normalize (nan_to_num (depth_neigh n)) ;;
      let features := stack rows cols [f0; f1; f2; f3; f4; f5; f6; f7; f8; f9] in
      let features := swapaxes_1_2 0%R features in
      let features := swapaxes_0_2 0%R features in
      Ok features
  end.


Definition channel_flat (F : Np.ndarray3 R) (k : nat) : list R :=
  concat (map (fun plane => map (fun px => nth k px 0%R) plane) (Np.items3 F)).

(** A map of the result: well formed, of the shape of the surface. *)
Definition shaped (rows cols : nat) (a : Np.ndarray2 f64) : Prop :=
  Np.wf2 a /\ Np.rows2 a = rows /\ Np.cols2 a = cols.






(** No cell of a map is NaN. *)
Definition no_nan (a : Np.ndarray2 f64) : Prop :=
  Forall (Forall (fun c => is_nan c = false)) (Np.items2 a).

(** The six single-vector maps all have that shape. *)
Definition single_shaped (rows cols : nat) (m : single) : Prop :=
  shaped rows cols (depth_vals m) /\
  shaped rows cols (avg_vals m) /\
  shaped rows cols (sum_vals m) /\
  shaped rows cols (min_vals m) /\
  shaped rows cols (max_vals m) /\
  shaped rows cols (std_vals m).

End Features.

(** ** A loop shape shared by the relabelling and the masking code *)

Module Grid.

Section Paint.

(** A doubly nested loop that, at each [(i, j)] of a grid, stores a value
    in cell [(i, j)] when a test holds there. *)
Context {A : Type} (d : A).
Variable cond : Z -> Z -> bool.
Variable val : Z -> Z -> A.

Definition paint_cell (i j : Z) (a : Np.ndarray2 A) : result (Np.ndarray2 A) :=
  if cond i j then NpSet.setitem2 a i j (val i j) else Ok a.

(** What the loop over rows [rs] and columns [cs] makes of [a0]. *)
Definition painted (a0 : Np.ndarray2 A) (rs cs : list Z) (a : Np.ndarray2 A)
  : Prop :=
  Np.wf2 a /\ Np.rows2 a = Np.rows2 a0 /\ Np.cols2 a = Np.cols2 a0 /\
  forall i j : nat,
    Np.at2 d a i j =
    if existsb (Z.eqb (Z.of_nat i)) rs && existsb (Z.eqb (Z.of_nat j)) cs
       && cond (Z.of_nat i) (Z.of_nat j)
    then val (Z.of_nat i) (Z.of_nat j)
    else Np.at2 d a0 i j.

End Paint.

End Grid.

(** ** Concrete volumes used in the evaluation lemmas *)

Module Fixtures.

(** A 2x2x2 ramp: the voxel at [(z, y, x)] holds [x + 2 y + 4 z]. *)
Definition ramp2 : Volume.t :=
  Np.mk3 2 2 2 [[[0; 1]; [2; 3]]; [[4; 5]; [6; 7]]].

(** A 4x4x4 ramp: the voxel at [(z, y, x)] holds [x + 4 y + 16 z]. *)
Definition ramp4 : Volume.t :=
  Np.tabulate3 4 4 4 (fun z y x => Z.of_nat (x + 4 * y + 16 * z)).

(** A 3x3 annotation, ink everywhere but in the last corner. *)
Definition truth3 : Np.ndarray2 Z :=
  Np.mk2 3 3 [[1; 1; 1]; [1; 1; 1]; [1; 1; 0]].

(** A 10x10 surface whose every depth profile is the step [0, 5, 7]. *)
Definition slab10 : Np.ndarray3 Z :=
  Np.tabulate3 10 10 3 (fun _ _ k => nth k [0; 5; 7] 0).

(** A 12x12 surface with the same step profile, and an annotation that is
    ink everywhere. *)
Definition slab12 : Np.ndarray3 Z :=
  Np.tabulate3 12 12 3 (fun _ _ k => nth k [0; 5; 7] 0).

Definition ink12 : Np.ndarray2 Z := Np.mk2 12 12 (repeat (repeat 1 12) 12).

(** A deterministic stand-in for [np.random]: the state counts the draws,
    a shuffle reverses, [randint(n)] is the count modulo [n]. *)
Definition det_shuffle (g : nat) (l : list Z) : list Z * nat := (rev l, S g).
Definition det_randint (g : nat) (n : Z) : Z * nat := (Z.of_nat g mod n, S g).

(** [TrainVol(slab12, ink12, CUT_IN=1, CUT_BACK=1, NR=1, THRESH=2)] followed
    by [make_train_with_style('drop', 0.6)]. *)
Definition sampler12 : result (TrainVol.t nat) :=
  tv <- TrainVol.init nat slab12 ink12 1 1 1 2 0%nat ;;
  TrainVol.make_train_with_style nat det_shuffle tv "drop" (6 # 10).

(** The same with [CUT_BACK=2]: every window [surf-2:surf+1] starts at -1,
    which counts from the end of the depth axis. *)
Definition sampler12_deep : result (TrainVol.t nat) :=
  tv <- TrainVol.init nat slab12 ink12 1 2 1 2 0%nat ;;
  TrainVol.make_train_with_style nat det_shuffle tv "drop" (6 # 10).

(** [TrainVol(slab12, ink12, CUT_IN=1, CUT_BACK=1, NR=1, THRESH=2)] before
    any call of [make_train_with_style]. *)
Definition fresh12 : result (TrainVol.t nat) :=
  TrainVol.init nat slab12 ink12 1 1 1 2 0%nat.

(** A 2x2x2 volume of distinct positive values, with the surface at depth 0
    everywhere. *)
Definition vol222 : Np.ndarray3 Z :=
  Np.mk3 2 2 2 [[[1; 2]; [3; 4]]; [[5; 6]; [7; 8]]].

Definition surf22 : Np.ndarray2 Z := Np.mk2 2 2 [[0; 0]; [0; 0]].

(** A 1x1x2 volume whose surface map points past the end of the depth
    axis. *)
Definition vol112 : Np.ndarray3 Z := Np.mk3 1 1 2 [[[5; 7]]].

Definition surf11_deep : Np.ndarray2 Z := Np.mk2 1 1 [[2]].

End Fixtures.

(** * Properties *)

(** ** Python indexing and slicing *)

Module PyFacts.

Lemma norm_index_inside (n : nat) (i : Z) :
  0 <= i < Z.of_nat n -> Py.norm_index n i = Some (Z.to_nat i).
Proof.
  intros H. unfold Py.norm_index.
  replace (0 <=? i) with true by (symmetry; apply Z.leb_le; lia).
  replace (i <? Z.of_nat n) with true by (symmetry; apply Z.ltb_lt; lia).
  reflexivity.
Qed.

Lemma norm_index_wrap (n : nat) (i : Z) :
  - Z.of_nat n <= i < 0 -> Py.norm_index n i = Some (Z.to_nat (i + Z.of_nat n)).
Proof.
  intros H. unfold Py.norm_index.
  replace (0 <=? i) with false by (symmetry; apply Z.leb_gt; lia).
  replace (i <? 0) with true by (symmetry; apply Z.ltb_lt; lia).
  replace (- Z.of_nat n <=? i) with true by (symmetry; apply Z.leb_le; lia).
  reflexivity.
Qed.

Lemma norm_index_outside (n : nat) (i : Z) :
  i < - Z.of_nat n \/ Z.of_nat n <= i -> Py.norm_index n i = None.
Proof.
  intros H. unfold Py.norm_index.
  destruct (Z.leb_spec 0 i), (Z.ltb_spec i (Z.of_nat n)),
    (Z.ltb_spec i 0), (Z.leb_spec (- Z.of_nat n) i); simpl; try reflexivity; lia.
Qed.

Lemma norm_index_bound (n : nat) (i : Z) (k : nat) :
  Py.norm_index n i = Some k -> (k < n)%nat.
Proof.
  unfold Py.norm_index.
  destruct (Z.leb_spec 0 i), (Z.ltb_spec i (Z.of_nat n)),
    (Z.ltb_spec i 0), (Z.leb_spec (- Z.of_nat n) i); simpl;
    intros E; inversion E; lia.
Qed.

(** A slice whose bounds lie inside the sequence is the plain segment. *)
Lemma clip_inside (n : nat) (i : Z) :
  0 <= i <= Z.of_nat n -> Py.clip n i = Z.to_nat i.
Proof.
  intros H. unfold Py.clip.
  destruct (Z.ltb_spec i 0); [lia|]. f_equal. lia.
Qed.

Lemma slice_inside {A} (l : list A) (a b : Z) :
  0 <= a <= b -> b <= Z.of_nat (List.length l) ->
  Py.slice l a b = firstn (Z.to_nat (b - a)) (skipn (Z.to_nat a) l).
Proof.
  intros H1 H2. unfold Py.slice.
  rewrite !clip_inside by lia. f_equal. lia.
Qed.

Lemma slice_length {A} (l : list A) (a b : Z) :
  List.length (Py.slice l a b) = Py.slice_len (List.length l) a b.
Proof.
  unfold Py.slice, Py.slice_len.
  rewrite length_firstn, length_skipn.
  assert (Py.clip (List.length l) b <= List.length l)%nat.
  { unfold Py.clip. destruct (Z.ltb_spec b 0); lia. }
  lia.
Qed.

Lemma nth_slice_inside {A} (d : A) (l : list A) (a b : Z) (k : nat) :
  0 <= a <= b -> b <= Z.of_nat (List.length l) -> (k < Z.to_nat (b - a))%nat ->
  nth k (Py.slice l a b) d = nth (Z.to_nat a + k) l d.
Proof.
  intros H1 H2 Hk. rewrite slice_inside by assumption.
  rewrite nth_firstn.
  replace (k <? Z.to_nat (b - a))%nat with true
    by (symmetry; apply Nat.ltb_lt; assumption).
  apply nth_skipn.
Qed.

Lemma range_In (lo hi i : Z) : In i (Py.range lo hi) <-> lo <= i < hi.
Proof.
  unfold Py.range. rewrite in_map_iff. split.
  - intros [k [E Hk]]. apply in_seq in Hk. lia.
  - intros H. exists (Z.to_nat (i - lo)). split; [lia|].
    apply in_seq. lia.
Qed.

End PyFacts.

(** ** numpy arrays *)

Module NpFacts.

Lemma wf3_plane {A} (a : Np.ndarray3 A) (i : nat) :
  Np.wf3 a -> (i < Np.dim0 a)%nat ->
  exists p, nth_error (Np.items3 a) i = Some p /\
            List.length p = Np.dim1 a /\ Np.wf_rows (Np.dim2 a) p.
Proof.
  intros [Hl Hf] Hi.
  destruct (nth_error (Np.items3 a) i) as [p|] eqn:E.
  - exists p. split; [reflexivity|].
    rewrite Forall_forall in Hf. apply Hf. eapply nth_error_In; eassumption.
  - apply nth_error_None in E. lia.
Qed.

Lemma wf_rows_row {A} (c : nat) (p : list (list A)) (j : nat) :
  Np.wf_rows c p -> (j < List.length p)%nat ->
  exists r, nth_error p j = Some r /\ List.length r = c.
Proof.
  intros Hf Hj.
  destruct (nth_error p j) as [r|] eqn:E.
  - exists r. split; [reflexivity|].
    unfold Np.wf_rows in Hf. rewrite Forall_forall in Hf.
    apply Hf. eapply nth_error_In; eassumption.
  - apply nth_error_None in E. lia.
Qed.

Lemma getvec3_inside {A} (a : Np.ndarray3 A) (i j : Z) :
  Np.wf3 a -> 0 <= i < Z.of_nat (Np.dim0 a) -> 0 <= j < Z.of_nat (Np.dim1 a) ->
  exists r, Np.getvec3 a i j = Ok r /\ List.length r = Np.dim2 a /\
            r = nth (Z.to_nat j) (nth (Z.to_nat i) (Np.items3 a) []) [].
Proof.
  intros Hwf Hi Hj. unfold Np.getvec3.
  rewrite !PyFacts.norm_index_inside by assumption.
  destruct (wf3_plane a (Z.to_nat i) Hwf) as [p [Ep [Lp Wp]]]; [lia|].
  destruct (wf_rows_row _ p (Z.to_nat j) Wp) as [r [Er Lr]]; [lia|].
  rewrite Ep, Er. exists r. repeat split; [assumption|].
  erewrite (nth_error_nth _ _ _ Ep). erewrite (nth_error_nth _ _ _ Er).
  reflexivity.
Qed.

Lemma getitem3_at {A} (d : A) (a : Np.ndarray3 A) (i j k : nat) :
  Np.wf3 a -> (i < Np.dim0 a)%nat -> (j < Np.dim1 a)%nat -> (k < Np.dim2 a)%nat ->
  match nth_error (Np.items3 a) i with
  | Some p =>
      match nth_error p j with
      | Some r => match nth_error r k with
                  | Some v => Ok v
                  | None => Raise IndexError
                  end
      | None => Raise IndexError
      end
  | None => Raise IndexError
  end = Ok (Np.at3 d a i j k).
Proof.
  intros Hwf Hi Hj Hk.
  destruct (wf3_plane a i Hwf Hi) as [p [Ep [Lp Wp]]].
  destruct (wf_rows_row _ p j Wp) as [r [Er Lr]]; [lia|].
  rewrite Ep, Er. unfold Np.at3.
  erewrite (nth_error_nth _ _ _ Ep). erewrite (nth_error_nth _ _ _ Er).
  destruct (nth_error r k) as [v|] eqn:Ev.
  - erewrite (nth_error_nth _ _ _ Ev). reflexivity.
  - apply nth_error_None in Ev. lia.
Qed.

End NpFacts.

(** ** Volume.py *)

Module VolumeFacts.

Import Fixtures.

(** C8, as stated, fails: the coordinate [x = -1] truncates to the index
    [-1], which is outside [0, 2), and [intensity_at] does not raise: it
    returns the voxel at the other end of the axis, the one [x = 1]
    addresses. *)
Lemma intensity_at_negative_wraps :
  Py.int (-1) = -1 /\
  Volume.intensity_at ramp2 (-1) 0 0 = Ok 1 /\
  Volume.intensity_at ramp2 1 0 0 = Ok 1.
Proof. repeat split. Qed.

(** C8, amended: [intensity_at] raises [IndexError] exactly when a truncated
    index lies outside [-dim, dim) on its axis; an index in [-dim, 0) is
    counted from the end of the axis, so the voxel at [index mod dim] is
    returned. *)
Theorem intensity_at_index_policy (v : Volume.t) (x y z : Q) :
  Np.wf3 v ->
  let D := Z.of_nat (Np.dim0 v) in
  let H := Z.of_nat (Np.dim1 v) in
  let W := Z.of_nat (Np.dim2 v) in
  let xi := Py.int x in
  let yi := Py.int y in
  let zi := Py.int z in
  ((zi < - D \/ D <= zi \/ yi < - H \/ H <= yi \/ xi < - W \/ W <= xi) ->
   Volume.intensity_at v x y z = Raise IndexError) /\
  ((- D <= zi < D /\ - H <= yi < H /\ - W <= xi < W) ->
   Volume.intensity_at v x y z =
     Ok (Np.at3 0 v (Z.to_nat (zi mod D)) (Z.to_nat (yi mod H))
                (Z.to_nat (xi mod W)))).
Proof.
  intros Hwf D H W xi yi zi. unfold Volume.intensity_at, Np.getitem3.
  fold xi yi zi. split.
  - intros Hout.
    destruct (Py.norm_index (Np.dim0 v) zi) eqn:Ez;
      [|reflexivity].
    destruct (Py.norm_index (Np.dim1 v) yi) eqn:Ey;
      [|reflexivity].
    destruct (Py.norm_index (Np.dim2 v) xi) eqn:Ex;
      [|reflexivity].
    exfalso.
    destruct Hout as [Ho|[Ho|[Ho|[Ho|[Ho|Ho]]]]].
    1,2: rewrite PyFacts.norm_index_outside in Ez by (subst D; lia); discriminate.
    1,2: rewrite PyFacts.norm_index_outside in Ey by (subst H; lia); discriminate.
    1,2: rewrite PyFacts.norm_index_outside in Ex by (subst W; lia); discriminate.
  - intros [Hz [Hy Hx]].
    assert (Wrap : forall (n : nat) (i : Z),
               - Z.of_nat n <= i < Z.of_nat n ->
               Py.norm_index n i = Some (Z.to_nat (i mod Z.of_nat n)) /\
               (Z.to_nat (i mod Z.of_nat n) < n)%nat).
    { intros n i Hi. destruct (Z.lt_ge_cases i 0).
      - rewrite PyFacts.norm_index_wrap by lia.
        replace (i mod Z.of_nat n) with (i + Z.of_nat n); [split; [reflexivity|lia]|].
        apply Z.mod_unique with (q := -1); lia.
      - rewrite PyFacts.norm_index_inside by lia.
        rewrite Z.mod_small by lia. split; [reflexivity|lia]. }
    destruct (Wrap _ _ Hz) as [Ez Bz].
    destruct (Wrap _ _ Hy) as [Ey By].
    destruct (Wrap _ _ Hx) as [Ex Bx].
    rewrite Ez, Ey, Ex.
    apply NpFacts.getitem3_at; assumption.
Qed.

Lemma ramp2_wf : Np.wf3 ramp2.
Proof.
  split; [reflexivity|].
  repeat constructor.
Qed.

(** The index policy at work on the 2x2x2 ramp: [x = -1] reads the last
    voxel of the x axis. *)
Lemma intensity_at_index_policy_witness :
  Volume.intensity_at ramp2 (-1) 0 0 = Ok 1.
Proof.
  pose proof (intensity_at_index_policy ramp2 (-1) 0 0 ramp2_wf) as [_ P].
  rewrite P; [reflexivity|].
  vm_compute. repeat split; congruence.
Defined.

End VolumeFacts.

Module SubvolumeFacts.

Import Fixtures.

(** A window [c-h : c+h] around a non-negative centre has its full length
    exactly when it lies inside the axis. *)
Lemma slice_len_centered (n : nat) (c h : Z) :
  0 <= c -> 0 < h ->
  (Py.slice_len n (c - h) (c + h) = Z.to_nat (2 * h) <->
   h <= c /\ c + h <= Z.of_nat n).
Proof.
  intros Hc Hh. unfold Py.slice_len, Py.clip.
  destruct (Z.ltb_spec (c + h) 0); [lia|].
  destruct (Z.ltb_spec (c - h) 0); lia.
Qed.

Lemma slice_nil {A} (a b : Z) : Py.slice (@nil A) a b = [].
Proof. unfold Py.slice. rewrite skipn_nil, firstn_nil. reflexivity. Qed.

Lemma wf3_nth_plane {A} (a : Np.ndarray3 A) (i : nat) :
  Np.wf3 a -> (i < Np.dim0 a)%nat ->
  List.length (nth i (Np.items3 a) []) = Np.dim1 a /\
  Np.wf_rows (Np.dim2 a) (nth i (Np.items3 a) []).
Proof.
  intros Hwf Hi.
  destruct (NpFacts.wf3_plane a i Hwf Hi) as [p [Ep [Lp Wp]]].
  rewrite (nth_error_nth _ _ _ Ep). split; assumption.
Qed.

Lemma wf_rows_nth {A} (c : nat) (p : list (list A)) (j : nat) :
  Np.wf_rows c p -> (j < List.length p)%nat -> List.length (nth j p []) = c.
Proof.
  intros Hw Hj.
  destruct (NpFacts.wf_rows_row c p j Hw Hj) as [r [Er Lr]].
  rewrite (nth_error_nth _ _ _ Er). assumption.
Qed.

(** A crop that lies inside the array reads the array at the shifted
    position. *)
Lemma at3_slice3_inside {A} (d : A) (a : Np.ndarray3 A)
    (i0 i1 j0 j1 k0 k1 : Z) (i j k : nat) :
  Np.wf3 a ->
  0 <= i0 <= i1 -> i1 <= Z.of_nat (Np.dim0 a) ->
  0 <= j0 <= j1 -> j1 <= Z.of_nat (Np.dim1 a) ->
  0 <= k0 <= k1 -> k1 <= Z.of_nat (Np.dim2 a) ->
  (i < Z.to_nat (i1 - i0))%nat -> (j < Z.to_nat (j1 - j0))%nat ->
  (k < Z.to_nat (k1 - k0))%nat ->
  Np.at3 d (Np.slice3 a i0 i1 j0 j1 k0 k1) i j k =
  Np.at3 d a (Z.to_nat i0 + i) (Z.to_nat j0 + j) (Z.to_nat k0 + k).
Proof.
  intros Hwf Hi0 Hi1 Hj0 Hj1 Hk0 Hk1 Hi Hj Hk.
  pose proof Hwf as [Hl _].
  unfold Np.at3, Np.slice3. cbn [Np.items3].
  set (g := fun p : list (list A) =>
              map (fun r => Py.slice r k0 k1) (Py.slice p j0 j1)).
  replace (@nil (list A)) with (g []) at 1
    by (unfold g; rewrite slice_nil; reflexivity).
  rewrite (map_nth g).
  rewrite PyFacts.nth_slice_inside by (rewrite ?Hl; lia).
  destruct (wf3_nth_plane a (Z.to_nat i0 + i) Hwf) as [Lp Wp]; [lia|].
  unfold g.
  replace (@nil A) with (Py.slice (@nil A) k0 k1) at 1 by apply slice_nil.
  rewrite (map_nth (fun r => Py.slice r k0 k1)).
  rewrite (PyFacts.nth_slice_inside [] _ j0 j1 j) by (rewrite ?Lp; lia).
  rewrite PyFacts.nth_slice_inside; [reflexivity|lia| |lia].
  rewrite (wf_rows_nth _ _ _ Wp) by lia. lia.
Qed.

(** C1, as stated, fails: on the 4x4x4 ramp the 2x2x2 crop around
    [(2, 2, 2)] lies inside the volume, yet the block returned for
    [shape_zyx = (2, 2, 2)] has shape (96, 96, 48), not the requested one. *)
Lemma get_subvolume_ignores_shape :
  exists r,
    Volume.get_subvolume ramp4 [2; 2; 2]%Q [2; 2; 2]
      Volume.x_axis Volume.y_axis Volume.z_axis = Ok r /\
    Np.shape3 r = (96, 96, 48)%nat /\
    Np.shape3 r <> (2, 2, 2)%nat.
Proof.
  eexists. split; [reflexivity|]. split; [reflexivity|].
  cbn. intros E. inversion E.
Qed.

(** C1, amended: whatever [shape_zyx] and the axis vectors are, for a centre
    that truncates to non-negative [(x, y, z)] the outcome has shape
    (96, 96, 48); it is the crop [z-48:z+48, y-48:y+48, x-24:x+24] of the
    data when that crop lies inside the volume, and all zeros otherwise. *)
Theorem get_subvolume_fixed_crop (v : Volume.t) (cx cy cz : Q)
    (shape_zyx : list Z) (x_vec y_vec z_vec : list Q) :
  Np.wf3 v ->
  List.length shape_zyx = 3%nat -> List.length x_vec = 3%nat ->
  List.length y_vec = 3%nat -> List.length z_vec = 3%nat ->
  let x := Py.int cx in
  let y := Py.int cy in
  let z := Py.int cz in
  0 <= x -> 0 <= y -> 0 <= z ->
  let fits :=
    48 <= z /\ z + 48 <= Z.of_nat (Np.dim0 v) /\
    48 <= y /\ y + 48 <= Z.of_nat (Np.dim1 v) /\
    24 <= x /\ x + 24 <= Z.of_nat (Np.dim2 v) in
  exists r,
    Volume.get_subvolume v [cx; cy; cz] shape_zyx x_vec y_vec z_vec = Ok r /\
    Np.shape3 r = (96, 96, 48)%nat /\
    (fits ->
     forall k j i : nat, (k < 96)%nat -> (j < 96)%nat -> (i < 48)%nat ->
       Np.at3 0 r k j i =
       Np.at3 0 v (Z.to_nat (z - 48) + k) (Z.to_nat (y - 48) + j)
              (Z.to_nat (x - 24) + i)) /\
    (~ fits -> r = Np.zeros3 0 96 96 48).
Proof.
  intros Hwf Ls Lx Ly Lz x y z Hx Hy Hz fits.
  unfold Volume.get_subvolume.
  rewrite Ls, Lx, Ly, Lz. cbn [List.length Nat.eqb assert bind map].
  fold x y z.
  pose proof (slice_len_centered (Np.dim0 v) z 48 Hz ltac:(lia)) as Sz.
  pose proof (slice_len_centered (Np.dim1 v) y 48 Hy ltac:(lia)) as Sy.
  pose proof (slice_len_centered (Np.dim2 v) x 24 Hx ltac:(lia)) as Sx.
  change (Z.to_nat (2 * 48)) with 96%nat in Sz, Sy.
  change (Z.to_nat (2 * 24)) with 48%nat in Sx.
  set (sub := Np.slice3 v (z - 48) (z + 48) (y - 48) (y + 48) (x - 24) (x + 24)).
  destruct (Np.shape3_eqb (Np.shape3 sub) (96, 96, 48)%nat) eqn:E; cbn [negb].
  - unfold Np.shape3_eqb in E. cbn [fst snd Np.shape3] in E.
    apply andb_prop in E as [E E3]. apply andb_prop in E as [E1 E2].
    apply Nat.eqb_eq in E1, E2, E3.
    unfold sub in E1, E2, E3. cbn [Np.slice3 Np.dim0 Np.dim1 Np.dim2] in E1, E2, E3.
    exists sub. split; [reflexivity|]. split.
    + unfold Np.shape3, sub. cbn [Np.slice3 Np.dim0 Np.dim1 Np.dim2].
      rewrite E1, E2, E3. reflexivity.
    + split.
      * intros _ k j i Hk Hj Hi. unfold sub.
        apply at3_slice3_inside; try assumption; lia.
      * intros Hn. exfalso. apply Hn. unfold fits. lia.
  - exists (Np.zeros3 0 96 96 48). split; [reflexivity|]. split; [reflexivity|].
    split; [|reflexivity].
    intros Hf. exfalso. unfold fits in Hf.
    unfold Np.shape3_eqb in E. cbn [fst snd Np.shape3] in E.
    unfold sub in E. cbn [Np.slice3 Np.dim0 Np.dim1 Np.dim2] in E.
    assert (E1 : Py.slice_len (Np.dim0 v) (z - 48) (z + 48) = 96%nat)
      by (apply Sz; lia).
    assert (E2 : Py.slice_len (Np.dim1 v) (y - 48) (y + 48) = 96%nat)
      by (apply Sy; lia).
    assert (E3 : Py.slice_len (Np.dim2 v) (x - 24) (x + 24) = 48%nat)
      by (apply Sx; lia).
    rewrite E1, E2, E3 in E. discriminate.
Qed.

Lemma ramp4_wf : Np.wf3 ramp4.
Proof.
  split; [reflexivity|].
  repeat constructor.
Qed.

(** The fixed crop on the 4x4x4 ramp, asked for a 2x2x2 block: the crop of
    96x96x48 does not fit, the outcome is the zero block. *)
Lemma get_subvolume_fixed_crop_witness :
  Volume.get_subvolume ramp4 [2; 2; 2]%Q [2; 2; 2]
    Volume.x_axis Volume.y_axis Volume.z_axis = Ok (Np.zeros3 0 96 96 48).
Proof.
  pose proof (get_subvolume_fixed_crop ramp4 2 2 2 [2; 2; 2]
                Volume.x_axis Volume.y_axis Volume.z_axis ramp4_wf
                eq_refl eq_refl eq_refl eq_refl) as P.
  cbv zeta in P.
  assert (N : 0 <= Py.int 2) by (vm_compute; congruence).
  destruct (P N N N) as [r [E [_ [_ Zr]]]].
  rewrite E. f_equal. apply Zr.
  intros [C _]. vm_compute in C. apply C. reflexivity.
Defined.

End SubvolumeFacts.

Module InterpolationFacts.

Import Fixtures.

(** C2: on the 2x2x2 ramp at [(x, y, z) = (1/2, 1/2, 0)], all eight
    neighbours in bounds, [interpolate_at] returns 1 while the trilinear
    blend of the eight corners is 3/2: the blend [c10] along x at
    [(y1, z0)] takes the corner [(x1, y0, z0)] where [(x1, y1, z0)]
    belongs. *)
Theorem interpolate_at_wrong_corner :
  exists c r,
    Volume.interpolate_at ramp2 (1 # 2) (1 # 2) 0 = Ok c /\ c == 1 /\
    Volume.trilinear_reference ramp2 (1 # 2) (1 # 2) 0 = Ok r /\ r == 3 # 2 /\
    ~ c == r.
Proof.
  eexists. eexists.
  split; [vm_compute; reflexivity|].
  split; [reflexivity|].
  split; [vm_compute; reflexivity|].
  split; [reflexivity|].
  intros E. vm_compute in E. discriminate.
Qed.

Lemma int_inject_Z (n : Z) : Py.int (inject_Z n) = n.
Proof. unfold Py.int. simpl. apply Z.quot_1_r. Qed.

(** The two other parts of C2 hold.  At a lattice point the outcome is the
    voxel there. *)
Lemma interpolate_at_lattice (v : Volume.t) (xi yi zi : Z) (c : Q) :
  Volume.interpolate_at v (inject_Z xi) (inject_Z yi) (inject_Z zi) = Ok c ->
  exists a,
    Volume.intensity_at v (inject_Z xi) (inject_Z yi) (inject_Z zi) = Ok a /\
    c == inject_Z a.
Proof.
  unfold Volume.interpolate_at, Py.modf. rewrite !int_inject_Z.
  set (x := inject_Z xi). set (y := inject_Z yi). set (z := inject_Z zi).
  destruct (Volume.intensity_at v x y z) as [a|e]; [|discriminate].
  cbn [bind].
  repeat match goal with
  | |- bind ?m _ = Ok _ -> _ => destruct m; cbn [bind]; [|discriminate]
  end.
  intros E. inversion E; subst c; clear E.
  exists a. split; [reflexivity|]. ring.
Qed.

(** On a volume whose eight voxels around the point all hold [k], the
    outcome is [k]. *)
Lemma interpolate_at_uniform (v : Volume.t) (x y z : Q) (k : Z) (c : Q) :
  (forall x' y' z' a, Volume.intensity_at v x' y' z' = Ok a -> a = k) ->
  Volume.interpolate_at v x y z = Ok c -> c == inject_Z k.
Proof.
  intros U. unfold Volume.interpolate_at, Py.modf.
  repeat match goal with
  | |- bind ?m _ = Ok _ -> _ =>
      let E := fresh "E" in
      destruct m eqn:E; cbn [bind]; [apply U in E; subst|discriminate]
  end.
  intros E. inversion E; subst c; clear E. ring.
Qed.

End InterpolationFacts.

(** ** Loops and in-place updates *)

Module LoopFacts.

(** A property kept by every step is kept by the loop. *)
Lemma for_invariant {S} (P : S -> Prop) (l : list Z)
    (body : Z -> S -> result S) (s s' : S) :
  (forall i t t', In i l -> P t -> body i t = Ok t' -> P t') ->
  P s -> for_ l body s = Ok s' -> P s'.
Proof.
  revert s. induction l as [|i l IH]; intros s Hb Hs E.
  - inversion E; subst. assumption.
  - cbn [for_] in E. destruct (body i s) as [t|e] eqn:Eb; [|discriminate].
    cbn [bind] in E. apply (IH t).
    + intros j u u' Hj. apply Hb. right. assumption.
    + eapply Hb; [left; reflexivity|eassumption|eassumption].
    + assumption.
Qed.

(** A loop whose steps cannot raise on states satisfying an invariant runs
    to its end. *)
Lemma for_total {S} (P : S -> Prop) (l : list Z)
    (body : Z -> S -> result S) (s : S) :
  (forall i t, In i l -> P t -> exists t', body i t = Ok t' /\ P t') ->
  P s -> exists s', for_ l body s = Ok s' /\ P s'.
Proof.
  revert s. induction l as [|i l IH]; intros s Hb Hs.
  - exists s. split; [reflexivity|assumption].
  - destruct (Hb i s (or_introl eq_refl) Hs) as [t [Eb Pt]].
    destruct (IH t) as [s' [E Ps']].
    + intros j u Hj. apply Hb. right. assumption.
    + assumption.
    + exists s'. split; [|assumption]. cbn [for_]. rewrite Eb. assumption.
Qed.

Lemma upd_length {A} (n : nat) (f : A -> A) (l : list A) :
  List.length (upd n f l) = List.length l.
Proof.
  revert n. induction l as [|a l IH]; intros [|n]; cbn; try reflexivity.
  rewrite IH. reflexivity.
Qed.

Lemma nth_upd {A} (d : A) (n m : nat) (f : A -> A) (l : list A) :
  (n < List.length l)%nat ->
  nth m (upd n f l) d = if Nat.eqb m n then f (nth n l d) else nth m l d.
Proof.
  revert n m. induction l as [|a l IH]; intros n m Hn; cbn in Hn; [lia|].
  destruct n as [|n], m as [|m]; cbn; try reflexivity.
  apply IH. lia.
Qed.

Lemma upd_Forall {A} (P : A -> Prop) (n : nat) (f : A -> A) (l : list A) :
  (forall a, P a -> P (f a)) -> Forall P l -> Forall P (upd n f l).
Proof.
  intros Hf. revert n. induction l as [|a l IH]; intros n Hl; [destruct n; constructor|].
  inversion Hl; subst. destruct n; cbn; constructor; auto.
Qed.

(** [a[i, j] = v] inside the array: shape kept, one cell changed. *)
Lemma setitem2_inside {A} (d : A) (a : Np.ndarray2 A) (i j : Z) (v : A) :
  Np.wf2 a ->
  0 <= i < Z.of_nat (Np.rows2 a) -> 0 <= j < Z.of_nat (Np.cols2 a) ->
  exists a',
    NpSet.setitem2 a i j v = Ok a' /\ Np.wf2 a' /\
    Np.rows2 a' = Np.rows2 a /\ Np.cols2 a' = Np.cols2 a /\
    forall i' j' : nat,
      Np.at2 d a' i' j' =
      if Nat.eqb i' (Z.to_nat i) && Nat.eqb j' (Z.to_nat j) then v
      else Np.at2 d a i' j'.
Proof.
  intros [Hl Hr] Hi Hj. unfold NpSet.setitem2.
  rewrite !PyFacts.norm_index_inside by assumption.
  eexists. split; [reflexivity|]. split; [|split; [reflexivity|split; [reflexivity|]]].
  - split; cbn [Np.items2 Np.rows2 Np.cols2].
    + rewrite upd_length. assumption.
    + apply upd_Forall; [|assumption].
      intros r Lr. rewrite upd_length. assumption.
  - intros i' j'. unfold Np.at2. cbn [Np.items2].
    rewrite nth_upd by lia.
    destruct (Nat.eqb_spec i' (Z.to_nat i)) as [->|Ni]; cbn [andb]; [|reflexivity].
    assert (Lr : List.length (nth (Z.to_nat i) (Np.items2 a) []) = Np.cols2 a).
    { unfold Np.wf_rows in Hr. rewrite Forall_forall in Hr. apply Hr.
      apply nth_In. lia. }
    rewrite nth_upd by lia.
    destruct (Nat.eqb j' (Z.to_nat j)); reflexivity.
Qed.

(** The shape fields never change under [a[i, j] = v]. *)
Lemma setitem2_shape {A} (a a' : Np.ndarray2 A) (i j : Z) (v : A) :
  NpSet.setitem2 a i j v = Ok a' ->
  Np.rows2 a' = Np.rows2 a /\ Np.cols2 a' = Np.cols2 a /\
  (Np.wf2 a -> Np.wf2 a').
Proof.
  unfold NpSet.setitem2.
  destruct (Py.norm_index (Np.rows2 a) i); [|discriminate].
  destruct (Py.norm_index (Np.cols2 a) j); [|discriminate].
  intros E. inversion E; subst; clear E. cbn.
  split; [reflexivity|]. split; [reflexivity|].
  intros [Hl Hr]. split; cbn.
  - rewrite upd_length. assumption.
  - apply upd_Forall; [|assumption].
    intros r Lr. rewrite upd_length. assumption.
Qed.

Lemma zeros2_wf {A} (z : A) (r c : nat) : Np.wf2 (Np.zeros2 z r c).
Proof.
  split; cbn.
  - apply repeat_length.
  - unfold Np.wf_rows. apply Forall_forall. intros x Hx.
    apply repeat_spec in Hx. subst. apply repeat_length.
Qed.

Lemma zeros2_at {A} (z : A) (r c i j : nat) : Np.at2 z (Np.zeros2 z r c) i j = z.
Proof.
  unfold Np.at2. cbn [Np.zeros2 Np.items2].
  destruct (Nat.lt_ge_cases i r) as [Hi|Hi].
  - rewrite nth_repeat_lt by assumption.
    destruct (Nat.lt_ge_cases j c) as [Hj|Hj].
    + apply nth_repeat_lt. assumption.
    + apply nth_overflow. rewrite repeat_length. assumption.
  - rewrite (nth_overflow (repeat _ _)) by (rewrite repeat_length; assumption).
    destruct j; reflexivity.
Qed.

Section Paint.

Context {A : Type} (d : A).
Variable cond : Z -> Z -> bool.
Variable val : Z -> Z -> A.

Let paint_cell := Grid.paint_cell cond val.
Let painted := Grid.painted d cond val.

Lemma paint_row (a0 : Np.ndarray2 A) (i : Z) (cs : list Z) :
  Np.wf2 a0 -> 0 <= i < Z.of_nat (Np.rows2 a0) ->
  (forall j, In j cs -> 0 <= j < Z.of_nat (Np.cols2 a0)) ->
  exists a, for_ cs (paint_cell i) a0 = Ok a /\ painted a0 [i] cs a.
Proof.
  unfold paint_cell, painted, Grid.painted.
  intros Hwf Hi. revert a0 Hwf Hi.
  induction cs as [|j cs IH]; intros a0 Hwf Hi Hcs.
  - exists a0. split; [reflexivity|].
    split; [assumption|]. split; [reflexivity|]. split; [reflexivity|].
    intros i' j'. cbn [existsb]. rewrite andb_false_r. reflexivity.
  - assert (Hj : 0 <= j < Z.of_nat (Np.cols2 a0)) by (apply Hcs; left; reflexivity).
    cbn [for_]. unfold Grid.paint_cell at 1.
    destruct (cond i j) eqn:Ec.
    + destruct (setitem2_inside d a0 i j (val i j) Hwf Hi Hj)
        as [a1 [E1 [W1 [R1 [C1 G1]]]]].
      rewrite E1. cbn [bind].
      destruct (IH a1 W1) as [a [E [W [R [C G]]]]].
      * rewrite R1. assumption.
      * intros j' Hj'. rewrite C1. apply Hcs. right. assumption.
      * exists a. split; [assumption|].
        split; [assumption|]. split; [congruence|]. split; [congruence|].
        intros i' j'. rewrite G, G1. cbn [existsb]. rewrite !orb_false_r.
        destruct (Z.eqb_spec (Z.of_nat i') i) as [Ei|Ni]; cbn [andb].
        -- destruct (existsb (Z.eqb (Z.of_nat j')) cs) eqn:Ex; cbn [andb orb].
           ++ rewrite orb_true_r. cbn [andb].
              destruct (cond (Z.of_nat i') (Z.of_nat j')) eqn:Ec'; [reflexivity|].
              destruct (Nat.eqb_spec i' (Z.to_nat i)); cbn [andb]; [|reflexivity].
              destruct (Nat.eqb_spec j' (Z.to_nat j)) as [Ej|]; [|reflexivity].
              exfalso. subst i' j'. rewrite !Z2Nat.id in Ec' by lia. congruence.
           ++ rewrite orb_false_r.
              destruct (Z.eqb_spec (Z.of_nat j') j) as [Ej|Nj]; cbn [andb].
              ** subst i j. rewrite Ec.
                 rewrite !Nat2Z.id, !Nat.eqb_refl. reflexivity.
              ** destruct (Nat.eqb_spec i' (Z.to_nat i)); cbn [andb]; [|reflexivity].
                 destruct (Nat.eqb_spec j' (Z.to_nat j)) as [Ej|]; [|reflexivity].
                 exfalso. apply Nj. subst j'. lia.
        -- destruct (Nat.eqb_spec i' (Z.to_nat i)) as [Ei|]; cbn [andb]; [|reflexivity].
           exfalso. apply Ni. subst i'. lia.
    + cbn [bind].
      destruct (IH a0 Hwf Hi) as [a [E [W [R [C G]]]]].
      * intros j' Hj'. apply Hcs. right. assumption.
      * exists a. split; [assumption|].
        split; [assumption|]. split; [assumption|]. split; [assumption|].
        intros i' j'. rewrite G. cbn [existsb]. rewrite !orb_false_r.
        destruct (Z.eqb_spec (Z.of_nat i') i) as [Ei|Ni]; cbn [andb]; [|reflexivity].
        destruct (Z.eqb_spec (Z.of_nat j') j) as [Ej|Nj]; cbn [orb]; [|reflexivity].
        subst i j. rewrite Ec. rewrite andb_false_r. cbn [andb].
        destruct (existsb (Z.eqb (Z.of_nat j')) cs); reflexivity.
Qed.

Lemma paint_grid (a0 : Np.ndarray2 A) (rs cs : list Z) :
  Np.wf2 a0 ->
  (forall i, In i rs -> 0 <= i < Z.of_nat (Np.rows2 a0)) ->
  (forall j, In j cs -> 0 <= j < Z.of_nat (Np.cols2 a0)) ->
  exists a,
    for_ rs (fun i a => for_ cs (paint_cell i) a) a0 = Ok a /\
    painted a0 rs cs a.
Proof.
  intros Hwf Hrs Hcs. revert a0 Hwf Hrs Hcs.
  induction rs as [|i rs IH]; intros a0 Hwf Hrs Hcs; unfold painted, Grid.painted.
  - exists a0. split; [reflexivity|].
    split; [assumption|]. split; [reflexivity|]. split; [reflexivity|].
    intros i' j'. reflexivity.
  - cbn [for_].
    destruct (paint_row a0 i cs Hwf) as [a1 [E1 [W1 [R1 [C1 G1]]]]].
    + apply Hrs. left. reflexivity.
    + assumption.
    + rewrite E1. cbn [bind].
      destruct (IH a1 W1) as [a [E [W [R [C G]]]]].
      * intros i' Hi'. rewrite R1. apply Hrs. right. assumption.
      * intros j' Hj'. rewrite C1. apply Hcs. assumption.
      * exists a. split; [assumption|].
        split; [assumption|]. split; [congruence|]. split; [congruence|].
        intros i' j'. rewrite G, G1. cbn [existsb]. rewrite orb_false_r.
        destruct (existsb (Z.eqb (Z.of_nat i')) rs),
          (Z.of_nat i' =? i), (existsb (Z.eqb (Z.of_nat j')) cs),
          (cond (Z.of_nat i') (Z.of_nat j')); reflexivity.
Qed.

End Paint.

Lemma existsb_range (lo hi i : Z) :
  existsb (Z.eqb i) (Py.range lo hi) = (lo <=? i) && (i <? hi).
Proof.
  destruct (existsb (Z.eqb i) (Py.range lo hi)) eqn:E.
  - apply existsb_exists in E as [k [Hk Ek]]. apply Z.eqb_eq in Ek. subst k.
    apply PyFacts.range_In in Hk. symmetry. apply andb_true_intro.
    split; [apply Z.leb_le|apply Z.ltb_lt]; lia.
  - symmetry. apply andb_false_iff.
    destruct (Z.leb_spec lo i); [|left; reflexivity].
    destruct (Z.ltb_spec i hi); [|right; reflexivity].
    exfalso. assert (In i (Py.range lo hi)) by (apply PyFacts.range_In; lia).
    assert (existsb (Z.eqb i) (Py.range lo hi) = true).
    { apply existsb_exists. exists i. split; [assumption|apply Z.eqb_refl]. }
    congruence.
Qed.

End LoopFacts.

(** ** trainvol.py: the relabelled ground truth *)

Module GroundTruthFacts.

Import Fixtures.

Lemma In_slice_inside {A} (l : list A) (a b : Z) (x : A) :
  0 <= a <= b -> b <= Z.of_nat (List.length l) ->
  (In x (Py.slice l a b) <->
   exists k : nat, a <= Z.of_nat k < b /\ nth_error l k = Some x).
Proof.
  intros H1 H2. rewrite PyFacts.slice_inside by assumption. split.
  - intros Hin. apply In_nth_error in Hin as [n Hn].
    assert (Hlt : (n < Z.to_nat (b - a))%nat).
    { destruct (Nat.lt_ge_cases n (Z.to_nat (b - a))) as [|Hge]; [assumption|].
      exfalso. rewrite nth_error_firstn in Hn.
      replace (n <? Z.to_nat (b - a))%nat with false in Hn
        by (symmetry; apply Nat.ltb_ge; assumption).
      discriminate. }
    rewrite nth_error_firstn in Hn.
    replace (n <? Z.to_nat (b - a))%nat with true in Hn
      by (symmetry; apply Nat.ltb_lt; assumption).
    rewrite nth_error_skipn in Hn.
    exists (Z.to_nat a + n)%nat. split; [lia|assumption].
  - intros [k [Hk Ek]].
    apply (nth_error_In _ (k - Z.to_nat a)).
    rewrite nth_error_firstn.
    replace (k - Z.to_nat a <? Z.to_nat (b - a))%nat with true
      by (symmetry; apply Nat.ltb_lt; lia).
    rewrite nth_error_skipn.
    replace (Z.to_nat a + (k - Z.to_nat a))%nat with k by lia. assumption.
Qed.

(** The cells of a window that lies inside the array. *)
Lemma In_window {A} (d : A) (a : Np.ndarray2 A) (i0 i1 j0 j1 : Z) (x : A) :
  Np.wf2 a ->
  0 <= i0 <= i1 -> i1 <= Z.of_nat (Np.rows2 a) ->
  0 <= j0 <= j1 -> j1 <= Z.of_nat (Np.cols2 a) ->
  (In x (Np.flatten2 (Np.slice2 a i0 i1 j0 j1)) <->
   exists r c : nat,
     i0 <= Z.of_nat r < i1 /\ j0 <= Z.of_nat c < j1 /\ x = Np.at2 d a r c).
Proof.
  intros [Hl Hr] Hi0 Hi1 Hj0 Hj1.
  unfold Np.flatten2, Np.slice2. cbn [Np.items2].
  rewrite in_concat. split.
  - intros [row [Hrow Hx]].
    apply in_map_iff in Hrow as [row0 [Erow Hrow0]]. subst row.
    apply In_slice_inside in Hrow0 as [r [Br Er]]; [|lia|lia].
    assert (Lr : List.length row0 = Np.cols2 a).
    { unfold Np.wf_rows in Hr. rewrite Forall_forall in Hr. apply Hr.
      eapply nth_error_In. eassumption. }
    apply In_slice_inside in Hx as [c [Bc Ec]]; [|lia|lia].
    exists r, c. split; [assumption|]. split; [assumption|].
    unfold Np.at2. rewrite (nth_error_nth _ _ _ Er).
    rewrite (nth_error_nth _ _ _ Ec). reflexivity.
  - intros [r [c [Br [Bc Ex]]]].
    destruct (nth_error (Np.items2 a) r) as [row0|] eqn:Er;
      [|apply nth_error_None in Er; lia].
    assert (Lr : List.length row0 = Np.cols2 a).
    { unfold Np.wf_rows in Hr. rewrite Forall_forall in Hr. apply Hr.
      eapply nth_error_In. eassumption. }
    destruct (nth_error row0 c) as [y|] eqn:Ec;
      [|apply nth_error_None in Ec; lia].
    exists (Py.slice row0 j0 j1). split.
    + apply in_map_iff. exists row0. split; [reflexivity|].
      apply In_slice_inside; [lia|lia|]. exists r. split; assumption.
    + apply In_slice_inside; [lia|lia|]. exists c. split; [assumption|].
      rewrite Ec. f_equal. subst x. unfold Np.at2.
      rewrite (nth_error_nth _ _ _ Er). rewrite (nth_error_nth _ _ _ Ec).
      reflexivity.
Qed.

Lemma sum_acc (l : list Z) (acc : Z) :
  fold_left Z.add l acc = acc + Red.sum l.
Proof.
  unfold Red.sum. revert acc. induction l as [|x l IH]; intros acc; cbn.
  - lia.
  - rewrite IH, (IH x). lia.
Qed.

Lemma sum_cons (x : Z) (l : list Z) : Red.sum (x :: l) = x + Red.sum l.
Proof. unfold Red.sum at 1. cbn. apply sum_acc. Qed.

(** On 0/1 data the sum reaches the length only when every entry is 1. *)
Lemma sum_binary (l : list Z) :
  (forall x, In x l -> x = 0 \/ x = 1) ->
  0 <= Red.sum l <= Z.of_nat (List.length l) /\
  (Red.sum l = Z.of_nat (List.length l) <-> forall x, In x l -> x = 1).
Proof.
  induction l as [|y l IH]; intros Hb.
  - split; [cbn; lia|]. split; [intros _ x []|reflexivity].
  - rewrite sum_cons. cbn [List.length].
    destruct IH as [B I]; [intros x Hx; apply Hb; right; assumption|].
    assert (Hy : y = 0 \/ y = 1) by (apply Hb; left; reflexivity).
    split; [lia|]. split.
    + intros E x [->|Hx]; [lia|]. apply I; [lia|assumption].
    + intros H1. assert (y = 1) by (apply H1; left; reflexivity).
      assert (Red.sum l = Z.of_nat (List.length l))
        by (apply I; intros x Hx; apply H1; right; assumption).
      lia.
Qed.

(** [np.mean(window) == 1] on 0/1 data: the window is not empty and holds
    only ones. *)
Lemma mean_is_one_iff (l : list Z) :
  (forall x, In x l -> x = 0 \/ x = 1) ->
  (TrainVol.mean_is_one (Red.mean l) = true <->
   l <> [] /\ forall x, In x l -> x = 1).
Proof.
  intros Hb. destruct l as [|y l].
  - cbn. split; [discriminate|]. intros [C _]. exfalso. apply C. reflexivity.
  - destruct (sum_binary (y :: l) Hb) as [B I].
    unfold Red.mean, TrainVol.mean_is_one.
    rewrite Qeq_bool_iff.
    set (s := Red.sum (y :: l)) in *.
    set (n := Z.of_nat (List.length (y :: l))) in *.
    assert (Hn : 0 < n) by (subst n; cbn [List.length]; lia).
    assert (Q : (inject_Z s / inject_Z n == 1)%Q <-> s = n).
    { destruct n as [|p|p]; try lia.
      unfold Qeq, Qdiv, Qmult, Qinv, inject_Z. cbn. lia. }
    rewrite Q, I. split.
    + intros H. split; [discriminate|assumption].
    + intros [_ H]. assumption.
Qed.

Lemma binarize_wf (a : Np.ndarray2 Z) : Np.wf2 a -> Np.wf2 (TrainVol.binarize a).
Proof.
  intros [Hl Hr]. split; cbn.
  - rewrite length_map. assumption.
  - unfold Np.wf_rows in *. rewrite Forall_map.
    eapply Forall_impl; [|eassumption]. cbn. intros r Lr.
    rewrite length_map. assumption.
Qed.

Lemma binarize_at (a : Np.ndarray2 Z) (r c : nat) :
  Np.wf2 a -> (r < Np.rows2 a)%nat -> (c < Np.cols2 a)%nat ->
  Np.at2 0 (TrainVol.binarize a) r c = if Np.at2 0 a r c >? 0 then 1 else 0.
Proof.
  intros [Hl Hr] Br Bc. unfold Np.at2, TrainVol.binarize. cbn [Np.items2].
  set (f := fun v : Z => if v >? 0 then 1 else 0).
  change (@nil Z) with (map f []) at 1.
  rewrite (map_nth (map f)).
  assert (Lr : List.length (nth r (Np.items2 a) []) = Np.cols2 a).
  { unfold Np.wf_rows in Hr. rewrite Forall_forall in Hr. apply Hr.
    apply nth_In. lia. }
  rewrite (nth_indep _ 0 (f 0)) by (rewrite length_map; lia).
  rewrite (map_nth f). reflexivity.
Qed.

(** C7, as stated, fails: in the 3x3 annotation the point (1, 1) has a full
    margin of [NR = 1]; its neighbourhood of radius 1 contains the blank
    cell (2, 2), yet the point is labelled 0.99. *)
Lemma ground_truth_misses_far_edge :
  exists gt,
    TrainVol.adjust_ground_truth (TrainVol.binarize truth3) 1 = Ok gt /\
    Np.getitem2 (TrainVol.binarize truth3) 2 2 = Ok 0 /\
    Np.getitem2 gt 1 1 = Ok TrainVol.ink_label.
Proof.
  eexists. split; [vm_compute; reflexivity|].
  split; reflexivity.
Qed.

(** C7, amended: a point [(i, j)] with a full [NR]-wide margin is labelled
    0.99 exactly when [NR >= 1] and every raw annotation in the half-open
    window of rows [i-NR, i+NR) and columns [j-NR, j+NR) is positive; every
    other point is labelled 0.  The row [i+NR] and the column [j+NR] are not
    looked at. *)
Theorem adjust_ground_truth_window (truth : Np.ndarray2 Z) (NR : Z) :
  Np.wf2 truth -> 0 <= NR ->
  exists gt,
    TrainVol.adjust_ground_truth (TrainVol.binarize truth) NR = Ok gt /\
    Np.shape2 gt = Np.shape2 truth /\
    forall i j : nat,
      (i < Np.rows2 truth)%nat -> (j < Np.cols2 truth)%nat ->
      let margin :=
        NR <= Z.of_nat i < Z.of_nat (Np.rows2 truth) - NR /\
        NR <= Z.of_nat j < Z.of_nat (Np.cols2 truth) - NR in
      let window_ink :=
        1 <= NR /\
        forall r c : nat,
          Z.of_nat i - NR <= Z.of_nat r < Z.of_nat i + NR ->
          Z.of_nat j - NR <= Z.of_nat c < Z.of_nat j + NR ->
          Np.at2 0 truth r c > 0 in
      (margin /\ window_ink -> Np.at2 0%Q gt i j = TrainVol.ink_label) /\
      (~ (margin /\ window_ink) -> Np.at2 0%Q gt i j = 0%Q).
Proof.
  intros Hwf HNR.
  pose proof (binarize_wf truth Hwf) as Hwb.
  set (raw := TrainVol.binarize truth) in *.
  set (cond := fun i j : Z =>
         TrainVol.mean_is_one
           (Red.mean (Np.flatten2
              (Np.slice2 raw (i - NR) (i + NR) (j - NR) (j + NR))))).
  set (rows := Np.rows2 truth). set (cols := Np.cols2 truth).
  destruct (LoopFacts.paint_grid 0%Q cond (fun _ _ => TrainVol.ink_label)
              (Np.zeros2 0%Q rows cols)
              (Py.range NR (Z.of_nat rows - NR))
              (Py.range NR (Z.of_nat cols - NR)))
    as [gt [E [W [R [C G]]]]].
  - apply LoopFacts.zeros2_wf.
  - intros i Hi. apply PyFacts.range_In in Hi. cbn. lia.
  - intros j Hj. apply PyFacts.range_In in Hj. cbn. lia.
  - exists gt. split; [exact E|]. split.
    + unfold Np.shape2. rewrite R, C. reflexivity.
    + intros i j Hi Hj margin window_ink.
      rewrite G, LoopFacts.zeros2_at, !LoopFacts.existsb_range.
      assert (Hc : (NR <= Z.of_nat i < Z.of_nat rows - NR) ->
                   (NR <= Z.of_nat j < Z.of_nat cols - NR) ->
                   (cond (Z.of_nat i) (Z.of_nat j) = true <-> window_ink)).
      { intros Mi Mj. unfold cond.
        assert (Bin : forall x,
                   In x (Np.flatten2 (Np.slice2 raw (Z.of_nat i - NR)
                           (Z.of_nat i + NR) (Z.of_nat j - NR) (Z.of_nat j + NR))) ->
                   x = 0 \/ x = 1).
        { intros x Hx.
          apply (In_window 0) in Hx as [r [c [Br [Bc Ex]]]];
            try assumption; try (cbn; fold rows cols; lia).
          subst x. unfold raw. rewrite binarize_at by (fold rows cols; try assumption; lia).
          destruct (Np.at2 0 truth r c >? 0); [right|left]; reflexivity. }
        rewrite (mean_is_one_iff _ Bin). unfold window_ink. split.
        - intros [Hne Hall]. split.
          + destruct (Z.le_gt_cases 1 NR) as [|Hz]; [assumption|].
            exfalso. apply Hne. assert (NR = 0) by lia. subst NR.
            unfold Np.flatten2, Np.slice2, Py.slice. cbn [Np.items2].
            rewrite !Z.sub_0_r, !Z.add_0_r, Nat.sub_diag. reflexivity.
          + intros r c Br Bc.
            assert (Hin : In (Np.at2 0 raw r c)
                     (Np.flatten2 (Np.slice2 raw (Z.of_nat i - NR)
                        (Z.of_nat i + NR) (Z.of_nat j - NR) (Z.of_nat j + NR)))).
            { apply (In_window 0); try assumption; try (cbn; fold rows cols; lia).
              exists r, c. split; [assumption|]. split; [assumption|reflexivity]. }
            apply Hall in Hin. unfold raw in Hin.
            rewrite binarize_at in Hin by (fold rows cols; try assumption; lia).
            destruct (Np.at2 0 truth r c >? 0) eqn:Ep; [|discriminate].
            apply Z.gtb_lt in Ep. lia.
        - intros [H1 Hall]. split.
          + intros Hnil.
            assert (Hin : In (Np.at2 0 raw i j)
                     (Np.flatten2 (Np.slice2 raw (Z.of_nat i - NR)
                        (Z.of_nat i + NR) (Z.of_nat j - NR) (Z.of_nat j + NR)))).
            { apply (In_window 0); try assumption; try (cbn; fold rows cols; lia).
              exists i, j. split; [lia|]. split; [lia|reflexivity]. }
            rewrite Hnil in Hin. destruct Hin.
          + intros x Hx.
            apply (In_window 0) in Hx as [r [c [Br [Bc Ex]]]];
              try assumption; try (cbn; fold rows cols; lia).
            subst x. unfold raw.
            rewrite binarize_at by (fold rows cols; try assumption; lia).
            specialize (Hall r c Br Bc).
            destruct (Z.gtb_spec (Np.at2 0 truth r c) 0); [reflexivity|lia]. }
      split.
      * intros [[Mi Mj] Hw].
        replace ((NR <=? Z.of_nat i) && (Z.of_nat i <? Z.of_nat rows - NR)) with true
          by (symmetry; apply andb_true_intro; split;
              [apply Z.leb_le|apply Z.ltb_lt]; lia).
        replace ((NR <=? Z.of_nat j) && (Z.of_nat j <? Z.of_nat cols - NR)) with true
          by (symmetry; apply andb_true_intro; split;
              [apply Z.leb_le|apply Z.ltb_lt]; lia).
        cbn [andb]. apply (Hc Mi Mj) in Hw. rewrite Hw. reflexivity.
      * intros Hn.
        destruct ((NR <=? Z.of_nat i) && (Z.of_nat i <? Z.of_nat rows - NR)) eqn:Ei;
          [|reflexivity].
        destruct ((NR <=? Z.of_nat j) && (Z.of_nat j <? Z.of_nat cols - NR)) eqn:Ej;
          [|reflexivity].
        cbn [andb].
        destruct (cond (Z.of_nat i) (Z.of_nat j)) eqn:Ec; [|reflexivity].
        exfalso. apply Hn.
        apply andb_prop in Ei as [Ei1 Ei2]. apply andb_prop in Ej as [Ej1 Ej2].
        apply Z.leb_le in Ei1, Ej1. apply Z.ltb_lt in Ei2, Ej2.
        assert (Mi : NR <= Z.of_nat i < Z.of_nat rows - NR) by lia.
        assert (Mj : NR <= Z.of_nat j < Z.of_nat cols - NR) by lia.
        split; [split; assumption|]. apply (Hc Mi Mj). reflexivity.
Qed.

Lemma truth3_wf : Np.wf2 truth3.
Proof. split; [reflexivity|repeat constructor]. Qed.

(** The relabelling of the 3x3 annotation with [NR = 1]: the window of the
    centre is rows 0..1 and columns 0..1, all ink, so the centre is 0.99. *)
Lemma adjust_ground_truth_window_witness :
  exists gt,
    TrainVol.adjust_ground_truth (TrainVol.binarize truth3) 1 = Ok gt /\
    Np.at2 0%Q gt 1 1 = TrainVol.ink_label.
Proof.
  destruct (adjust_ground_truth_window truth3 1 truth3_wf ltac:(lia))
    as [gt [E [_ G]]].
  exists gt. split; [exact E|].
  apply (G 1%nat 1%nat); [cbn; lia|cbn; lia|].
  split; [cbn; lia|]. split; [lia|].
  intros r c Br Bc.
  assert (Hr : (r = 0 \/ r = 1)%nat) by lia.
  assert (Hc : (c = 0 \/ c = 1)%nat) by lia.
  destruct Hr, Hc; subst; reflexivity.
Defined.

End GroundTruthFacts.

(** ** trainvol.py: fragment mask and surface *)

Module SurfaceFacts.

Import Fixtures.

Lemma fold_min_le (l : list Z) (a : Z) :
  fold_left Z.min l a <= a /\ forall x, In x l -> fold_left Z.min l a <= x.
Proof.
  revert a. induction l as [|y l IH]; intros a; cbn.
  - split; [lia|intros x []].
  - destruct (IH (Z.min a y)) as [B I]. split; [lia|].
    intros x [->|Hx]; [lia|apply I; assumption].
Qed.

Lemma min_le (l : list Z) (m : Z) :
  Red.min l = Ok m -> forall x, In x l -> m <= x.
Proof.
  destruct l as [|a l]; [discriminate|]. cbn. intros E. inversion E; subst.
  destruct (fold_min_le l a) as [B I].
  intros x [->|Hx]; [assumption|apply I; assumption].
Qed.

Lemma fold_max_witness (l : list Z) (a t : Z) :
  fold_left Z.max l a > t -> exists x, In x (a :: l) /\ x > t.
Proof.
  revert a. induction l as [|y l IH]; intros a; cbn [fold_left].
  - intros H. exists a. split; [left; reflexivity|assumption].
  - intros H. destruct (IH _ H) as [x [[Ex|Hx] Gx]].
    + subst x. destruct (Z.max_spec a y) as [[_ E]|[_ E]]; rewrite E in Gx.
      * exists y. split; [right; left; reflexivity|assumption].
      * exists a. split; [left; reflexivity|assumption].
    + exists x. split; [right; right; assumption|assumption].
Qed.

(** The first index at which the test holds heads [np.where(cond)[0]]. *)
Lemma where_first (cond : Z -> bool) (l : list Z) (k : Z) :
  (exists x, In x l /\ cond x = true) ->
  exists (idx : nat) (rest : list Z),
    Red.where_from cond k l = (k + Z.of_nat idx) :: rest /\
    (idx < List.length l)%nat /\ cond (nth idx l 0) = true /\
    forall idx', (idx' < idx)%nat -> cond (nth idx' l 0) = false.
Proof.
  revert k. induction l as [|a l IH]; intros k [x [Hx Cx]]; [destruct Hx|].
  cbn [Red.where_from]. destruct (cond a) eqn:Ca.
  - exists 0%nat. eexists. split; [rewrite Z.add_0_r; reflexivity|].
    split; [cbn; lia|]. split; [assumption|]. intros idx' H. lia.
  - destruct Hx as [->|Hx]; [congruence|].
    destruct (IH (k + 1)) as [idx [rest [E [B [C F]]]]]; [exists x; split; assumption|].
    exists (S idx), rest. split; [rewrite E; f_equal; lia|].
    split; [cbn; lia|]. split; [assumption|].
    intros [|idx'] H; [assumption|]. apply F. lia.
Qed.

Lemma max_axis2_spec (vol : Np.ndarray3 Z) (maxes : Np.ndarray2 Z) :
  Np.wf3 vol -> Red.max_axis2 vol = Ok maxes ->
  Np.dim2 vol <> 0%nat /\ Np.wf2 maxes /\
  Np.rows2 maxes = Np.dim0 vol /\ Np.cols2 maxes = Np.dim1 vol /\
  forall i j : nat, (i < Np.dim0 vol)%nat -> (j < Np.dim1 vol)%nat ->
    Red.max (nth j (nth i (Np.items3 vol) []) []) = Ok (Np.at2 0 maxes i j).
Proof.
  intros Hwf. unfold Red.max_axis2.
  destruct (Nat.eqb_spec (Np.dim2 vol) 0) as [|Hd]; [discriminate|].
  intros E. inversion E; subst maxes; clear E. cbn [Np.rows2 Np.cols2].
  pose proof Hwf as [Hl Hf].
  split; [assumption|]. split; [|split; [reflexivity|split; [reflexivity|]]].
  - split; cbn [Np.items2 Np.rows2 Np.cols2].
    + rewrite length_map. assumption.
    + unfold Np.wf_rows. rewrite Forall_map.
      eapply Forall_impl; [|exact Hf]. cbn. intros p [Lp _].
      rewrite length_map. assumption.
  - intros i j Hi Hj. unfold Np.at2. cbn [Np.items2].
    set (f := fun r : list Z => match Red.max r with Ok m => m | Raise _ => 0 end).
    change (@nil Z) with (map f []) at 2.
    rewrite (map_nth (map f)).
    destruct (SubvolumeFacts.wf3_nth_plane vol i Hwf Hi) as [Lp Wp].
    rewrite (nth_indep _ 0 (f [])) by (rewrite length_map; lia).
    rewrite (map_nth f).
    pose proof (SubvolumeFacts.wf_rows_nth _ _ j Wp ltac:(lia)) as Lr.
    unfold f. destruct (nth j (nth i (Np.items3 vol) []) []) as [|a r];
      [cbn in Lr; lia|reflexivity].
Qed.

(** C10: at every point of the loop at which the mask test holds (the
    minimum over the neighbourhood of the depth maxima exceeds the
    threshold), the depth profile of the point itself has a value above the
    threshold, so [np.where(vector > thresh)[0][0]] is defined: it is the
    first index of the profile whose value exceeds the threshold. *)
Theorem first_crossing_defined (vol : Np.ndarray3 Z) (n thresh i j : Z)
    (maxes : Np.ndarray2 Z) (m : Z) :
  Np.wf3 vol -> 0 <= n ->
  n <= i < Z.of_nat (Np.dim0 vol) - n - 1 ->
  n <= j < Z.of_nat (Np.dim1 vol) - n - 1 ->
  Red.max_axis2 vol = Ok maxes ->
  Red.min (Np.flatten2
             (Np.slice2 maxes (i - n) (i + n + 1) (j - n) (j + n + 1))) = Ok m ->
  (m >? thresh) = true ->
  exists (vector : list Z) (k : Z),
    Np.getvec3 vol i j = Ok vector /\
    Py.getitem (Red.where_ (fun v => v >? thresh) vector) 0 = Ok k /\
    0 <= k < Z.of_nat (List.length vector) /\
    nth (Z.to_nat k) vector 0 > thresh /\
    forall k' : nat, (k' < Z.to_nat k)%nat -> nth k' vector 0 <= thresh.
Proof.
  intros Hwf Hn Hi Hj Emax Emin Hm.
  destruct (max_axis2_spec vol maxes Hwf Emax) as [Hd [Wm [Rm [Cm Am]]]].
  destruct (NpFacts.getvec3_inside vol i j Hwf) as [vector [Ev [Lv Dv]]];
    [lia|lia|].
  exists vector.
  assert (Hin : In (Np.at2 0 maxes (Z.to_nat i) (Z.to_nat j))
                   (Np.flatten2 (Np.slice2 maxes (i - n) (i + n + 1)
                                           (j - n) (j + n + 1)))).
  { apply (GroundTruthFacts.In_window 0); try assumption; try lia.
    exists (Z.to_nat i), (Z.to_nat j).
    split; [lia|]. split; [lia|reflexivity]. }
  pose proof (min_le _ _ Emin _ Hin) as Hle.
  apply Z.gtb_lt in Hm.
  specialize (Am (Z.to_nat i) (Z.to_nat j) ltac:(lia) ltac:(lia)).
  rewrite <- Dv in Am.
  assert (Hex : exists x, In x vector /\ (x >? thresh) = true).
  { destruct vector as [|a r]; [discriminate|].
    cbn in Am. inversion Am as [Ea].
    destruct (fold_max_witness r a thresh) as [x [Hx Gx]]; [rewrite Ea; lia|].
    exists x. split; [assumption|]. apply Z.gtb_lt. lia. }
  destruct (where_first (fun v => v >? thresh) vector 0 Hex)
    as [idx [rest [Ew [Bi [Ci Fi]]]]].
  exists (Z.of_nat idx).
  unfold Red.where_. rewrite Ew. cbn [Z.add].
  split; [assumption|]. split; [reflexivity|]. split; [lia|].
  rewrite Nat2Z.id. split.
  - apply Z.gtb_lt in Ci. lia.
  - intros k' Hk'. specialize (Fi k' Hk').
    destruct (Z.gtb_spec (nth k' vector 0) thresh); [discriminate|lia].
Qed.

Lemma slab10_wf : Np.wf3 slab10.
Proof. split; [reflexivity|repeat constructor]. Qed.

(** On the 10x10 step surface with threshold 2, at the point (4, 4): the
    first crossing exists. *)
Lemma first_crossing_defined_witness :
  exists (vector : list Z) (k : Z),
    Np.getvec3 slab10 4 4 = Ok vector /\
    Py.getitem (Red.where_ (fun v => v >? 2) vector) 0 = Ok k.
Proof.
  destruct (first_crossing_defined slab10 4 2 4 4
              (Np.mk2 10 10 (repeat (repeat 7 10) 10)) 7 slab10_wf)
    as [vector [k [Ev [Ek _]]]];
    try reflexivity; try (cbn; lia).
  exists vector, k. split; assumption.
Defined.

(** C3: on the 10x10 step surface (profile [0, 5, 7], threshold 2,
    [fragment_buffer = 4]) the point (5, 5) has a full 4-wide margin (rows
    and columns 1..9), and every point of its 9x9 neighbourhood has a depth
    maximum above the threshold; the code leaves its mask and its surface
    index at 0.  The point (4, 4) is marked, with the first crossing 1 (not
    the argmax 2) as its surface index. *)
Theorem find_frag_surf_skips_last_margin :
  exists mask surf maxes,
    TrainVol.find_frag_surf_at_thresh slab10 4 2 = Ok (mask, surf) /\
    Red.max_axis2 slab10 = Ok maxes /\
    Np.shape2 (Np.slice2 maxes (5 - 4) (5 + 4 + 1) (5 - 4) (5 + 4 + 1))
      = (9, 9)%nat /\
    forallb (fun v => v >? 2)
      (Np.flatten2 (Np.slice2 maxes (5 - 4) (5 + 4 + 1) (5 - 4) (5 + 4 + 1)))
      = true /\
    Np.getitem2 mask 5 5 = Ok 0 /\ Np.getitem2 surf 5 5 = Ok 0 /\
    Np.getitem2 mask 4 4 = Ok 1 /\ Np.getitem2 surf 4 4 = Ok 1.
Proof.
  eexists. eexists. eexists.
  split; [vm_compute; reflexivity|].
  split; [vm_compute; reflexivity|].
  repeat split.
Qed.

End SurfaceFacts.

(** ** trainvol.py: batches *)

Module BatchFacts.

Import Fixtures.

(** C4: the sampler built from the 12x12 step surface has a pool of 5
    indices among [total_vects = 144].  With [batch_size = 4] the second
    call finds the cursor at 4, and 4 + 4 exceeds the pool size 5; the
    cursor is not wrapped (it moves on to 8, where a wrap would leave it at
    4) and the pool is not reshuffled (the stand-in shuffle would reverse
    it): the test of line 51 compares with [total_vects], not with the size
    of the pool.  The second batch holds one example, the third none.  No
    call raises. *)
Theorem next_batch_runs_past_pool :
  exists tv pool x1 y1 tv1 x2 y2 tv2 x3 y3 tv3,
    sampler12 = Ok tv /\
    TrainVol.train_inds nat tv = Some pool /\
    List.length pool = 5%nat /\ rev pool <> pool /\
    TrainVol.total_vects nat tv = 144 /\
    TrainVol.next_batch nat det_shuffle det_randint tv 4 = Ok (x1, y1, tv1) /\
    TrainVol.current_spot nat tv1 = 4 /\
    TrainVol.next_batch nat det_shuffle det_randint tv1 4 = Ok (x2, y2, tv2) /\
    TrainVol.current_spot nat tv2 = 8 /\
    TrainVol.train_inds nat tv2 = Some pool /\
    Np.items3 x2 = [[[0; 5]; [0; 5]]; [[0; 0]; [0; 0]]; [[0; 0]; [0; 0]];
                    [[0; 0]; [0; 0]]] /\
    TrainVol.next_batch nat det_shuffle det_randint tv2 4 = Ok (x3, y3, tv3) /\
    TrainVol.current_spot nat tv3 = 12 /\
    x3 = Np.zeros3 0 4 2 2 /\ y3 = Np.zeros2 0%Q 4 2.
Proof.
  do 11 eexists.
  split; [vm_compute; reflexivity|].
  split; [reflexivity|].
  split; [reflexivity|].
  split; [discriminate|].
  split; [reflexivity|].
  split; [vm_compute; reflexivity|].
  split; [reflexivity|].
  split; [vm_compute; reflexivity|].
  split; [reflexivity|].
  split; [reflexivity|].
  split; [reflexivity|].
  split; [vm_compute; reflexivity|].
  split; [reflexivity|].
  split; reflexivity.
Qed.

Lemma norm_index_nonneg (n : nat) (i : Z) (k : nat) :
  0 <= i -> Py.norm_index n i = Some k -> k = Z.to_nat i /\ i < Z.of_nat n.
Proof.
  intros Hi. unfold Py.norm_index.
  destruct (Z.leb_spec 0 i); [|lia].
  destruct (Z.ltb_spec i (Z.of_nat n)); cbn [andb].
  - intros E. inversion E. split; [reflexivity|assumption].
  - destruct (Z.ltb_spec i 0); [lia|]. cbn [andb]. discriminate.
Qed.

(** Writing the two cells of label row [c]. *)
Lemma set_label_row (y y1 y2 : Np.ndarray2 Q) (c : Z) (g h : Q) :
  Np.wf2 y -> Np.cols2 y = 2%nat -> 0 <= c ->
  NpSet.setitem2 y c 0 g = Ok y1 -> NpSet.setitem2 y1 c 1 h = Ok y2 ->
  Np.wf2 y2 /\ Np.rows2 y2 = Np.rows2 y /\ Np.cols2 y2 = 2%nat /\
  nth (Z.to_nat c) (Np.items2 y2) [] = [g; h] /\
  forall i, i <> Z.to_nat c -> nth i (Np.items2 y2) [] = nth i (Np.items2 y) [].
Proof.
  intros Hwf Hc2 Hc E1 E2.
  destruct (LoopFacts.setitem2_shape _ _ _ _ _ E1) as [R1 [C1 W1]].
  destruct (LoopFacts.setitem2_shape _ _ _ _ _ E2) as [R2 [C2 W2]].
  split; [auto|]. split; [congruence|]. split; [congruence|].
  unfold NpSet.setitem2 in E1, E2. rewrite R1, C1 in E2. rewrite Hc2 in E1, E2.
  destruct (Py.norm_index (Np.rows2 y) c) as [k|] eqn:Ek; [|discriminate].
  destruct (norm_index_nonneg _ _ _ Hc Ek) as [-> Hlt].
  cbn in E1, E2.
  inversion E1; subst y1; clear E1. inversion E2; subst y2; clear E2.
  cbn [Np.items2].
  pose proof Hwf as [Hl Hr].
  assert (Lrow : List.length (nth (Z.to_nat c) (Np.items2 y) []) = 2%nat).
  { unfold Np.wf_rows in Hr. rewrite Forall_forall in Hr. rewrite <- Hc2.
    apply Hr. apply nth_In. lia. }
  split.
  - rewrite LoopFacts.nth_upd by (rewrite LoopFacts.upd_length; lia).
    rewrite Nat.eqb_refl.
    rewrite LoopFacts.nth_upd by lia. rewrite Nat.eqb_refl.
    destruct (nth (Z.to_nat c) (Np.items2 y) []) as [|a [|b [|? ?]]];
      try discriminate. reflexivity.
  - intros i Hi.
    rewrite LoopFacts.nth_upd by (rewrite LoopFacts.upd_length; lia).
    apply Nat.eqb_neq in Hi. rewrite Hi.
    rewrite LoopFacts.nth_upd by lia. rewrite Hi. reflexivity.
Qed.

Section WithRandom.

Variable rng : Type.
Variable shuffle : rng -> list Z -> list Z * rng.
Variable randint : rng -> Z -> Z * rng.

Local Abbreviation t := (TrainVol.t rng).
Local Abbreviation window_at := (TrainVol.window_at rng).
Local Abbreviation ground_truth := (TrainVol.ground_truth rng).
Local Abbreviation next_batch_step := (TrainVol.next_batch_step rng randint).
Local Abbreviation next_batch := (TrainVol.next_batch rng shuffle randint).

(** What one index leaves in its label row: [[g, 1-g]] when its window has
    the expected shape, the previous content [old] of the row otherwise. *)
Let label_of (self : t) (w h : nat) (ind : Z) (old row : list Q) : Prop :=
  exists r c to_put,
    window_at self ind = Ok (r, c, to_put) /\
    if Np.shape2_eqb (Np.shape2 to_put) (w, h)
    then exists g, Np.getitem2 (ground_truth self) r c = Ok g /\
                   row = [g; (1 - g)%Q]
    else row = old.

Lemma batch_loop (self : t) (B w h : nat) (l : list Z) :
  forall (k : nat) (x : Np.ndarray3 Z) (y : Np.ndarray2 Q) (g : rng)
         (x' : Np.ndarray3 Z) (y' : Np.ndarray2 Q) (c' : Z) (g' : rng),
    for_ l (next_batch_step self) (x, y, Z.of_nat k, g) = Ok (x', y', c', g') ->
    Np.wf2 y -> Np.rows2 y = B -> Np.cols2 y = 2%nat ->
    Np.dim0 x = B -> Np.dim1 x = w -> Np.dim2 x = h ->
    Np.wf2 y' /\ Np.rows2 y' = B /\ Np.cols2 y' = 2%nat /\
    (forall c, (c < k \/ k + List.length l <= c)%nat ->
       nth c (Np.items2 y') [] = nth c (Np.items2 y) []) /\
    (forall idx ind, nth_error l idx = Some ind ->
       label_of self w h ind (nth (k + idx) (Np.items2 y) [])
                (nth (k + idx) (Np.items2 y') [])).
Proof.
  induction l as [|ind l IH]; intros k x y g x' y' c' g' E Wy Ry Cy D0 D1 D2.
  - cbn in E. inversion E; subst. split; [assumption|].
    split; [reflexivity|]. split; [assumption|]. split; [reflexivity|].
    intros [|idx] ind' H; discriminate.
  - cbn [for_] in E.
    destruct (next_batch_step self ind (x, y, Z.of_nat k, g))
      as [[[[x1 y1] c1] g1]|e] eqn:Es; [|discriminate].
    cbn [bind] in E.
    unfold TrainVol.next_batch_step in Es.
    destruct (window_at self ind) as [[[r c] to_put]|e] eqn:Ew; [|discriminate].
    cbn [bind] in Es.
    destruct (Py.norm_index (Np.dim0 x) (Z.of_nat k)) as [k0|] eqn:Ek;
      [|discriminate].
    cbn [bind] in Es.
    destruct (norm_index_nonneg _ _ _ (Nat2Z.is_nonneg k) Ek) as [_ Hk].
    rewrite D0 in Hk.
    assert (Step :
      c1 = Z.of_nat (S k) /\ Np.dim0 x1 = B /\ Np.dim1 x1 = w /\ Np.dim2 x1 = h /\
      Np.wf2 y1 /\ Np.rows2 y1 = B /\ Np.cols2 y1 = 2%nat /\
      (forall i, i <> k -> nth i (Np.items2 y1) [] = nth i (Np.items2 y) []) /\
      label_of self w h ind (nth k (Np.items2 y) []) (nth k (Np.items2 y1) [])).
    { rewrite D1, D2 in Es.
      destruct (Np.shape2_eqb (Np.shape2 to_put) (w, h)) eqn:Esh.
      - destruct (randint g 10) as [rd g2].
        set (p := if rd mod 2 =? 0 then TrainVol.flipud to_put else to_put) in Es.
        destruct (NpSet.setplane3 x (Z.of_nat k) p) as [x2|e] eqn:Ex;
          [|discriminate].
        cbn [bind] in Es.
        destruct (Np.getitem2 (ground_truth self) r c) as [gt|e] eqn:Eg;
          [|discriminate].
        cbn [bind] in Es.
        destruct (NpSet.setitem2 y (Z.of_nat k) 0 gt) as [ya|e] eqn:Ea;
          [|discriminate].
        cbn [bind] in Es.
        destruct (NpSet.setitem2 ya (Z.of_nat k) 1 (1 - gt)%Q) as [yb|e] eqn:Eb;
          [|discriminate].
        cbn [bind] in Es. inversion Es; subst x1 y1 c1 g1; clear Es.
        destruct (set_label_row y ya yb (Z.of_nat k) gt (1 - gt)%Q Wy Cy
                    (Nat2Z.is_nonneg k) Ea Eb) as [Wb [Rb [Cb [Row Oth]]]].
        rewrite Nat2Z.id in Row, Oth.
        split; [lia|].
        assert (Dx : Np.dim0 x2 = B /\ Np.dim1 x2 = w /\ Np.dim2 x2 = h).
        { unfold NpSet.setplane3 in Ex.
          destruct (Py.norm_index (Np.dim0 x) (Z.of_nat k)); [|discriminate].
          destruct (Np.shape2_eqb (Np.shape2 p) (Np.dim1 x, Np.dim2 x));
            [|discriminate].
          inversion Ex; subst x2. cbn. auto. }
        destruct Dx as [Dx0 [Dx1 Dx2]].
        split; [exact Dx0|]. split; [exact Dx1|]. split; [exact Dx2|].
        split; [exact Wb|]. split; [congruence|]. split; [exact Cb|].
        split; [exact Oth|].
        exists r, c, to_put. split; [exact Ew|]. rewrite Esh.
        exists gt. split; assumption.
      - inversion Es; subst x1 y1 c1 g1; clear Es.
        split; [lia|].
        split; [exact D0|]. split; [exact D1|]. split; [exact D2|].
        split; [exact Wy|]. split; [exact Ry|]. split; [exact Cy|].
        split; [reflexivity|].
        exists r, c, to_put. split; [exact Ew|]. rewrite Esh. reflexivity. }
    destruct Step as [-> [D0' [D1' [D2' [W1 [R1 [C1 [Oth Lab]]]]]]]].
    destruct (IH (S k) x1 y1 g1 x' y' c' g' E W1 R1 C1 D0' D1' D2')
      as [W' [R' [C' [Keep Labs]]]].
    split; [assumption|]. split; [assumption|]. split; [assumption|]. split.
    + intros c0 Hc0. cbn [List.length] in Hc0.
      rewrite Keep by lia. apply Oth. lia.
    + intros [|idx] ind' Hn; cbn in Hn.
      * inversion Hn; subst ind'. rewrite Nat.add_0_r.
        rewrite Keep by lia. exact Lab.
      * specialize (Labs idx ind' Hn).
        replace (k + S idx)%nat with (S k + idx)%nat by lia.
        rewrite <- (Oth (S k + idx)%nat) by lia. exact Labs.
Qed.

Lemma zeros2_row (B c : nat) :
  nth c (Np.items2 (Np.zeros2 0%Q B 2)) [] = if (c <? B)%nat then [0; 0]%Q else [].
Proof.
  cbn [Np.zeros2 Np.items2].
  destruct (Nat.ltb_spec c B).
  - apply nth_repeat_lt. assumption.
  - apply nth_overflow. rewrite repeat_length. assumption.
Qed.

(** C9: in every batch returned by [next_batch], the label array has one
    row per requested example.  The batch is drawn from the pool of the
    sampler the call starts from, reshuffled and read from 0 when the cursor
    wraps, read from the cursor otherwise.  The row of the [c]-th index of
    the batch is [[g, 1-g]], [g] the adjusted ground truth at that index,
    when the index's window has the expected shape [(2 NR, C_IN + C_BACK)],
    and is the zero row [[0, 0]] left by [np.zeros] when the shape differs;
    rows past the last index of the batch are zero rows too. *)
Theorem next_batch_labels (self self' : t) (batch_size : Z)
    (x : Np.ndarray3 Z) (y : Np.ndarray2 Q) :
  next_batch self batch_size = Ok (x, y, self') ->
  exists pool0,
    TrainVol.train_inds rng self = Some pool0 /\
    let wrap :=
      TrainVol.current_spot rng self + batch_size
      >? TrainVol.total_vects rng self in
    let pool :=
      if wrap then fst (shuffle (TrainVol.gen rng self) pool0) else pool0 in
    let start := if wrap then 0 else TrainVol.current_spot rng self in
    let batch_inds := Py.slice pool start (start + batch_size) in
    let shape := (Z.to_nat (2 * TrainVol.NR rng self),
                  Z.to_nat (TrainVol.C_IN rng self + TrainVol.C_BACK rng self)) in
    TrainVol.train_inds rng self' = Some pool /\
    TrainVol.current_spot rng self' = start + batch_size /\
    Np.wf2 y /\ Np.shape2 y = (Z.to_nat batch_size, 2%nat) /\
    forall c : nat, (c < Z.to_nat batch_size)%nat ->
      match nth_error batch_inds c with
      | Some ind =>
          exists row col to_put,
            window_at self ind = Ok (row, col, to_put) /\
            if Np.shape2_eqb (Np.shape2 to_put) shape
            then exists g,
                   Np.getitem2 (ground_truth self) row col = Ok g /\
                   nth c (Np.items2 y) [] = [g; (1 - g)%Q]
            else nth c (Np.items2 y) [] = [0; 0]%Q
      | None => nth c (Np.items2 y) [] = [0; 0]%Q
      end.
Proof.
  unfold TrainVol.next_batch.
  destruct (TrainVol.check_dims _) as [[]|e]; [|discriminate].
  cbn [bind].
  set (B := Z.to_nat batch_size).
  set (w := Z.to_nat (2 * TrainVol.NR rng self)).
  set (h := Z.to_nat (TrainVol.C_IN rng self + TrainVol.C_BACK rng self)).
  intros E.
  assert (Main : forall (self1 : t) (pool1 : list Z),
    TrainVol.train_inds rng self1 = Some pool1 ->
    TrainVol.ground_truth rng self1 = TrainVol.ground_truth rng self ->
    (forall ind, window_at self1 ind = window_at self ind) ->
    (inds <- match TrainVol.train_inds rng self1 with
             | Some inds => Ok inds
             | None => Raise AttributeError
             end ;;
     '(to_return_x, to_return_y, _, g) <-
        for_ (Py.slice inds (TrainVol.current_spot rng self1)
                       (TrainVol.current_spot rng self1 + batch_size))
             (next_batch_step self1)
             (Np.zeros3 0 B w h, Np.zeros2 0%Q B 2, 0, TrainVol.gen rng self1) ;;
     Ok (to_return_x, to_return_y,
         TrainVol.set_cursor_pool rng self1
           (TrainVol.current_spot rng self1 + batch_size)
           (TrainVol.train_inds rng self1) g)) = Ok (x, y, self') ->
    TrainVol.train_inds rng self' = Some pool1 /\
    TrainVol.current_spot rng self' =
      TrainVol.current_spot rng self1 + batch_size /\
    Np.wf2 y /\ Np.shape2 y = (B, 2%nat) /\
    forall c : nat, (c < B)%nat ->
      match nth_error
              (Py.slice pool1 (TrainVol.current_spot rng self1)
                        (TrainVol.current_spot rng self1 + batch_size)) c with
      | Some ind =>
          exists row col to_put,
            window_at self ind = Ok (row, col, to_put) /\
            if Np.shape2_eqb (Np.shape2 to_put) (w, h)
            then exists g,
                   Np.getitem2 (ground_truth self) row col = Ok g /\
                   nth c (Np.items2 y) [] = [g; (1 - g)%Q]
            else nth c (Np.items2 y) [] = [0; 0]%Q
      | None => nth c (Np.items2 y) [] = [0; 0]%Q
      end).
  { intros self1 pool1 Ei Hg Hw E1. rewrite Ei in E1.
    cbn [bind] in E1.
    set (batch := Py.slice pool1 (TrainVol.current_spot rng self1)
                   (TrainVol.current_spot rng self1 + batch_size)) in *.
    destruct (for_ batch (next_batch_step self1) _)
      as [[[[x1 y1] c1] g1]|e] eqn:El; [|discriminate].
    cbn [bind] in E1. inversion E1; subst x1 y1 self'; clear E1.
    cbn [TrainVol.train_inds TrainVol.current_spot TrainVol.set_cursor_pool].
    destruct (batch_loop self1 B w h batch 0 _ _ _ _ _ _ _ El)
      as [W' [R' [C' [Keep Labs]]]];
      try reflexivity; [apply LoopFacts.zeros2_wf|].
    split; [reflexivity|]. split; [reflexivity|].
    split; [assumption|].
    split; [unfold Np.shape2; congruence|].
    intros c Hc.
    destruct (nth_error batch c) as [ind|] eqn:En.
    - destruct (Labs c ind En) as [r [cl [to_put [Ew Hl]]]].
      cbn [Nat.add] in Hl. rewrite zeros2_row in Hl.
      replace (c <? B)%nat with true in Hl
        by (symmetry; apply Nat.ltb_lt; assumption).
      exists r, cl, to_put. rewrite <- Hw. split; [assumption|].
      rewrite <- Hg. exact Hl.
    - apply nth_error_None in En.
      rewrite Keep by (right; cbn; lia).
      rewrite zeros2_row.
      replace (c <? B)%nat with true
        by (symmetry; apply Nat.ltb_lt; assumption).
      reflexivity. }
  destruct (TrainVol.train_inds rng self) as [inds|] eqn:Ei.
  2:{ destruct (_ >? _); cbn [bind] in E;
        [discriminate|rewrite Ei in E; discriminate]. }
  exists inds. split; [reflexivity|]. cbv zeta.
  destruct (TrainVol.current_spot rng self + batch_size >?
            TrainVol.total_vects rng self).
  - destruct (shuffle (TrainVol.gen rng self) inds) as [inds' g'] eqn:Es.
    cbn [bind fst] in E |- *.
    exact (Main (TrainVol.set_cursor_pool rng self 0 (Some inds') g') inds'
                eq_refl eq_refl (fun _ => eq_refl) E).
  - cbn [bind] in E. rewrite Ei in E.
    refine (Main self inds Ei eq_refl (fun _ => eq_refl) _).
    rewrite Ei. exact E.
Qed.

End WithRandom.

(** The theorem at work on two samplers built from the 12x12 step surface.
    With a window of full depth the first label row of the first batch is
    [[0.99, 0.01]]; with [CUT_BACK = 2] the depth slice [-1:2] of every
    window is empty, the shape differs, and the first label row stays
    [[0, 0]], which does not sum to 1, although the batch has a first
    index. *)
Lemma next_batch_labels_witness :
  (exists tv tv1 x y,
     sampler12 = Ok tv /\
     TrainVol.next_batch nat det_shuffle det_randint tv 4 = Ok (x, y, tv1) /\
     Np.shape2 y = (4, 2)%nat /\
     nth 0 (Np.items2 y) [] = [TrainVol.ink_label; (1 - TrainVol.ink_label)%Q]) /\
  (exists tv tv1 x y ind,
     sampler12_deep = Ok tv /\
     TrainVol.next_batch nat det_shuffle det_randint tv 4 = Ok (x, y, tv1) /\
     TrainVol.train_inds nat tv1 = Some (ind :: [66; 76; 77; 78]) /\
     nth 0 (Np.items2 y) [] = [0; 0]%Q).
Proof.
  split.
  - do 4 eexists.
    split; [vm_compute; reflexivity|].
    match goal with
    | |- ?e = Ok (?x, ?y, ?s) /\ _ =>
        assert (E : e = Ok (x, y, s)) by (vm_compute; reflexivity)
    end.
    split; [exact E|].
    destruct (next_batch_labels nat det_shuffle det_randint _ _ _ _ _ E)
      as [pool0 [Ep0 [_ [_ [_ [Sh L]]]]]].
    split; [exact Sh|].
    vm_compute in Ep0. inversion Ep0; subst pool0.
    specialize (L 0%nat ltac:(cbn; lia)).
    destruct L as [row [col [to_put [Ew Hl]]]].
    vm_compute in Ew. inversion Ew; subst row col to_put.
    destruct Hl as [g [Eg Hl]].
    vm_compute in Eg. inversion Eg; subst g.
    exact Hl.
  - do 5 eexists.
    split; [vm_compute; reflexivity|].
    match goal with
    | |- ?e = Ok (?x, ?y, ?s) /\ _ =>
        assert (E : e = Ok (x, y, s)) by (vm_compute; reflexivity)
    end.
    split; [exact E|].
    destruct (next_batch_labels nat det_shuffle det_randint _ _ _ _ _ E)
      as [pool0 [Ep0 [Ep [_ [_ [_ L]]]]]].
    vm_compute in Ep0. inversion Ep0; subst pool0.
    split; [exact Ep|].
    specialize (L 0%nat ltac:(cbn; lia)).
    destruct L as [row [col [to_put [Ew Hl]]]].
    vm_compute in Ew. inversion Ew; subst row col to_put.
    exact Hl.
Defined.

End BatchFacts.

(** ** features.py *)

Module FeaturesFacts.

Import Fixtures.

Local Open Scope R_scope.

Lemma sumsq_cons (x : R) (l : list R) :
  Features.sumsq (x :: l) = x * x + Features.sumsq l.
Proof. reflexivity. Qed.

Lemma sumsq_nonneg (l : list R) : 0 <= Features.sumsq l.
Proof.
  induction l as [|x l IH]; [cbn; lra|]. rewrite sumsq_cons. nra.
Qed.


Lemma sumsq_zero (l : list R) :
  Features.sumsq l = 0 -> Forall (fun x => x = 0) l.
Proof.
  induction l as [|x l IH]; [constructor|].
  rewrite sumsq_cons. intros H. constructor.
  - pose proof (sumsq_nonneg l). assert (Hx : 0 <= x * x) by nra.
    assert (Hz : x * x = 0) by lra.
    destruct (Rmult_integral _ _ Hz); assumption.
  - apply IH. pose proof (sumsq_nonneg l). assert (Hx : 0 <= x * x) by nra.
    lra.
Qed.

Lemma sumsq_scale (c : R) (l : list R) :
  c <> 0 ->
  Features.sumsq (map (fun x => x / c) l) = Features.sumsq l / (c * c).
Proof.
  intros Hc. induction l as [|x l IH].
  - cbn. field. assumption.
  - cbn [map]. rewrite !sumsq_cons, IH. field. assumption.
Qed.

(** A row with a non-zero entry leaves [normalize] with Euclidean norm 1. *)
Lemma normalize_row_unit (r : list R) :
  Features.sumsq r <> 0 -> Features.sumsq (Features.normalize_row r) = 1.
Proof.
  intros Hs. unfold Features.normalize_row.
  pose proof (sumsq_nonneg r) as Hn.
  destruct (Req_dec_T (sqrt (Features.sumsq r)) 0) as [E|N].
  - exfalso. apply Hs. apply sqrt_eq_0; assumption.
  - rewrite sumsq_scale by assumption.
    rewrite sqrt_sqrt by assumption. field. assumption.
Qed.

(** A row of zeros is left as it is. *)
Lemma normalize_row_zero (r : list R) :
  Features.sumsq r = 0 -> Forall (fun x => x = 0) (Features.normalize_row r).
Proof.
  intros Hs. unfold Features.normalize_row.
  rewrite Hs, sqrt_0.
  destruct (Req_dec_T 0 0) as [_|N]; [|exfalso; apply N; reflexivity].
  apply sumsq_zero in Hs. rewrite Forall_map.
  eapply Forall_impl; [|exact Hs]. cbn. intros x ->. field.
Qed.

Lemma normalize_row_length (r : list R) :
  List.length (Features.normalize_row r) = List.length r.
Proof. unfold Features.normalize_row. apply length_map. Qed.





(** What [normalize] returns. *)
Lemma normalize_spec (X : Np.ndarray2 Features.f64) (c : Np.ndarray2 R) :
  Features.normalize X = Ok c ->
  c = Np.mk2 (Np.rows2 X) (Np.cols2 X)
        (map (fun r => Features.normalize_row (map Features.to_real r))
             (Np.items2 X)).
Proof.
  unfold Features.normalize.
  destruct (existsb _ _); [discriminate|].
  destruct (_ || _)%bool; [discriminate|].
  intros E. inversion E. reflexivity.
Qed.

Lemma normalize_rows (X : Np.ndarray2 Features.f64) (c : Np.ndarray2 R)
    (i : nat) :
  Np.wf2 X -> Features.normalize X = Ok c -> (i < Np.rows2 X)%nat ->
  List.length (nth i (Np.items2 c) []) = Np.cols2 X /\
  (Features.sumsq (nth i (Np.items2 c) []) = 1 \/
   Forall (fun x => x = 0) (nth i (Np.items2 c) [])).
Proof.
  intros [Hl Hr] E Hi. apply normalize_spec in E. subst c. cbn [Np.items2].
  set (f := fun r => Features.normalize_row (map Features.to_real r)).
  change (@nil R) with (f []).
  rewrite (map_nth f). unfold f.
  assert (Lr : List.length (nth i (Np.items2 X) []) = Np.cols2 X).
  { unfold Np.wf_rows in Hr. rewrite Forall_forall in Hr. apply Hr.
    apply nth_In. lia. }
  split.
  - rewrite normalize_row_length, length_map. assumption.
  - destruct (Req_dec_T (Features.sumsq (map Features.to_real (nth i (Np.items2 X) []))) 0)
      as [Z|N].
    + right. apply normalize_row_zero. assumption.
    + left. apply normalize_row_unit. assumption.
Qed.

Lemma nan_to_num_wf (a : Np.ndarray2 Features.f64) :
  Np.wf2 a -> Np.wf2 (Features.nan_to_num a).
Proof.
  intros [Hl Hr]. split; cbn.
  - rewrite length_map. assumption.
  - unfold Np.wf_rows in *. rewrite Forall_map.
    eapply Forall_impl; [|exact Hr]. cbn. intros r Lr.
    rewrite length_map. assumption.
Qed.

Local Abbreviation shaped := Features.shaped.


Lemma shaped_zeros (rows cols : nat) :
  shaped rows cols (Np.zeros2 (Features.Fin 0) rows cols).
Proof.
  split; [apply LoopFacts.zeros2_wf|]. split; reflexivity.
Qed.

Ltac bind_inv H :=
  repeat match type of H with
  | bind ?c _ = Ok _ =>
      let E := fresh "E" in
      destruct c eqn:E; cbn [bind] in H; [|discriminate H]
  | (let '(_, _) := ?p in _) = Ok _ => destruct p
  end.





(** One normalized map of the result, row by row. *)
Lemma normalized_rows (rows cols : nat) (X : Np.ndarray2 Features.f64)
    (c : Np.ndarray2 R) (i : nat) :
  shaped rows cols X -> Features.normalize X = Ok c -> (i < rows)%nat ->
  List.length (nth i (Np.items2 c) []) = cols /\
  (Features.sumsq (nth i (Np.items2 c) []) = 1 \/
   Forall (fun x => x = 0) (nth i (Np.items2 c) [])).
Proof.
  intros [W [Rw Cl]] E Hi. subst rows cols.
  apply normalize_rows; assumption.
Qed.

Lemma shaped_nan_to_num (rows cols : nat) (a : Np.ndarray2 Features.f64) :
  shaped rows cols a -> shaped rows cols (Features.nan_to_num a).
Proof.
  intros [W [Rw Cl]]. split; [apply nan_to_num_wf; assumption|].
  split; assumption.
Qed.

(** C5, as stated, fails: for the 2x2x2 volume of distinct positive values
    (surface at depth 0, window of 2) no map is degenerate, and the sum of
    squares over all entries of channel 0 (the window sums [[3, 7],
    [11, 15]]) is 2, one per row, not 1. *)
Lemma channel_norm_counts_rows :
  exists F,
    Features.extract_for_vol None vol222 surf22 2 0 0 0 = Ok F /\
    Features.sumsq (Features.channel_flat F 0) = 2.
Proof.
  eexists.
  split; [cbv -[IZR INR sqrt Rplus Rmult Rdiv Rminus Rinv Ropp Req_dec_T];
          reflexivity|].
  cbv -[IZR INR sqrt Rplus Rmult Rdiv Rminus Rinv Ropp Req_dec_T].
  assert (P1 : 0 <= 3 * 3 + (7 * 7 + 0)) by lra.
  assert (P2 : 0 <= 11 * 11 + (15 * 15 + 0)) by lra.
  pose proof (sqrt_sqrt _ P1) as Q1. pose proof (sqrt_sqrt _ P2) as Q2.
  set (s1 := sqrt (3 * 3 + (7 * 7 + 0))) in *.
  set (s2 := sqrt (11 * 11 + (15 * 15 + 0))) in *.
  destruct (Req_dec_T s1 0) as [Z1|N1]; [rewrite Z1 in Q1; lra|].
  destruct (Req_dec_T s2 0) as [Z2|N2]; [rewrite Z2 in Q2; lra|].
  replace (3 / s1 * (3 / s1) + (7 / s1 * (7 / s1) +
           (11 / s2 * (11 / s2) + (15 / s2 * (15 / s2) + 0))))
    with (58 / (s1 * s1) + 346 / (s2 * s2)) by (field; split; assumption).
  rewrite Q1, Q2. field.
Qed.








(** C6: a depth window that starts past the end of the depth axis (surface
    index 2 in a volume of depth 2), or a window of width 0, is empty; the
    code then raises [ValueError] from [np.min] of the empty window, before
    any coercion to zero. *)
Theorem extract_raises_on_empty_window :
  Features.extract_for_vol None vol112 surf11_deep 1 0 0 0 = Raise ValueError /\
  Features.extract_for_vol None vol222 surf22 0 0 0 0 = Raise ValueError.
Proof.
  split; cbv -[IZR INR sqrt Rplus Rmult Rdiv Rminus Rinv Ropp Req_dec_T];
    reflexivity.
Qed.

End FeaturesFacts.

(** ** Further properties of Volume.py *)

Module VolumeMore.

Lemma int_succ (q : Q) :
  Py.int (inject_Z (Py.int q) + 1) = Py.int q + 1.
Proof.
  unfold Py.int at 1. cbn [Qplus Qnum Qden inject_Z].
  rewrite !Z.mul_1_r. apply Z.quot_1_r.
Qed.

Lemma int_small (q : Q) : (-1 < q)%Q -> (q < 1)%Q -> Py.int q = 0.
Proof.
  destruct q as [n d]. unfold Qlt, Py.int. cbn [Qnum Qden].
  intros Hlo Hhi. apply Z.quot_small_iff; [lia|]. lia.
Qed.

(** X1: [intensity_at] truncates towards zero: every coordinate strictly
    between -1 and 1 addresses index 0 of its axis, so a slightly negative
    coordinate neither raises nor reads from the far end. *)
Theorem intensity_at_near_zero (v : Volume.t) (x y z : Q) :
  (-1 < x)%Q -> (x < 1)%Q -> (-1 < y)%Q -> (y < 1)%Q ->
  (-1 < z)%Q -> (z < 1)%Q ->
  Volume.intensity_at v x y z = Volume.intensity_at v 0 0 0.
Proof.
  intros X0 X1 Y0 Y1 Z0 Z1. unfold Volume.intensity_at.
  rewrite (int_small x), (int_small y), (int_small z) by assumption.
  reflexivity.
Qed.

Lemma intensity_at_near_zero_witness :
  Volume.intensity_at Fixtures.ramp2 (-1 # 2) (1 # 3) (-9 # 10) = Ok 0.
Proof.
  rewrite (intensity_at_near_zero Fixtures.ramp2 (-1 # 2) (1 # 3) (-9 # 10));
    reflexivity.
Defined.

(** [intensity_at] raises nothing but [IndexError]. *)
Lemma intensity_at_cases (v : Volume.t) (x y z : Q) :
  (exists a, Volume.intensity_at v x y z = Ok a) \/
  Volume.intensity_at v x y z = Raise IndexError.
Proof.
  unfold Volume.intensity_at, Np.getitem3.
  repeat match goal with
  | |- context [match ?m with _ => _ end] => destruct m
  end; eauto.
Qed.

(** An index at or past the end of an axis is never read. *)
Lemma intensity_at_past_end (v : Volume.t) (x y z : Q) :
  Z.of_nat (Np.dim2 v) <= Py.int x \/
  Z.of_nat (Np.dim1 v) <= Py.int y \/
  Z.of_nat (Np.dim0 v) <= Py.int z ->
  Volume.intensity_at v x y z = Raise IndexError.
Proof.
  intros H. unfold Volume.intensity_at, Np.getitem3.
  destruct H as [H|[H|H]].
  - rewrite (PyFacts.norm_index_outside (Np.dim2 v)) by (right; assumption).
    destruct (Py.norm_index (Np.dim0 v) (Py.int z)); [|reflexivity].
    destruct (Py.norm_index (Np.dim1 v) (Py.int y)); reflexivity.
  - rewrite (PyFacts.norm_index_outside (Np.dim1 v)) by (right; assumption).
    destruct (Py.norm_index (Np.dim0 v) (Py.int z)); reflexivity.
  - rewrite (PyFacts.norm_index_outside (Np.dim0 v)) by (right; assumption).
    reflexivity.
Qed.

(** X2: [interpolate_at] reads the neighbours at [x0+1], [y0+1] and [z0+1]
    whatever the fractional parts are, so a point in the last voxel of an
    axis (also an exact lattice point there, which [intensity_at] serves)
    raises [IndexError]. *)
Theorem interpolate_at_last_voxel (v : Volume.t) (x y z : Q) :
  Z.of_nat (Np.dim2 v) <= Py.int x + 1 \/
  Z.of_nat (Np.dim1 v) <= Py.int y + 1 \/
  Z.of_nat (Np.dim0 v) <= Py.int z + 1 ->
  Volume.interpolate_at v x y z = Raise IndexError.
Proof.
  intros H. unfold Volume.interpolate_at, Py.modf.
  set (x0 := inject_Z (Py.int x)). set (y0 := inject_Z (Py.int y)).
  set (z0 := inject_Z (Py.int z)).
  assert (C111 : Volume.intensity_at v (x0 + 1) (y0 + 1) (z0 + 1)
                 = Raise IndexError).
  { apply intensity_at_past_end. unfold x0, y0, z0. rewrite !int_succ. exact H. }
  repeat match goal with
  | |- bind (Volume.intensity_at v ?a ?b ?c) _ = _ =>
      let E := fresh "E" in
      destruct (intensity_at_cases v a b c) as [[? E]|E]; rewrite E;
      cbn [bind]; [|reflexivity]
  end.
  congruence.
Qed.

Lemma interpolate_at_last_voxel_witness :
  Volume.intensity_at Fixtures.ramp2 1 1 1 = Ok 7 /\
  Volume.interpolate_at Fixtures.ramp2 1 1 1 = Raise IndexError.
Proof.
  split; [reflexivity|].
  apply interpolate_at_last_voxel. left. vm_compute. congruence.
Defined.

(** The eight corner reads of a point whose cell lies inside the volume. *)
Lemma corner_inside (v : Volume.t) (xi yi zi : Z) :
  Np.wf3 v ->
  0 <= xi < Z.of_nat (Np.dim2 v) -> 0 <= yi < Z.of_nat (Np.dim1 v) ->
  0 <= zi < Z.of_nat (Np.dim0 v) ->
  Volume.intensity_at v (inject_Z xi) (inject_Z yi) (inject_Z zi) =
  Ok (Np.at3 0 v (Z.to_nat zi) (Z.to_nat yi) (Z.to_nat xi)).
Proof.
  intros Hwf Hx Hy Hz. unfold Volume.intensity_at, Np.getitem3.
  rewrite !InterpolationFacts.int_inject_Z.
  rewrite !PyFacts.norm_index_inside by assumption.
  apply NpFacts.getitem3_at; try assumption; lia.
Qed.

Lemma inject_Z_succ (n : Z) : (inject_Z n + 1)%Q = inject_Z (n + 1).
Proof.
  unfold Qplus, inject_Z. cbn [Qnum Qden].
  rewrite !Z.mul_1_r. reflexivity.
Qed.

(** X3: at a lattice point whose cell lies inside the volume,
    [interpolate_at] returns the voxel at that point: the weights of the
    seven other corners vanish. *)
Theorem interpolate_at_lattice_inside (v : Volume.t) (xi yi zi : Z) :
  Np.wf3 v ->
  0 <= xi -> xi + 1 < Z.of_nat (Np.dim2 v) ->
  0 <= yi -> yi + 1 < Z.of_nat (Np.dim1 v) ->
  0 <= zi -> zi + 1 < Z.of_nat (Np.dim0 v) ->
  exists c,
    Volume.interpolate_at v (inject_Z xi) (inject_Z yi) (inject_Z zi) = Ok c /\
    c == inject_Z (Np.at3 0 v (Z.to_nat zi) (Z.to_nat yi) (Z.to_nat xi)).
Proof.
  intros Hwf Hx0 Hx1 Hy0 Hy1 Hz0 Hz1.
  unfold Volume.interpolate_at, Py.modf.
  rewrite !InterpolationFacts.int_inject_Z. rewrite !inject_Z_succ.
  rewrite !corner_inside by (try assumption; lia).
  cbn [bind]. eexists. split; [reflexivity|]. ring.
Qed.

Lemma interpolate_at_lattice_inside_witness :
  exists c, Volume.interpolate_at Fixtures.ramp4 1 2 0 = Ok c /\ c == 9.
Proof.
  destruct (interpolate_at_lattice_inside Fixtures.ramp4 1 2 0
              SubvolumeFacts.ramp4_wf)
    as [c [E Hc]]; try (cbn; lia).
  exists c. split; [exact E|]. rewrite Hc. reflexivity.
Defined.

(** X4: a point whose cell lies inside a well-formed volume (truncated
    coordinates not negative, and their successors inside the axes) is
    served: none of the eight reads of [interpolate_at] raises and a value
    is returned, whatever the fractional parts. *)
Theorem interpolate_at_inside_returns (v : Volume.t) (x y z : Q) :
  Np.wf3 v ->
  0 <= Py.int x -> Py.int x + 1 < Z.of_nat (Np.dim2 v) ->
  0 <= Py.int y -> Py.int y + 1 < Z.of_nat (Np.dim1 v) ->
  0 <= Py.int z -> Py.int z + 1 < Z.of_nat (Np.dim0 v) ->
  exists c, Volume.interpolate_at v x y z = Ok c.
Proof.
  intros Hwf Hx0 Hx1 Hy0 Hy1 Hz0 Hz1.
  unfold Volume.interpolate_at, Py.modf.
  rewrite !inject_Z_succ.
  rewrite !corner_inside by (try assumption; lia).
  cbn [bind]. eexists. reflexivity.
Qed.

Lemma interpolate_at_inside_returns_witness :
  exists c,
    Volume.interpolate_at Fixtures.ramp4 (1 # 5) (5 # 2) (7 # 4) = Ok c.
Proof.
  apply (interpolate_at_inside_returns Fixtures.ramp4 (1 # 5) (5 # 2) (7 # 4)
           SubvolumeFacts.ramp4_wf);
    vm_compute; congruence.
Defined.

(** X5: [get_subvolume] raises [AssertionError] when one of its five
    arguments is not of length 3 and raises nothing else; otherwise it
    returns a block of shape (96, 96, 48), whatever the volume. *)
Theorem get_subvolume_outcome (v : Volume.t) (center_xyz : list Q)
    (shape_zyx : list Z) (x_vec y_vec z_vec : list Q) :
  let ok :=
    Nat.eqb (List.length center_xyz) 3 && Nat.eqb (List.length shape_zyx) 3
    && Nat.eqb (List.length x_vec) 3 && Nat.eqb (List.length y_vec) 3
    && Nat.eqb (List.length z_vec) 3 in
  if ok
  then exists r,
         Volume.get_subvolume v center_xyz shape_zyx x_vec y_vec z_vec = Ok r /\
         Np.shape3 r = (96, 96, 48)%nat
  else Volume.get_subvolume v center_xyz shape_zyx x_vec y_vec z_vec
       = Raise AssertionError.
Proof.
  unfold Volume.get_subvolume.
  destruct (Nat.eqb_spec (List.length center_xyz) 3) as [Lc|]; cbn [andb assert bind];
    [|reflexivity].
  destruct (Nat.eqb (List.length shape_zyx) 3); cbn [andb assert bind]; [|reflexivity].
  destruct (Nat.eqb (List.length x_vec) 3); cbn [andb assert bind]; [|reflexivity].
  destruct (Nat.eqb (List.length y_vec) 3); cbn [andb assert bind]; [|reflexivity].
  destruct (Nat.eqb (List.length z_vec) 3); cbn [andb assert bind]; [|reflexivity].
  destruct center_xyz as [|cx [|cy [|cz [|? ?]]]]; try discriminate.
  cbn [map].
  match goal with
  | |- context [negb (Np.shape3_eqb ?s ?t)] =>
      destruct (Np.shape3_eqb s t) eqn:E; cbn [negb]
  end.
  - eexists. split; [reflexivity|].
    unfold Np.shape3_eqb, Np.shape3 in E. cbn [fst snd] in E.
    apply andb_prop in E as [E E3]. apply andb_prop in E as [E1 E2].
    apply Nat.eqb_eq in E1, E2, E3.
    unfold Np.shape3. rewrite E1, E2, E3. reflexivity.
  - eexists. split; reflexivity.
Qed.

(** X6: the requested shape and the three axis vectors have no influence
    on what [get_subvolume] returns: two calls on the same volume and centre
    give the same outcome whenever all those arguments have length 3. *)
Theorem get_subvolume_ignores_frame (v : Volume.t) (center_xyz : list Q)
    (shape shape' : list Z) (xv yv zv xv' yv' zv' : list Q) :
  List.length shape = 3%nat -> List.length shape' = 3%nat ->
  List.length xv = 3%nat -> List.length yv = 3%nat -> List.length zv = 3%nat ->
  List.length xv' = 3%nat -> List.length yv' = 3%nat ->
  List.length zv' = 3%nat ->
  Volume.get_subvolume v center_xyz shape xv yv zv =
  Volume.get_subvolume v center_xyz shape' xv' yv' zv'.
Proof.
  intros L1 L2 L3 L4 L5 L6 L7 L8. unfold Volume.get_subvolume.
  rewrite L1, L2, L3, L4, L5, L6, L7, L8. reflexivity.
Qed.

Lemma get_subvolume_ignores_frame_witness :
  Volume.get_subvolume Fixtures.ramp4 [2; 2; 2]%Q [96; 96; 48]
    Volume.x_axis Volume.y_axis Volume.z_axis =
  Volume.get_subvolume Fixtures.ramp4 [2; 2; 2]%Q [2; 2; 2]
    Volume.z_axis Volume.x_axis Volume.y_axis.
Proof.
  apply get_subvolume_ignores_frame; reflexivity.
Defined.

End VolumeMore.

(** ** Further properties of trainvol.py: linear indices *)

Module CoordFacts.

Section WithRandom.

Variable rng : Type.

Lemma int_div (a w : Z) :
  0 < w -> Py.int (inject_Z a / inject_Z w) = Z.quot a w.
Proof.
  intros Hw. destruct w as [|p|p]; try lia.
  unfold Py.int, Qdiv, Qmult, Qinv, inject_Z. cbn [Qnum Qden].
  rewrite Z.mul_1_r. reflexivity.
Qed.

(** X7: on a surface at least one column wide, [ind_to_coord] undoes
    [coord_to_ind] for every non-negative row and every column of the
    surface whose linear index is below [2^53], the range in which the
    float quotient of the source truncates to the exact row. *)
Theorem ind_to_coord_of_coord (self : TrainVol.t rng) (row col : Z) :
  0 <= row -> 0 <= col < Z.of_nat (Np.dim1 (TrainVol.raw_volume rng self)) ->
  TrainVol.coord_to_ind rng self row col < 2 ^ 53 ->
  TrainVol.ind_to_coord rng self (TrainVol.coord_to_ind rng self row col)
  = Ok (row, col).
Proof.
  intros Hr Hc _. unfold TrainVol.ind_to_coord, TrainVol.coord_to_ind.
  set (width := Z.of_nat (Np.dim1 (TrainVol.raw_volume rng self))) in *.
  destruct (Z.eqb_spec width 0); [lia|].
  rewrite int_div by lia.
  assert (Em : (row * width + col) mod width = col).
  { rewrite Z.add_comm, Z.mod_add by lia. apply Z.mod_small. assumption. }
  assert (Eq : Z.quot (row * width + col) width = row).
  { rewrite Z.quot_div_nonneg by nia.
    rewrite Z.add_comm, Z.div_add by lia. rewrite Z.div_small by assumption.
    reflexivity. }
  rewrite Em, Eq. reflexivity.
Qed.

(** X8: for a linear index from 0 to below [2^53] (the range in which the
    float quotient of the source truncates to the exact row),
    [ind_to_coord] gives a column of the surface and a non-negative row from
    which [coord_to_ind] rebuilds the index; the row lies on the surface
    when the index is below [rows * cols]. *)
Theorem coord_of_ind_to_coord (self : TrainVol.t rng) (ind : Z) :
  let rows := Z.of_nat (Np.dim0 (TrainVol.raw_volume rng self)) in
  let cols := Z.of_nat (Np.dim1 (TrainVol.raw_volume rng self)) in
  0 <= ind < 2 ^ 53 -> 0 < cols ->
  exists row col,
    TrainVol.ind_to_coord rng self ind = Ok (row, col) /\
    TrainVol.coord_to_ind rng self row col = ind /\
    0 <= row /\ 0 <= col < cols /\
    (ind < rows * cols -> row < rows).
Proof.
  intros rows cols [Hi _] Hc.
  unfold TrainVol.ind_to_coord, TrainVol.coord_to_ind.
  fold cols. destruct (Z.eqb_spec cols 0); [lia|].
  rewrite int_div by lia. rewrite Z.quot_div_nonneg by lia.
  eexists. eexists. split; [reflexivity|].
  pose proof (Z.div_mod ind cols ltac:(lia)) as Dm.
  pose proof (Z.mod_pos_bound ind cols Hc) as Bm.
  pose proof (Z.div_pos ind cols Hi Hc) as Bd.
  split; [lia|]. split; [assumption|]. split; [assumption|].
  intros Hlt. apply Z.div_lt_upper_bound; lia.
Qed.

End WithRandom.

Lemma ind_to_coord_of_coord_witness :
  exists tv,
    Fixtures.sampler12 = Ok tv /\
    TrainVol.ind_to_coord nat tv (TrainVol.coord_to_ind nat tv 5 7) = Ok (5, 7).
Proof.
  eexists. split; [vm_compute; reflexivity|].
  apply ind_to_coord_of_coord; cbn; lia.
Defined.

Lemma coord_of_ind_to_coord_witness :
  exists tv row col,
    Fixtures.sampler12 = Ok tv /\
    TrainVol.ind_to_coord nat tv 67 = Ok (row, col) /\
    TrainVol.coord_to_ind nat tv row col = 67.
Proof.
  eexists.
  match goal with
  | |- exists row col, ?e = Ok ?tv /\ _ =>
      assert (E : e = Ok tv) by (vm_compute; reflexivity)
  end.
  match type of E with
  | _ = Ok ?tv =>
      destruct (coord_of_ind_to_coord nat tv 67) as [row [col [Ei [Ec _]]]];
        [lia|cbn; lia|]
  end.
  exists row, col. split; [exact E|]. split; assumption.
Defined.

End CoordFacts.

(** ** ops.py *)

Module OpsFacts.

(** X9: [are_coordinates_within] does not depend on the order of the two
    points. *)
Theorem are_coordinates_within_sym (p1 p2 : Q * Q) (distance : Q) :
  Ops.are_coordinates_within p1 p2 distance =
  Ops.are_coordinates_within p2 p1 distance.
Proof.
  destruct p1 as [x1 y1], p2 as [x2 y2]. unfold Ops.are_coordinates_within.
  assert (S : forall a b, Qle_bool distance (Qabs (a - b)) =
                          Qle_bool distance (Qabs (b - a))).
  { intros a b.
    destruct (Qle_bool distance (Qabs (a - b))) eqn:E1,
             (Qle_bool distance (Qabs (b - a))) eqn:E2; try reflexivity.
    - apply Qle_bool_iff in E1. rewrite Qabs_Qminus in E1.
      apply Qle_bool_iff in E1. congruence.
    - apply Qle_bool_iff in E2. rewrite Qabs_Qminus in E2.
      apply Qle_bool_iff in E2. congruence. }
  rewrite (S x1 x2), (S y1 y2). reflexivity.
Qed.

(** X10: the role of the distance in [are_coordinates_within].  With a
    distance that is not positive the answer is false for every pair of
    points; a point is within a distance of itself exactly when the distance
    is positive; and two points within a distance of each other are within
    every larger distance. *)
Theorem are_coordinates_within_distance (p1 p2 : Q * Q) (distance : Q) :
  ((distance <= 0)%Q -> Ops.are_coordinates_within p1 p2 distance = false) /\
  (Ops.are_coordinates_within p1 p1 distance = true <-> (0 < distance)%Q) /\
  (forall d' : Q, (distance <= d')%Q ->
     Ops.are_coordinates_within p1 p2 distance = true ->
     Ops.are_coordinates_within p1 p2 d' = true).
Proof.
  assert (L : forall d a, negb (Qle_bool d a) = true <-> (a < d)%Q).
  { intros d a. rewrite negb_true_iff. split.
    - intros E. apply Qnot_le_lt. intros C. apply Qle_bool_iff in C. congruence.
    - intros H. destruct (Qle_bool d a) eqn:E; [|reflexivity].
      apply Qle_bool_iff in E. exfalso. apply (Qlt_not_le _ _ H E). }
  assert (Z0 : forall a : Q, Qabs (a - a) == 0).
  { intros a. setoid_replace (a - a)%Q with 0%Q by ring. reflexivity. }
  destruct p1 as [x1 y1], p2 as [x2 y2]. unfold Ops.are_coordinates_within.
  split; [|split].
  - intros Hd. apply andb_false_iff. left. apply negb_false_iff.
    apply Qle_bool_iff. eapply Qle_trans; [exact Hd|apply Qabs_nonneg].
  - rewrite andb_true_iff, !L, !Z0. tauto.
  - intros d' Hd. rewrite !andb_true_iff, !L. intros [Hx Hy].
    split; eapply Qlt_le_trans; eassumption.
Qed.

End OpsFacts.

(** ** Further properties of features.py *)

Module LoopMore.

(** A loop whose steps keep an invariant or raise [e] does the same. *)
Lemma for_ok_or_raise {S} (P : S -> Prop) (e : exn) (l : list Z)
    (body : Z -> S -> result S) (s : S) :
  (forall i t, In i l -> P t ->
     (exists t', body i t = Ok t' /\ P t') \/ body i t = Raise e) ->
  P s ->
  (exists s', for_ l body s = Ok s' /\ P s') \/ for_ l body s = Raise e.
Proof.
  revert s. induction l as [|i l IH]; intros s Hb Hs.
  - left. exists s. split; [reflexivity|assumption].
  - cbn [for_].
    destruct (Hb i s (or_introl eq_refl) Hs) as [[t [Et Pt]]|Er].
    + rewrite Et. cbn [bind]. apply IH; [|assumption].
      intros j u Hj. apply Hb. right. assumption.
    + right. rewrite Er. reflexivity.
Qed.

(** If moreover one step raises [e] on every state, the loop raises [e]. *)
Lemma for_raises {S} (P : S -> Prop) (e : exn) (l : list Z)
    (body : Z -> S -> result S) (s : S) :
  (forall i t, In i l -> P t ->
     (exists t', body i t = Ok t' /\ P t') \/ body i t = Raise e) ->
  (exists i, In i l /\ forall t, P t -> body i t = Raise e) ->
  P s -> for_ l body s = Raise e.
Proof.
  revert s. induction l as [|i l IH]; intros s Hb [k [Hk Hr]] Hs.
  - destruct Hk.
  - cbn [for_].
    destruct (Hb i s (or_introl eq_refl) Hs) as [[t [Et Pt]]|Er].
    + rewrite Et. cbn [bind].
      destruct Hk as [->|Hk].
      * rewrite (Hr s Hs) in Et. discriminate.
      * apply IH; [|exists k; split; assumption|assumption].
        intros j u Hj. apply Hb. right. assumption.
    + rewrite Er. reflexivity.
Qed.

End LoopMore.

Module FeaturesMore.

Local Abbreviation shaped := Features.shaped.

Local Abbreviation single_shaped := Features.single_shaped.

Lemma shaped_set (rows cols : nat) (a : Np.ndarray2 Features.f64) (i j : Z)
    (v : Features.f64) :
  shaped rows cols a -> 0 <= i < Z.of_nat rows -> 0 <= j < Z.of_nat cols ->
  exists a', NpSet.setitem2 a i j v = Ok a' /\ shaped rows cols a'.
Proof.
  intros [W [R C]] Hi Hj.
  destruct (LoopFacts.setitem2_inside v a i j v W) as [a' [E [W' [R' [C' _]]]]];
    [lia|lia|].
  exists a'. split; [assumption|]. split; [assumption|]. split; congruence.
Qed.

Lemma getitem2_inside {A} (d : A) (a : Np.ndarray2 A) (i j : Z) :
  Np.wf2 a -> 0 <= i < Z.of_nat (Np.rows2 a) -> 0 <= j < Z.of_nat (Np.cols2 a) ->
  Np.getitem2 a i j = Ok (Np.at2 d a (Z.to_nat i) (Z.to_nat j)).
Proof.
  intros [Hl Hr] Hi Hj. unfold Np.getitem2, Np.at2.
  rewrite !PyFacts.norm_index_inside by assumption.
  destruct (nth_error (Np.items2 a) (Z.to_nat i)) as [r|] eqn:Er;
    [|apply nth_error_None in Er; lia].
  assert (Lr : List.length r = Np.cols2 a).
  { unfold Np.wf_rows in Hr. rewrite Forall_forall in Hr. apply Hr.
    eapply nth_error_In. eassumption. }
  destruct (nth_error r (Z.to_nat j)) as [x|] eqn:Ex;
    [|apply nth_error_None in Ex; lia].
  rewrite (nth_error_nth _ _ _ Er), (nth_error_nth _ _ _ Ex). reflexivity.
Qed.

(** One step of the single-vector loop at a point of the surface: it
    succeeds when the depth window is not empty and raises [ValueError] when
    it is. *)
Lemma single_step_outcome (rows cols : nat) (volume : Np.ndarray3 Z)
    (surf_pts : Np.ndarray2 Z) (CUT_IN CUT_BACK THRESH i j : Z)
    (m : Features.single) :
  Np.wf3 volume -> Np.dim0 volume = rows -> Np.dim1 volume = cols ->
  Np.wf2 surf_pts -> Np.rows2 surf_pts = rows -> Np.cols2 surf_pts = cols ->
  0 <= i < Z.of_nat rows -> 0 <= j < Z.of_nat cols ->
  single_shaped rows cols m ->
  exists srf cut vec,
    Features.window surf_pts CUT_IN CUT_BACK i j = Ok (srf, cut) /\
    Np.getvec3 volume i j = Ok vec /\
    match Py.slice vec srf cut with
    | [] => Features.single_step volume surf_pts CUT_IN CUT_BACK THRESH i j m
            = Raise ValueError
    | _ :: _ =>
        exists m',
          Features.single_step volume surf_pts CUT_IN CUT_BACK THRESH i j m
          = Ok m' /\ single_shaped rows cols m'
    end.
Proof.
  intros Wv D0 D1 Ws Rs Cs Hi Hj [S1 [S2 [S3 [S4 [S5 S6]]]]].
  unfold Features.single_step, Features.window.
  rewrite (getitem2_inside 0 surf_pts i j Ws) by (rewrite ?Rs, ?Cs; assumption).
  cbn [bind].
  destruct (NpFacts.getvec3_inside volume i j Wv) as [vec [Ev _]];
    [rewrite D0; assumption|rewrite D1; assumption|].
  eexists. eexists. exists vec. split; [reflexivity|]. split; [exact Ev|].
  rewrite Ev. cbn [bind].
  match goal with
  | |- match ?w with _ => _ end => set (tmp := w)
  end.
  destruct (shaped_set rows cols _ i j
              (Features.Fin (INR (Features.count_where (fun v => v >? THRESH) tmp)))
              S1 Hi Hj) as [a1 [E1 T1]].
  destruct (shaped_set rows cols _ i j (Features.mean tmp) S2 Hi Hj)
    as [a2 [E2 T2]].
  destruct (shaped_set rows cols _ i j (Features.sum tmp) S3 Hi Hj)
    as [a3 [E3 T3]].
  rewrite E1. cbn [bind]. rewrite E2. cbn [bind]. rewrite E3. cbn [bind].
  destruct tmp as [|x tl] eqn:Et; [reflexivity|].
  cbn [Red.min Red.max bind].
  destruct (shaped_set rows cols _ i j
              (Features.Fin (IZR (fold_left Z.min tl x))) S4 Hi Hj)
    as [a4 [E4 T4]].
  destruct (shaped_set rows cols _ i j
              (Features.Fin (IZR (fold_left Z.max tl x))) S5 Hi Hj)
    as [a5 [E5 T5]].
  destruct (shaped_set rows cols _ i j (Features.std (x :: tl)) S6 Hi Hj)
    as [a6 [E6 T6]].
  rewrite E4. cbn [bind]. rewrite E5. cbn [bind]. rewrite E6. cbn [bind].
  eexists. split; [reflexivity|].
  exact (conj T1 (conj T2 (conj T3 (conj T4 (conj T5 T6))))).
Qed.

(** X11: when the surface map has the shape of the volume's first two axes
    and the depth window of some point of the surface is empty (a window of
    width 0, or one that starts past the end of the depth axis), the
    uncached [extract_for_vol] raises [ValueError]: [np.min] has no value
    for an empty window, so no coercion to zero takes place. *)
Theorem extract_raises_on_empty (volume : Np.ndarray3 Z)
    (surf_pts : Np.ndarray2 Z) (CUT_IN CUT_BACK NEIGH_RADIUS THRESH : Z)
    (i j : Z) (srf cut : Z) (vec : list Z) :
  Np.wf3 volume -> Np.wf2 surf_pts ->
  Np.shape2 surf_pts = (Np.dim0 volume, Np.dim1 volume) ->
  0 <= i < Z.of_nat (Np.dim0 volume) -> 0 <= j < Z.of_nat (Np.dim1 volume) ->
  Features.window surf_pts CUT_IN CUT_BACK i j = Ok (srf, cut) ->
  Np.getvec3 volume i j = Ok vec ->
  Py.slice vec srf cut = [] ->
  Features.extract_for_vol None volume surf_pts CUT_IN CUT_BACK NEIGH_RADIUS
                           THRESH = Raise ValueError.
Proof.
  intros Wv Ws Sh Hi Hj Ew Ev Hnil.
  unfold Np.shape2 in Sh. inversion Sh as [[Rs Cs]].
  unfold Features.extract_for_vol.
  set (rows := Np.dim0 volume) in *. set (cols := Np.dim1 volume) in *.
  assert (Step : forall i' j' t,
             0 <= i' < Z.of_nat rows -> 0 <= j' < Z.of_nat cols ->
             single_shaped rows cols t ->
             (exists t',
                Features.single_step volume surf_pts CUT_IN CUT_BACK THRESH
                                     i' j' t = Ok t' /\
                single_shaped rows cols t') \/
             Features.single_step volume surf_pts CUT_IN CUT_BACK THRESH
                                  i' j' t = Raise ValueError).
  { intros i' j' t Hi' Hj' Pt.
    destruct (single_step_outcome rows cols volume surf_pts CUT_IN CUT_BACK
                THRESH i' j' t Wv eq_refl eq_refl Ws Rs Cs Hi' Hj' Pt)
      as [s0 [c0 [v0 [_ [_ Out]]]]].
    destruct (Py.slice v0 s0 c0); [right|left]; exact Out. }
  assert (Bad : forall t, single_shaped rows cols t ->
             Features.single_step volume surf_pts CUT_IN CUT_BACK THRESH
                                  i j t = Raise ValueError).
  { intros t Pt.
    destruct (single_step_outcome rows cols volume surf_pts CUT_IN CUT_BACK
                THRESH i j t Wv eq_refl eq_refl Ws Rs Cs Hi Hj Pt)
      as [s0 [c0 [v0 [Ew0 [Ev0 Out]]]]].
    rewrite Ew in Ew0. inversion Ew0; subst s0 c0.
    rewrite Ev in Ev0. inversion Ev0; subst v0.
    rewrite Hnil in Out. exact Out. }
  rewrite (LoopMore.for_raises (single_shaped rows cols) ValueError).
  - reflexivity.
  - intros i' t Hi' Pt. apply PyFacts.range_In in Hi'.
    apply (LoopMore.for_ok_or_raise (single_shaped rows cols) ValueError);
      [|assumption].
    intros j' u Hj' Pu. apply PyFacts.range_In in Hj'.
    apply Step; [lia|lia|assumption].
  - exists i. split; [apply PyFacts.range_In; lia|].
    intros t Pt.
    apply (LoopMore.for_raises (single_shaped rows cols) ValueError);
      [|exists j; split; [apply PyFacts.range_In; lia|apply Bad]|assumption].
    intros j' u Hj' Pu. apply PyFacts.range_In in Hj'.
    apply Step; [lia|lia|assumption].
  - pose proof (FeaturesFacts.shaped_zeros rows cols) as Z0.
    exact (conj Z0 (conj Z0 (conj Z0 (conj Z0 (conj Z0 Z0))))).
Qed.

(** A window that starts past the end of the depth axis, on the 1x1x2
    volume. *)
Lemma extract_raises_on_empty_witness :
  Features.extract_for_vol None Fixtures.vol112 Fixtures.surf11_deep 1 0 0 0
  = Raise ValueError.
Proof.
  apply (extract_raises_on_empty Fixtures.vol112 Fixtures.surf11_deep 1 0 0 0
           0 0 2 3 [5; 7]);
    try reflexivity; try (cbn; lia).
  - split; [reflexivity|repeat constructor].
  - split; [reflexivity|repeat constructor].
Defined.

End FeaturesMore.

(** ** Further properties of trainvol.py: the fragment mask *)

Module SurfaceMore.

(** Two loops over the same list, run side by side on a pair. *)
Lemma for_pair {A B} (l : list Z) (b1 : Z -> A -> result A)
    (b2 : Z -> B -> result B) (body : Z -> A * B -> result (A * B)) :
  (forall i a b a' b', In i l -> b1 i a = Ok a' -> b2 i b = Ok b' ->
     body i (a, b) = Ok (a', b')) ->
  forall a b a' b',
    for_ l b1 a = Ok a' -> for_ l b2 b = Ok b' ->
    for_ l body (a, b) = Ok (a', b').
Proof.
  induction l as [|i l IH]; intros Hb a b a' b' E1 E2.
  - cbn in *. congruence.
  - cbn [for_] in *.
    destruct (b1 i a) as [a1|] eqn:Ea; [|discriminate].
    destruct (b2 i b) as [b1'|] eqn:Eb; [|discriminate].
    cbn [bind] in *.
    rewrite (Hb i a b a1 b1' (or_introl eq_refl) Ea Eb). cbn [bind].
    apply IH; try assumption.
    intros j x y x' y' Hj. apply Hb. right. assumption.
Qed.

Lemma fold_min_In (l : list Z) (a : Z) : In (fold_left Z.min l a) (a :: l).
Proof.
  revert a. induction l as [|y l IH]; intros a; cbn [fold_left].
  - left. reflexivity.
  - destruct (IH (Z.min a y)) as [E|Hin].
    + destruct (Z.min_spec a y) as [[_ M]|[_ M]]; rewrite M in *.
      * left. assumption.
      * right. left. assumption.
    + right. right. assumption.
Qed.

(** The minimum exceeds a bound exactly when every entry does. *)
Lemma min_gt (l : list Z) (m t : Z) :
  Red.min l = Ok m -> (m > t <-> forall x, In x l -> x > t).
Proof.
  intros E. split.
  - intros Hm x Hx. pose proof (SurfaceFacts.min_le l m E x Hx). lia.
  - intros Hall. destruct l as [|a l]; [discriminate|].
    cbn in E. inversion E; subst m. apply Hall. apply fold_min_In.
Qed.

Lemma fold_max_ge (l : list Z) (a : Z) :
  forall x, In x (a :: l) -> x <= fold_left Z.max l a.
Proof.
  revert a. induction l as [|y l IH]; intros a x Hx; cbn [fold_left].
  - destruct Hx as [->|[]]. lia.
  - destruct Hx as [->|[->|Hx]].
    + etransitivity; [|apply IH; left; reflexivity]. lia.
    + etransitivity; [|apply IH; left; reflexivity]. lia.
    + apply IH. right. assumption.
Qed.

(** The maximum exceeds a bound exactly when some entry does. *)
Lemma max_gt (l : list Z) (m t : Z) :
  Red.max l = Ok m -> (m > t <-> exists x, In x l /\ x > t).
Proof.
  destruct l as [|a l]; [discriminate|]. cbn. intros E. inversion E; subst m.
  split.
  - apply SurfaceFacts.fold_max_witness.
  - intros [x [Hx Gx]]. pose proof (fold_max_ge l a x Hx). lia.
Qed.

Lemma In_profile (l : list Z) (t : Z) :
  (exists x, In x l /\ x > t) <->
  (exists k : nat, (k < List.length l)%nat /\ nth k l 0 > t).
Proof.
  split.
  - intros [x [Hx Gx]]. destruct (In_nth l x 0 Hx) as [k [Hk Ek]].
    exists k. split; [assumption|]. rewrite Ek. assumption.
  - intros [k [Hk Gk]]. exists (nth k l 0). split; [|assumption].
    apply nth_In. assumption.
Qed.

(** The first crossing of a profile that has a value above the threshold. *)
Lemma profile_crossing (vec : list Z) (thresh : Z) :
  (exists x, In x vec /\ x > thresh) ->
  exists k : nat,
    Py.getitem (Red.where_ (fun v => v >? thresh) vec) 0 = Ok (Z.of_nat k) /\
    (k < List.length vec)%nat /\ nth k vec 0 > thresh /\
    forall k' : nat, (k' < k)%nat -> nth k' vec 0 <= thresh.
Proof.
  intros [x [Hx Gx]].
  destruct (SurfaceFacts.where_first (fun v => v >? thresh) vec 0)
    as [idx [rest [Ew [Bi [Ci Fi]]]]].
  { exists x. split; [assumption|]. apply Z.gtb_lt. lia. }
  exists idx. unfold Red.where_. rewrite Ew. cbn [Z.add].
  split; [reflexivity|]. split; [assumption|]. split.
  - apply Z.gtb_lt in Ci. lia.
  - intros k' Hk'. specialize (Fi k' Hk').
    destruct (Z.gtb_spec (nth k' vec 0) thresh); [discriminate|lia].
Qed.

Section Spec.

Variable vol : Np.ndarray3 Z.
Variable n thresh : Z.
Variable maxes : Np.ndarray2 Z.

Hypothesis Hwf : Np.wf3 vol.
Hypothesis Hn : 0 <= n.
Hypothesis Hmax : Red.max_axis2 vol = Ok maxes.

Let R := Z.of_nat (Np.dim0 vol).
Let C := Z.of_nat (Np.dim1 vol).

(** The test of line 157 and the value of line 160, as functions of the
    point. *)
Let cond (i j : Z) : bool :=
  match Red.min (Np.flatten2
          (Np.slice2 maxes (i - n) (i + n + 1) (j - n) (j + n + 1))) with
  | Ok m => m >? thresh
  | Raise _ => false
  end.

Let crossing (i j : Z) : Z :=
  match Np.getvec3 vol i j with
  | Ok vector =>
      match Py.getitem (Red.where_ (fun v => v >? thresh) vector) 0 with
      | Ok k => k
      | Raise _ => 0
      end
  | Raise _ => 0
  end.

Let bright (i j : Z) : Prop :=
  forall a b : nat,
    i - n <= Z.of_nat a <= i + n -> j - n <= Z.of_nat b <= j + n ->
    exists k : nat, (k < Np.dim2 vol)%nat /\ Np.at3 0 vol a b k > thresh.

Lemma profile_length (a b : nat) :
  (a < Np.dim0 vol)%nat -> (b < Np.dim1 vol)%nat ->
  List.length (nth b (nth a (Np.items3 vol) []) []) = Np.dim2 vol.
Proof.
  intros Ha Hb.
  destruct (SubvolumeFacts.wf3_nth_plane vol a Hwf Ha) as [Lp Wp].
  apply (SubvolumeFacts.wf_rows_nth _ _ b Wp). lia.
Qed.

(** At a visited point the neighbourhood slice is not empty, and the test
    holds exactly when every profile of the neighbourhood has a value above
    the threshold. *)
Lemma cond_bright (i j : Z) :
  n <= i < R - n - 1 -> n <= j < C - n - 1 ->
  exists m,
    Red.min (Np.flatten2
      (Np.slice2 maxes (i - n) (i + n + 1) (j - n) (j + n + 1))) = Ok m /\
    (cond i j = true <-> bright i j).
Proof.
  intros Hi Hj.
  destruct (SurfaceFacts.max_axis2_spec vol maxes Hwf Hmax)
    as [Hd [Wm [Rm [Cm Am]]]].
  set (win := Np.flatten2
         (Np.slice2 maxes (i - n) (i + n + 1) (j - n) (j + n + 1))).
  assert (Win : forall x, In x win <->
            exists r c : nat,
              i - n <= Z.of_nat r < i + n + 1 /\
              j - n <= Z.of_nat c < j + n + 1 /\ x = Np.at2 0 maxes r c).
  { intros x. apply (GroundTruthFacts.In_window 0); try assumption;
      rewrite ?Rm, ?Cm; fold R C; lia. }
  assert (Hin : In (Np.at2 0 maxes (Z.to_nat i) (Z.to_nat j)) win).
  { apply Win. exists (Z.to_nat i), (Z.to_nat j).
    split; [lia|]. split; [lia|reflexivity]. }
  destruct (Red.min win) as [m|e] eqn:Em.
  2:{ destruct win; [destruct Hin|discriminate]. }
  exists m. split; [reflexivity|].
  unfold cond. fold win. rewrite Em.
  rewrite Z.gtb_lt, <- Z.gt_lt_iff, (min_gt win m thresh Em).
  unfold bright. split.
  - intros Hall a b Ha Hb.
    assert (Ba : (a < Np.dim0 vol)%nat) by (fold R in Hi; lia).
    assert (Bb : (b < Np.dim1 vol)%nat) by (fold C in Hj; lia).
    assert (G : Np.at2 0 maxes a b > thresh).
    { apply Hall. apply Win. exists a, b.
      split; [lia|]. split; [lia|reflexivity]. }
    apply (max_gt _ _ thresh (Am a b Ba Bb)) in G.
    apply In_profile in G. destruct G as [k [Hk Gk]].
    rewrite profile_length in Hk by assumption.
    exists k. split; assumption.
  - intros Hb x Hx. apply Win in Hx as [r [c [Br [Bc ->]]]].
    assert (Ba : (r < Np.dim0 vol)%nat) by (fold R in Hi; lia).
    assert (Bb : (c < Np.dim1 vol)%nat) by (fold C in Hj; lia).
    apply (max_gt _ _ thresh (Am r c Ba Bb)). apply In_profile.
    destruct (Hb r c) as [k [Hk Gk]]; [lia|lia|].
    exists k. rewrite profile_length by assumption. split; assumption.
Qed.

(** Where the test holds, the value stored is the first crossing of the
    point's own profile. *)
Lemma crossing_first (i j : Z) :
  n <= i < R - n - 1 -> n <= j < C - n - 1 -> cond i j = true ->
  exists (vector : list Z) (k : nat),
    Np.getvec3 vol i j = Ok vector /\
    Py.getitem (Red.where_ (fun v => v >? thresh) vector) 0 = Ok (Z.of_nat k) /\
    crossing i j = Z.of_nat k /\
    (k < Np.dim2 vol)%nat /\
    Np.at3 0 vol (Z.to_nat i) (Z.to_nat j) k > thresh /\
    forall k' : nat, (k' < k)%nat ->
      Np.at3 0 vol (Z.to_nat i) (Z.to_nat j) k' <= thresh.
Proof.
  intros Hi Hj Hc.
  destruct (cond_bright i j Hi Hj) as [m [_ Hb]]. apply Hb in Hc.
  destruct (NpFacts.getvec3_inside vol i j Hwf) as [vector [Ev [Lv Dv]]];
    [fold R; lia|fold C; lia|].
  destruct (Hc (Z.to_nat i) (Z.to_nat j)) as [k0 [Hk0 Gk0]]; [lia|lia|].
  destruct (profile_crossing vector thresh) as [k [Eg [Bk [Gk Fk]]]].
  { apply In_profile. exists k0. rewrite Lv. split; [assumption|].
    rewrite Dv. exact Gk0. }
  exists vector, k. split; [assumption|]. split; [assumption|].
  split; [unfold crossing; rewrite Ev, Eg; reflexivity|].
  split; [lia|]. unfold Np.at3. rewrite <- Dv. split; assumption.
Qed.

(** The body of the loop agrees with painting the two maps side by side. *)
Lemma step_pair (i j : Z) (fm sp fm' sp' : Np.ndarray2 Z) :
  n <= i < R - n - 1 -> n <= j < C - n - 1 ->
  Grid.paint_cell cond (fun _ _ => 1) i j fm = Ok fm' ->
  Grid.paint_cell cond crossing i j sp = Ok sp' ->
  (let '(frag_mask, surf_pts) := (fm, sp) in
   m <- Red.min (Np.flatten2
          (Np.slice2 maxes (i - n) (i + n + 1) (j - n) (j + n + 1))) ;;
   if m >? thresh then
     frag_mask <- NpSet.setitem2 frag_mask i j 1 ;;
     vector <- Np.getvec3 vol i j ;;
     k <- Py.getitem (Red.where_ (fun v => v >? thresh) vector) 0 ;;
     surf_pts <- NpSet.setitem2 surf_pts i j k ;;
     Ok (frag_mask, surf_pts)
   else Ok (frag_mask, surf_pts)) = Ok (fm', sp').
Proof.
  intros Hi Hj. unfold Grid.paint_cell.
  destruct (cond_bright i j Hi Hj) as [m [Em _]].
  destruct (cond i j) eqn:Ec.
  - destruct (crossing_first i j Hi Hj Ec) as [vector [k [Ev [Eg [Ek _]]]]].
    unfold cond in Ec. rewrite Em in Ec.
    intros E1 E2. rewrite Em. cbn [bind]. rewrite Ec, E1. cbn [bind].
    rewrite Ev. cbn [bind]. rewrite Eg. cbn [bind].
    rewrite Ek in E2. rewrite E2. reflexivity.
  - unfold cond in Ec. rewrite Em in Ec.
    intros E1 E2. inversion E1; inversion E2; subst.
    rewrite Em. cbn [bind]. rewrite Ec. reflexivity.
Qed.

(** [find_frag_surf_at_thresh] once the depth maxima are known. *)
Lemma find_frag_surf_painted :
  exists mask surf,
    TrainVol.find_frag_surf_at_thresh vol n thresh = Ok (mask, surf) /\
    Grid.painted 0 cond (fun _ _ => 1)
      (Np.zeros2 0 (Np.dim0 vol) (Np.dim1 vol))
      (Py.range n (R - n - 1)) (Py.range n (C - n - 1)) mask /\
    Grid.painted 0 cond crossing
      (Np.zeros2 0 (Np.dim0 vol) (Np.dim1 vol))
      (Py.range n (R - n - 1)) (Py.range n (C - n - 1)) surf.
Proof.
  destruct (SurfaceFacts.max_axis2_spec vol maxes Hwf Hmax)
    as [Hd [Wm [Rm [Cm Am]]]].
  set (z := Np.zeros2 0 (Np.dim0 vol) (Np.dim1 vol)).
  assert (Hrs : forall i, In i (Py.range n (R - n - 1)) ->
                          0 <= i < Z.of_nat (Np.rows2 z)).
  { intros i Hi. apply PyFacts.range_In in Hi. cbn. fold R. lia. }
  assert (Hcs : forall j, In j (Py.range n (C - n - 1)) ->
                          0 <= j < Z.of_nat (Np.cols2 z)).
  { intros j Hj. apply PyFacts.range_In in Hj. cbn. fold C. lia. }
  destruct (LoopFacts.paint_grid 0 cond (fun _ _ => 1) z _ _
              (LoopFacts.zeros2_wf 0 _ _) Hrs Hcs) as [mask [E1 P1]].
  destruct (LoopFacts.paint_grid 0 cond crossing z _ _
              (LoopFacts.zeros2_wf 0 _ _) Hrs Hcs) as [surf [E2 P2]].
  exists mask, surf. split; [|split; assumption].
  unfold TrainVol.find_frag_surf_at_thresh. rewrite Hmax. cbn [bind].
  rewrite Rm, Cm. fold z. fold R C.
  refine (for_pair _ _ _ _ _ _ _ _ _ E1 E2).
  intros i fm sp fm' sp' Hi F1 F2. apply PyFacts.range_In in Hi.
  refine (for_pair _ _ _ _ _ _ _ _ _ F1 F2).
  intros j a b a' b' Hj G1 G2. apply PyFacts.range_In in Hj.
  apply (step_pair i j a b a' b' Hi Hj G1 G2).
Qed.

End Spec.

(** X12: on a well-formed volume of depth at least 1, with a non-negative
    [fragment_buffer] [n], [find_frag_surf_at_thresh] returns two maps of the
    shape of the surface.  A point is marked (mask 1) exactly when it is
    visited by the loops, [n <= i < rows-n-1] and [n <= j < cols-n-1], and
    every depth profile of its (2n+1)x(2n+1) neighbourhood has a value above
    the threshold; its surface index is then the first depth index of its
    own profile above the threshold.  Everywhere else both maps are 0. *)
Theorem find_frag_surf_at_thresh_spec (vol : Np.ndarray3 Z) (n thresh : Z) :
  Np.wf3 vol -> Np.dim2 vol <> 0%nat -> 0 <= n ->
  exists mask surf,
    TrainVol.find_frag_surf_at_thresh vol n thresh = Ok (mask, surf) /\
    Np.shape2 mask = (Np.dim0 vol, Np.dim1 vol) /\
    Np.shape2 surf = (Np.dim0 vol, Np.dim1 vol) /\
    forall i j : nat,
      let visited :=
        n <= Z.of_nat i < Z.of_nat (Np.dim0 vol) - n - 1 /\
        n <= Z.of_nat j < Z.of_nat (Np.dim1 vol) - n - 1 in
      let bright :=
        forall a b : nat,
          Z.of_nat i - n <= Z.of_nat a <= Z.of_nat i + n ->
          Z.of_nat j - n <= Z.of_nat b <= Z.of_nat j + n ->
          exists k : nat, (k < Np.dim2 vol)%nat /\ Np.at3 0 vol a b k > thresh in
      (visited /\ bright ->
       Np.at2 0 mask i j = 1 /\
       exists k : nat,
         Np.at2 0 surf i j = Z.of_nat k /\ (k < Np.dim2 vol)%nat /\
         Np.at3 0 vol i j k > thresh /\
         forall k' : nat, (k' < k)%nat -> Np.at3 0 vol i j k' <= thresh) /\
      (~ (visited /\ bright) ->
       Np.at2 0 mask i j = 0 /\ Np.at2 0 surf i j = 0).
Proof.
  intros Hwf Hd Hn.
  destruct (Red.max_axis2 vol) as [maxes|e] eqn:Hmax.
  2:{ unfold Red.max_axis2 in Hmax.
      destruct (Nat.eqb_spec (Np.dim2 vol) 0); [contradiction|discriminate]. }
  destruct (find_frag_surf_painted vol n thresh maxes Hwf Hn Hmax)
    as [mask [surf [E [[W1 [R1 [C1 G1]]] [W2 [R2 [C2 G2]]]]]]].
  exists mask, surf. split; [exact E|].
  split; [unfold Np.shape2; rewrite R1, C1; reflexivity|].
  split; [unfold Np.shape2; rewrite R2, C2; reflexivity|].
  intros i j visited bright.
  rewrite G1, G2, !LoopFacts.zeros2_at, !LoopFacts.existsb_range.
  split.
  - intros [[Vi Vj] Hb].
    destruct (cond_bright vol n thresh maxes Hwf Hn Hmax _ _ Vi Vj)
      as [m [_ Cb]].
    apply Cb in Hb.
    replace ((n <=? Z.of_nat i) && (Z.of_nat i <? Z.of_nat (Np.dim0 vol) - n - 1))
      with true
      by (symmetry; apply andb_true_intro; split;
          [apply Z.leb_le|apply Z.ltb_lt]; lia).
    replace ((n <=? Z.of_nat j) && (Z.of_nat j <? Z.of_nat (Np.dim1 vol) - n - 1))
      with true
      by (symmetry; apply andb_true_intro; split;
          [apply Z.leb_le|apply Z.ltb_lt]; lia).
    cbn [andb].
    destruct (crossing_first vol n thresh maxes Hwf Hn Hmax _ _ Vi Vj Hb)
      as [vector [k [_ [_ [Ek [Bk [Gk Fk]]]]]]].
    rewrite Hb. split; [reflexivity|].
    exists k. rewrite !Nat2Z.id in *. split; [exact Ek|].
    split; [assumption|]. split; assumption.
  - intros Hnot.
    destruct ((n <=? Z.of_nat i) && (Z.of_nat i <? Z.of_nat (Np.dim0 vol) - n - 1))
      eqn:Ei; [|split; reflexivity].
    destruct ((n <=? Z.of_nat j) && (Z.of_nat j <? Z.of_nat (Np.dim1 vol) - n - 1))
      eqn:Ej; [|split; reflexivity].
    cbn [andb].
    apply andb_prop in Ei as [Ei1 Ei2]. apply andb_prop in Ej as [Ej1 Ej2].
    apply Z.leb_le in Ei1, Ej1. apply Z.ltb_lt in Ei2, Ej2.
    destruct (cond_bright vol n thresh maxes Hwf Hn Hmax (Z.of_nat i)
                (Z.of_nat j)) as [m [_ Cb]]; [lia|lia|].
    match goal with
    | |- (if ?c then _ else _) = _ /\ _ => destruct c eqn:Ec
    end; [|split; reflexivity].
    exfalso. apply Hnot. split; [split; lia|]. exact (proj1 Cb eq_refl).
Qed.

(** The spec at work on the 10x10 step surface: the point (4, 4) is marked
    with surface index 1. *)
Lemma find_frag_surf_at_thresh_spec_witness :
  exists mask surf,
    TrainVol.find_frag_surf_at_thresh Fixtures.slab10 4 2 = Ok (mask, surf) /\
    Np.shape2 mask = (10, 10)%nat.
Proof.
  destruct (find_frag_surf_at_thresh_spec Fixtures.slab10 4 2
              SurfaceFacts.slab10_wf)
    as [mask [surf [E [S _]]]]; [cbn; lia|lia|].
  exists mask, surf. split; assumption.
Defined.

(** X13: on a volume of depth 0 [find_frag_surf_at_thresh] raises
    [ValueError] ([np.max] along an empty axis); on a well-formed volume of
    positive depth it never raises. *)
Theorem find_frag_surf_at_thresh_raises_iff (vol : Np.ndarray3 Z)
    (n thresh : Z) :
  Np.wf3 vol -> 0 <= n ->
  (Np.dim2 vol = 0%nat ->
   TrainVol.find_frag_surf_at_thresh vol n thresh = Raise ValueError) /\
  (Np.dim2 vol <> 0%nat ->
   exists r, TrainVol.find_frag_surf_at_thresh vol n thresh = Ok r).
Proof.
  intros Hwf Hn. split.
  - intros Hd. unfold TrainVol.find_frag_surf_at_thresh, Red.max_axis2.
    rewrite Hd. reflexivity.
  - intros Hd.
    destruct (Red.max_axis2 vol) as [maxes|e] eqn:Hmax.
    2:{ unfold Red.max_axis2 in Hmax.
        destruct (Nat.eqb_spec (Np.dim2 vol) 0); [contradiction|discriminate]. }
    destruct (find_frag_surf_painted vol n thresh maxes Hwf Hn Hmax)
      as [mask [surf [E _]]].
    exists (mask, surf). exact E.
Qed.

Lemma find_frag_surf_at_thresh_raises_iff_witness :
  TrainVol.find_frag_surf_at_thresh (Np.zeros3 0 3 3 0) 4 2 = Raise ValueError.
Proof.
  apply (find_frag_surf_at_thresh_raises_iff (Np.zeros3 0 3 3 0) 4 2);
    [|lia|reflexivity].
  split; [reflexivity|repeat constructor].
Defined.

End SurfaceMore.

(** ** Further properties of trainvol.py: the sampler *)

Module SamplerFacts.

Lemma slice_len_le (n : nat) (a b : Z) :
  0 <= b - a -> (Py.slice_len n a b <= Z.to_nat (b - a))%nat.
Proof.
  intros H. unfold Py.slice_len, Py.clip.
  destruct (Z.ltb_spec b 0), (Z.ltb_spec a 0); lia.
Qed.

Lemma In_firstn {A} (n : nat) (l : list A) (x : A) :
  In x (firstn n l) -> In x l.
Proof.
  revert l. induction n as [|n IH]; intros [|a l] H; cbn in *; try tauto.
  destruct H as [H|H]; [left; exact H|right; apply IH; exact H].
Qed.

Lemma In_skipn {A} (n : nat) (l : list A) (x : A) :
  In x (skipn n l) -> In x l.
Proof.
  revert l. induction n as [|n IH]; intros [|a l] H; cbn in *; try tauto.
  right. apply IH. exact H.
Qed.

Lemma slice_incl {A} (l : list A) (a b : Z) (x : A) :
  In x (Py.slice l a b) -> In x l.
Proof.
  unfold Py.slice. intros H.
  apply In_firstn in H. apply In_skipn in H. exact H.
Qed.

Section WithRandom.

Variable rng : Type.
Variable shuffle : rng -> list Z -> list Z * rng.
Variable randint : rng -> Z -> Z * rng.

Local Abbreviation t := (TrainVol.t rng).
Local Abbreviation window_at := (TrainVol.window_at rng).
Local Abbreviation next_batch_step := (TrainVol.next_batch_step rng randint).
Local Abbreviation next_batch := (TrainVol.next_batch rng shuffle randint).
Local Abbreviation predict_step := (TrainVol.predict_step rng).
Local Abbreviation get_predict_batch := (TrainVol.get_predict_batch rng).
Local Abbreviation rows_of self :=
  (Np.dim0 (TrainVol.raw_volume rng self)).
Local Abbreviation cols_of self :=
  (Np.dim1 (TrainVol.raw_volume rng self)).

(** The window of a linear index of the surface is always defined; its
    shape is the one the two slices give. *)
Lemma window_total (self : t) (ind : Z) :
  TrainVol.wf rng self -> 0 <= ind < TrainVol.total_vects rng self ->
  exists row col to_put,
    window_at self ind = Ok (row, col, to_put) /\
    0 <= row < Z.of_nat (rows_of self) /\
    0 <= col < Z.of_nat (cols_of self) /\
    row = ind / Z.of_nat (cols_of self) /\
    col = ind mod Z.of_nat (cols_of self) /\
    Np.wf2 to_put.
Proof.
  intros [Wf [D0 [D1 [Ws [Ss [Wg [Sg [Wm [Sm Tv]]]]]]]]] Hi.
  cbv zeta in *. rewrite Tv in Hi.
  set (rows := rows_of self) in *. set (cols := cols_of self) in *.
  assert (Hc : 0 < Z.of_nat cols) by nia.
  unfold TrainVol.window_at, TrainVol.ind_to_coord. fold cols.
  destruct (Z.eqb_spec (Z.of_nat cols) 0); [lia|].
  rewrite CoordFacts.int_div by assumption.
  rewrite Z.quot_div_nonneg by lia. cbn [bind].
  pose proof (Z.mod_pos_bound ind (Z.of_nat cols) Hc) as Bc.
  assert (Br : 0 <= ind / Z.of_nat cols < Z.of_nat rows).
  { split; [apply Z.div_pos; lia|apply Z.div_lt_upper_bound; lia]. }
  pose proof (f_equal fst Ss) as Rs. pose proof (f_equal snd Ss) as Cs.
  cbn [fst snd Np.shape2] in Rs, Cs.
  rewrite (FeaturesMore.getitem2_inside 0 _ _ _ Ws) by (rewrite ?Rs, ?Cs; lia).
  cbn [bind]. unfold Np.plane_slice.
  rewrite PyFacts.norm_index_inside by (rewrite D0; exact Br).
  destruct (NpFacts.wf3_plane _ (Z.to_nat (ind / Z.of_nat cols)) Wf)
    as [p [Ep [Lp Wp]]]; [rewrite D0; lia|].
  rewrite Ep. cbn [bind].
  eexists. eexists. eexists. split; [reflexivity|].
  split; [exact Br|]. split; [exact Bc|]. split; [reflexivity|].
  split; [reflexivity|].
  split; cbn [Np.items2 Np.rows2 Np.cols2].
  - rewrite length_map, PyFacts.slice_length, Lp. reflexivity.
  - unfold Np.wf_rows. rewrite Forall_map. apply Forall_forall.
    intros r Hr. rewrite PyFacts.slice_length.
    apply slice_incl in Hr.
    unfold Np.wf_rows in Wp. rewrite Forall_forall in Wp.
    rewrite (Wp r Hr). reflexivity.
Qed.

Lemma setplane3_inside (x : Np.ndarray3 Z) (c : Z) (p : Np.ndarray2 Z) :
  0 <= c < Z.of_nat (Np.dim0 x) ->
  Np.shape2_eqb (Np.shape2 p) (Np.dim1 x, Np.dim2 x) = true ->
  exists x',
    NpSet.setplane3 x c p = Ok x' /\
    Np.dim0 x' = Np.dim0 x /\ Np.dim1 x' = Np.dim1 x /\ Np.dim2 x' = Np.dim2 x /\
    Np.items3 x' = upd (Z.to_nat c) (fun _ => Np.items2 p) (Np.items3 x).
Proof.
  intros Hc Hs. unfold NpSet.setplane3.
  rewrite PyFacts.norm_index_inside by assumption. rewrite Hs.
  eexists. split; [reflexivity|]. cbn. auto.
Qed.

Lemma flipud_shape {A} (a : Np.ndarray2 A) :
  Np.shape2 (TrainVol.flipud a) = Np.shape2 a.
Proof. reflexivity. Qed.

(** The loop of [next_batch] over indices of the surface never raises. *)
Lemma batch_loop_total (self : t) (B : nat) (l : list Z) :
  TrainVol.wf rng self -> TrainVol.in_range rng self l ->
  forall (k : nat) (x : Np.ndarray3 Z) (y : Np.ndarray2 Q) (g : rng),
    (k + List.length l <= B)%nat ->
    Np.dim0 x = B -> Np.wf2 y -> Np.rows2 y = B -> Np.cols2 y = 2%nat ->
    exists x' y' c' g',
      for_ l (next_batch_step self) (x, y, Z.of_nat k, g) = Ok (x', y', c', g') /\
      Np.shape3 x' = Np.shape3 x.
Proof.
  intros Hwf Hl. induction Hl as [|ind l Hind Hl IH];
    intros k x y g Hk D0 Wy Ry Cy.
  - do 4 eexists. split; reflexivity.
  - cbn [List.length] in Hk. cbn [for_].
    destruct (window_total self ind Hwf Hind)
      as [row [col [to_put [Ew [Br [Bc [_ [_ _]]]]]]]].
    unfold TrainVol.next_batch_step at 1. rewrite Ew. cbn [bind].
    rewrite PyFacts.norm_index_inside by lia. cbn [bind].
    destruct Hwf as [Wf [F0 [F1 [Ws [Ss [Wg [Sg [Wm [Sm Tv]]]]]]]]].
    cbv zeta in *.
    pose proof (f_equal fst Sg) as Rg. pose proof (f_equal snd Sg) as Cg.
    cbn [fst snd Np.shape2] in Rg, Cg.
    destruct (Np.shape2_eqb (Np.shape2 to_put) (Np.dim1 x, Np.dim2 x)) eqn:Esh.
    + destruct (randint g 10) as [rd g2].
      set (p := if rd mod 2 =? 0 then TrainVol.flipud to_put else to_put).
      assert (Ep : Np.shape2_eqb (Np.shape2 p) (Np.dim1 x, Np.dim2 x) = true).
      { unfold p. destruct (rd mod 2 =? 0); [rewrite flipud_shape|]; exact Esh. }
      destruct (setplane3_inside x (Z.of_nat k) p) as [x2 [Ex [X0 [X1 [X2 _]]]]];
        [lia|exact Ep|].
      rewrite Ex. cbn [bind].
      rewrite (FeaturesMore.getitem2_inside 0%Q _ _ _ Wg)
        by (rewrite ?Rg, ?Cg; assumption).
      cbn [bind].
      destruct (LoopFacts.setitem2_inside 0%Q y (Z.of_nat k) 0
                  (Np.at2 0%Q (TrainVol.ground_truth rng self)
                          (Z.to_nat row) (Z.to_nat col)) Wy)
        as [ya [Ea [Wa [Ra [Ca _]]]]]; [lia|rewrite Cy; lia|].
      rewrite Ea. cbn [bind].
      destruct (LoopFacts.setitem2_inside 0%Q ya (Z.of_nat k) 1
                  (1 - Np.at2 0%Q (TrainVol.ground_truth rng self)
                              (Z.to_nat row) (Z.to_nat col))%Q Wa)
        as [yb [Eb [Wb [Rb [Cb _]]]]]; [lia|rewrite Ca, Cy; lia|].
      rewrite Eb. cbn [bind].
      replace (Z.of_nat k + 1) with (Z.of_nat (S k)) by lia.
      destruct (IH (S k) x2 yb g2) as [x' [y' [c' [g' [E Sx]]]]];
        try congruence; [lia|].
      exists x', y', c', g'. split; [exact E|].
      rewrite Sx. unfold Np.shape3. congruence.
    + replace (Z.of_nat k + 1) with (Z.of_nat (S k)) by lia.
      destruct (IH (S k) x y g) as [x' [y' [c' [g' [E Sx]]]]];
        try assumption; [lia|].
      exists x', y', c', g'. split; assumption.
Qed.

(** [next_batch] on a well-formed sampler with a pool in range: the call
    returns, and leaves a sampler on which it can be called again. *)
Lemma next_batch_runs (self : t) (pool : list Z) (batch_size : Z) :
  TrainVol.wf rng self ->
  TrainVol.train_inds rng self = Some pool ->
  TrainVol.in_range rng self pool ->
  (forall g l x, In x (fst (shuffle g l)) -> In x l) ->
  0 <= batch_size -> 0 <= TrainVol.NR rng self ->
  0 <= TrainVol.C_IN rng self + TrainVol.C_BACK rng self ->
  exists x y self' pool',
    next_batch self batch_size = Ok (x, y, self') /\
    Np.shape3 x =
      (Z.to_nat batch_size, Z.to_nat (2 * TrainVol.NR rng self),
       Z.to_nat (TrainVol.C_IN rng self + TrainVol.C_BACK rng self)) /\
    TrainVol.current_spot rng self' =
      (if TrainVol.current_spot rng self + batch_size
          >? TrainVol.total_vects rng self
       then 0 else TrainVol.current_spot rng self) + batch_size /\
    TrainVol.wf rng self' /\
    TrainVol.train_inds rng self' = Some pool' /\
    TrainVol.in_range rng self' pool' /\
    TrainVol.NR rng self' = TrainVol.NR rng self /\
    TrainVol.C_IN rng self' = TrainVol.C_IN rng self /\
    TrainVol.C_BACK rng self' = TrainVol.C_BACK rng self.
Proof.
  intros Hwf Hp Hr Hsh Hb Hn Hh. unfold TrainVol.next_batch.
  unfold TrainVol.check_dims. cbn [forallb].
  replace (0 <=? batch_size) with true by (symmetry; apply Z.leb_le; lia).
  replace (0 <=? 2 * TrainVol.NR rng self) with true
    by (symmetry; apply Z.leb_le; lia).
  replace (0 <=? TrainVol.C_IN rng self + TrainVol.C_BACK rng self) with true
    by (symmetry; apply Z.leb_le; lia).
  cbn [andb bind].
  set (B := Z.to_nat batch_size).
  set (w := Z.to_nat (2 * TrainVol.NR rng self)).
  set (h := Z.to_nat (TrainVol.C_IN rng self + TrainVol.C_BACK rng self)).
  assert (Main : forall (self1 : t) (pool1 : list Z),
    TrainVol.wf rng self1 -> TrainVol.train_inds rng self1 = Some pool1 ->
    TrainVol.in_range rng self1 pool1 ->
    exists x y self',
      (inds <- match TrainVol.train_inds rng self1 with
               | Some inds => Ok inds
               | None => Raise AttributeError
               end ;;
       '(to_return_x, to_return_y, _, g) <-
          for_ (Py.slice inds (TrainVol.current_spot rng self1)
                         (TrainVol.current_spot rng self1 + batch_size))
               (next_batch_step self1)
               (Np.zeros3 0 B w h, Np.zeros2 0%Q B 2, 0,
                TrainVol.gen rng self1) ;;
       Ok (to_return_x, to_return_y,
           TrainVol.set_cursor_pool rng self1
             (TrainVol.current_spot rng self1 + batch_size)
             (TrainVol.train_inds rng self1) g)) = Ok (x, y, self') /\
      Np.shape3 x = (B, w, h) /\
      TrainVol.current_spot rng self' =
        TrainVol.current_spot rng self1 + batch_size /\
      TrainVol.wf rng self' /\
      TrainVol.train_inds rng self' = Some pool1 /\
      TrainVol.in_range rng self' pool1 /\
      TrainVol.NR rng self' = TrainVol.NR rng self1 /\
      TrainVol.C_IN rng self' = TrainVol.C_IN rng self1 /\
      TrainVol.C_BACK rng self' = TrainVol.C_BACK rng self1).
  { intros self1 pool1 W1 P1 R1. rewrite P1. cbn [bind].
    set (batch := Py.slice pool1 (TrainVol.current_spot rng self1)
                   (TrainVol.current_spot rng self1 + batch_size)).
    assert (Rb : TrainVol.in_range rng self1 batch).
    { unfold TrainVol.in_range in *. rewrite Forall_forall in *.
      intros i Hi. apply R1. eapply slice_incl. exact Hi. }
    assert (Lb : (List.length batch <= B)%nat).
    { unfold batch. rewrite PyFacts.slice_length.
      etransitivity; [apply slice_len_le; lia|]. unfold B. lia. }
    destruct (batch_loop_total self1 B batch W1 Rb 0
                (Np.zeros3 0 B w h) (Np.zeros2 0%Q B 2)
                (TrainVol.gen rng self1))
      as [x' [y' [c' [g' [E Sx]]]]];
      try reflexivity; [exact Lb|apply LoopFacts.zeros2_wf|].
    change (Z.of_nat 0) with 0 in E. rewrite E. cbn [bind].
    do 3 eexists. split; [reflexivity|]. split; [exact Sx|].
    split; [reflexivity|]. split; [exact W1|]. split; [reflexivity|].
    split; [exact R1|]. split; [reflexivity|]. split; reflexivity. }
  destruct (TrainVol.current_spot rng self + batch_size >?
            TrainVol.total_vects rng self).
  - rewrite Hp.
    destruct (shuffle (TrainVol.gen rng self) pool) as [pool' g'] eqn:Es.
    cbn [bind].
    destruct (Main (TrainVol.set_cursor_pool rng self 0 (Some pool') g') pool')
      as [x [y [self' [E H]]]].
    + exact Hwf.
    + reflexivity.
    + unfold TrainVol.in_range in *. rewrite Forall_forall in *.
      intros i Hi. apply Hr. apply (Hsh (TrainVol.gen rng self) pool).
      rewrite Es. exact Hi.
    + exists x, y, self', pool'. split; [exact E|]. exact H.
  - cbn [bind].
    destruct (Main self pool Hwf Hp Hr) as [x [y [self' [E H]]]].
    exists x, y, self', pool. split; [exact E|]. exact H.
Qed.

(** X14: on a sampler whose maps have the shape of the surface and whose
    pool holds linear indices of the surface, [next_batch] never raises for
    a non-negative batch size and window, whatever the size of the pool: it
    returns an input batch of shape [(batch_size, 2 NR, C_IN + C_BACK)], and
    the cursor ends at [batch_size] past its start, the start being 0 after
    a wrap.  The sampler it leaves satisfies the same conditions, so that no
    later call raises either. *)
Theorem next_batch_total (self : t) (pool : list Z) (batch_size : Z) :
  TrainVol.wf rng self ->
  TrainVol.train_inds rng self = Some pool ->
  TrainVol.in_range rng self pool ->
  (forall g l x, In x (fst (shuffle g l)) -> In x l) ->
  0 <= batch_size -> 0 <= TrainVol.NR rng self ->
  0 <= TrainVol.C_IN rng self + TrainVol.C_BACK rng self ->
  exists x y self' pool',
    next_batch self batch_size = Ok (x, y, self') /\
    Np.shape3 x =
      (Z.to_nat batch_size, Z.to_nat (2 * TrainVol.NR rng self),
       Z.to_nat (TrainVol.C_IN rng self + TrainVol.C_BACK rng self)) /\
    TrainVol.current_spot rng self' =
      (if TrainVol.current_spot rng self + batch_size
          >? TrainVol.total_vects rng self
       then 0 else TrainVol.current_spot rng self) + batch_size /\
    TrainVol.wf rng self' /\
    TrainVol.train_inds rng self' = Some pool' /\
    TrainVol.in_range rng self' pool' /\
    0 <= TrainVol.NR rng self' /\
    0 <= TrainVol.C_IN rng self' + TrainVol.C_BACK rng self'.
Proof.
  intros Hwf Hp Hr Hsh Hb Hn Hh.
  destruct (next_batch_runs self pool batch_size Hwf Hp Hr Hsh Hb Hn Hh)
    as [x [y [self' [pool' [E [Sx [Sc [W' [P' [R' [N' [I' B']]]]]]]]]]]].
  exists x, y, self', pool'.
  split; [exact E|]. split; [exact Sx|]. split; [exact Sc|].
  split; [exact W'|]. split; [exact P'|]. split; [exact R'|].
  split; lia.
Qed.

End WithRandom.

(** The theorem at work on the sampler built from the 12x12 step surface
    with the stand-in generator, for a batch of 4. *)
Lemma next_batch_total_witness :
  exists tv,
    Fixtures.sampler12 = Ok tv /\
    exists x y tv',
      TrainVol.next_batch nat Fixtures.det_shuffle Fixtures.det_randint tv 4
        = Ok (x, y, tv') /\
      Np.shape3 x = (4, 2, 2)%nat /\
      TrainVol.current_spot nat tv' = 4.
Proof.
  eexists.
  match goal with
  | |- ?e = Ok ?tv /\ _ => assert (E : e = Ok tv) by (vm_compute; reflexivity)
  end.
  split; [exact E|].
  match type of E with
  | _ = Ok ?tv =>
      destruct (next_batch_total nat Fixtures.det_shuffle Fixtures.det_randint
                  tv [65; 66; 76; 77; 78] 4)
        as [x [y [tv' [pool' [En [Sx [Sc _]]]]]]]
  end.
  - vm_compute. repeat split; repeat constructor.
  - reflexivity.
  - vm_compute. repeat constructor; discriminate.
  - intros g l x H. apply in_rev. exact H.
  - lia.
  - vm_compute. discriminate.
  - vm_compute. discriminate.
  - exists x, y, tv'. split; [exact En|]. split; [exact Sx|exact Sc].
Defined.

End SamplerFacts.

(** ** Further properties of trainvol.py: the pool of training indices *)

Module StyleFacts.

(** A property set by the step of [i] and kept by every step holds after a
    loop that visits [i]. *)
Lemma for_establishes {S} (P Q : S -> Prop) (l : list Z)
    (body : Z -> S -> result S) (i : Z) (s s' : S) :
  (forall j t t', In j l -> P t -> body j t = Ok t' -> P t' /\ (Q t -> Q t')) ->
  (forall t t', P t -> body i t = Ok t' -> Q t') ->
  In i l -> P s -> for_ l body s = Ok s' -> Q s'.
Proof.
  revert s. induction l as [|j l IH]; intros s Hst Hest Hin Ps E;
    [destruct Hin|].
  cbn [for_] in E. destruct (body j s) as [t|e] eqn:Eb; [|discriminate].
  cbn [bind] in E.
  destruct (Hst j s t (or_introl eq_refl) Ps Eb) as [Pt Qst].
  destruct Hin as [->|Hin].
  - assert (Qt : Q t) by exact (Hest s t Ps Eb).
    cut (P s' /\ Q s'); [tauto|].
    eapply (LoopFacts.for_invariant (fun u => P u /\ Q u)); [| |exact E].
    + intros k u u' Hk [Pu Qu] Eu.
      destruct (Hst k u u' (or_intror Hk) Pu Eu). tauto.
    + tauto.
  - apply (IH t); auto. intros k u u' Hk. apply Hst. right. assumption.
Qed.

Lemma filter_nil_all {A} (f : A -> bool) (l : list A) :
  (forall x, In x l -> f x = false) -> filter f l = [].
Proof.
  induction l as [|a l IH]; intros H; [reflexivity|].
  cbn. rewrite (H a (or_introl eq_refl)). apply IH.
  intros x Hx. apply H. right. assumption.
Qed.

Lemma filter_all {A} (f : A -> bool) (l : list A) :
  (forall x, In x l -> f x = true) -> filter f l = l.
Proof.
  induction l as [|a l IH]; intros H; [reflexivity|].
  cbn. rewrite (H a (or_introl eq_refl)). f_equal. apply IH.
  intros x Hx. apply H. right. assumption.
Qed.

(** [ind % 2 > width / 2] never holds from width 2 on. *)
Lemma rhalf_test (ind width : Z) :
  2 <= width ->
  negb (Qle_bool (inject_Z (ind mod 2)) (inject_Z width / 2)) = false.
Proof.
  intros Hw. apply negb_false_iff. apply Qle_bool_iff.
  pose proof (Z.mod_pos_bound ind 2 ltac:(lia)) as B.
  unfold Qle, Qdiv, Qmult, Qinv, inject_Z. cbn. lia.
Qed.

(** [ind % 2 < width / 2] always holds from width 3 on. *)
Lemma lhalf_test (ind width : Z) :
  3 <= width ->
  negb (Qle_bool (inject_Z width / 2) (inject_Z (ind mod 2))) = true.
Proof.
  intros Hw. apply negb_true_iff.
  destruct (Qle_bool (inject_Z width / 2) (inject_Z (ind mod 2))) eqn:E;
    [|reflexivity].
  apply Qle_bool_iff in E.
  pose proof (Z.mod_pos_bound ind 2 ltac:(lia)) as B.
  unfold Qle, Qdiv, Qmult, Qinv, inject_Z in E. cbn in E. lia.
Qed.

Section WithRandom.

Variable rng : Type.
Variable shuffle : rng -> list Z -> list Z * rng.

Section Mask.

Variable self : TrainVol.t rng.
Hypothesis Hwf : TrainVol.wf rng self.

Let R := Z.of_nat (Np.dim0 (TrainVol.raw_volume rng self)).
Let C := Z.of_nat (Np.dim1 (TrainVol.raw_volume rng self)).
Let N := Z.to_nat (R * C).

Let mask_at (ind : Z) : Z :=
  Np.at2 0 (TrainVol.frag_mask rng self)
         (Z.to_nat (ind / C)) (Z.to_nat (ind mod C)).

(** The body of the loop of lines 114-118. *)
Let body (row col : Z) (pool : list Z) : result (list Z) :=
  m <- Np.getitem2 (TrainVol.frag_mask rng self) row col ;;
  if negb (m =? 0) then
    let ind := TrainVol.coord_to_ind rng self row col in
    NpSet.setitem1 pool ind ind
  else Ok pool.

Let I (pool : list Z) : Prop :=
  List.length pool = N /\
  forall k : nat, (k < N)%nat ->
    nth k pool 0 = 0 \/
    (nth k pool 0 = Z.of_nat k /\ mask_at (Z.of_nat k) <> 0).

Let Q (k : nat) (pool : list Z) : Prop := nth k pool 0 = Z.of_nat k.

Lemma mask_shape :
  Np.wf2 (TrainVol.frag_mask rng self) /\
  Np.rows2 (TrainVol.frag_mask rng self) = Np.dim0 (TrainVol.raw_volume rng self) /\
  Np.cols2 (TrainVol.frag_mask rng self) = Np.dim1 (TrainVol.raw_volume rng self) /\
  TrainVol.total_vects rng self = R * C.
Proof.
  destruct Hwf as [_ [_ [_ [_ [_ [_ [_ [Wm [Sm Tv]]]]]]]]].
  cbv zeta in Sm, Tv.
  pose proof (f_equal fst Sm) as Rm. pose proof (f_equal snd Sm) as Cm.
  cbn [fst snd Np.shape2] in Rm, Cm.
  split; [assumption|]. split; [assumption|]. split; assumption.
Qed.

Lemma coord_cell (row col : Z) :
  0 <= row < R -> 0 <= col < C ->
  0 <= row * C + col < R * C /\
  (row * C + col) / C = row /\ (row * C + col) mod C = col.
Proof.
  intros Hr Hc. split; [nia|]. split.
  - rewrite Z.add_comm, Z.div_add by lia. rewrite Z.div_small by assumption.
    reflexivity.
  - rewrite Z.add_comm, Z.mod_add by lia. apply Z.mod_small. assumption.
Qed.

Lemma mask_step (row col : Z) (pool : list Z) :
  0 <= row < R -> 0 <= col < C -> I pool ->
  exists pool',
    body row col pool = Ok pool' /\ I pool' /\
    (forall k, Q k pool -> Q k pool') /\
    (mask_at (row * C + col) <> 0 -> Q (Z.to_nat (row * C + col)) pool').
Proof.
  intros Hr Hc [Lp Ip].
  destruct mask_shape as [Wm [Rm [Cm _]]].
  destruct (coord_cell row col Hr Hc) as [Bi [Ed Em]].
  unfold body.
  rewrite (FeaturesMore.getitem2_inside 0 _ _ _ Wm)
    by (rewrite ?Rm, ?Cm; assumption).
  cbn [bind].
  assert (Ea : mask_at (row * C + col) =
               Np.at2 0 (TrainVol.frag_mask rng self)
                      (Z.to_nat row) (Z.to_nat col)).
  { unfold mask_at. rewrite Ed, Em. reflexivity. }
  rewrite <- Ea.
  destruct (Z.eqb_spec (mask_at (row * C + col)) 0) as [Ez|Nz]; cbn [negb].
  - exists pool. split; [reflexivity|]. split; [split; assumption|].
    split; [auto|]. intros H. contradiction.
  - unfold TrainVol.coord_to_ind. fold C.
    set (ind := row * C + col) in *.
    unfold NpSet.setitem1.
    rewrite PyFacts.norm_index_inside by (rewrite Lp; unfold N; lia).
    eexists. split; [reflexivity|].
    assert (Hn : forall k, nth k (upd (Z.to_nat ind) (fun _ => ind) pool) 0 =
                           if Nat.eqb k (Z.to_nat ind) then ind
                           else nth k pool 0).
    { intros k. apply LoopFacts.nth_upd. rewrite Lp. unfold N. lia. }
    split; [split|split].
    + rewrite LoopFacts.upd_length. assumption.
    + intros k Hk. rewrite Hn.
      destruct (Nat.eqb_spec k (Z.to_nat ind)) as [->|Ne]; [|auto].
      right. rewrite Z2Nat.id by lia. split; [reflexivity|assumption].
    + intros k Qk. unfold Q in *. rewrite Hn.
      destruct (Nat.eqb_spec k (Z.to_nat ind)) as [->|Ne]; [lia|assumption].
    + intros _. unfold Q. rewrite Hn, Nat.eqb_refl. lia.
Qed.

Lemma body_inv (row col : Z) (pool pool' : list Z) :
  0 <= row < R -> 0 <= col < C -> I pool -> body row col pool = Ok pool' ->
  I pool' /\ (forall k, Q k pool -> Q k pool') /\
  (mask_at (row * C + col) <> 0 -> Q (Z.to_nat (row * C + col)) pool').
Proof.
  intros Hr Hc Ip E.
  destruct (mask_step row col pool Hr Hc Ip) as [p [E' H]].
  rewrite E' in E. inversion E; subst. exact H.
Qed.

(** One row of the loop. *)
Lemma row_inv (row : Z) (pool pool' : list Z) :
  0 <= row < R -> I pool ->
  for_ (Py.range 0 C) (body row) pool = Ok pool' ->
  I pool' /\ (forall k, Q k pool -> Q k pool') /\
  (forall col, 0 <= col < C -> mask_at (row * C + col) <> 0 ->
     Q (Z.to_nat (row * C + col)) pool').
Proof.
  intros Hr Ip E. split; [|split].
  - refine (LoopFacts.for_invariant I _ _ _ _ _ Ip E).
    intros col t t' Hc It Et. apply PyFacts.range_In in Hc.
    apply (body_inv row col t t' Hr Hc It Et).
  - intros k Qk.
    cut (I pool' /\ Q k pool'); [tauto|].
    refine (LoopFacts.for_invariant (fun u => I u /\ Q k u) _ _ _ _ _
              (conj Ip Qk) E).
    intros col t t' Hc [It Qt] Et. apply PyFacts.range_In in Hc.
    destruct (body_inv row col t t' Hr Hc It Et) as [It' [St _]].
    split; [assumption|apply St; assumption].
  - intros col Hc Hm.
    refine (for_establishes I (Q (Z.to_nat (row * C + col))) _ _ col _ _
              _ _ _ Ip E).
    + intros j t t' Hj It Et. apply PyFacts.range_In in Hj.
      destruct (body_inv row j t t' Hr Hj It Et) as [It' [St _]].
      split; [assumption|apply St].
    + intros t t' It Et.
      destruct (body_inv row col t t' Hr Hc It Et) as [_ [_ Es]].
      apply Es. assumption.
    + apply PyFacts.range_In. assumption.
Qed.

Lemma row_total (row : Z) (pool : list Z) :
  0 <= row < R -> I pool ->
  exists pool', for_ (Py.range 0 C) (body row) pool = Ok pool' /\ I pool'.
Proof.
  intros Hr Ip. apply (LoopFacts.for_total I); [|assumption].
  intros col t Hc It. apply PyFacts.range_In in Hc.
  destruct (mask_step row col t Hr Hc It) as [t' [E [It' _]]].
  exists t'. split; assumption.
Qed.

Lemma zeros_I : I (repeat 0 N).
Proof.
  split; [apply repeat_length|].
  intros k Hk. left. apply nth_repeat_lt. assumption.
Qed.

(** The loop of lines 114-118 never raises on a well-formed sampler; it
    leaves [ind] at position [ind] for the marked points and 0 elsewhere. *)
Lemma mask_loop :
  exists pool,
    for_ (Py.range 0 R) (fun row pool => for_ (Py.range 0 C) (body row) pool)
         (repeat 0 N) = Ok pool /\
    List.length pool = N /\
    forall k : nat, (k < N)%nat ->
      nth k pool 0 = if mask_at (Z.of_nat k) =? 0 then 0 else Z.of_nat k.
Proof.
  destruct (LoopFacts.for_total I (Py.range 0 R)
              (fun row pool => for_ (Py.range 0 C) (body row) pool)
              (repeat 0 N)) as [pool [E [Lp Ip]]].
  { intros row t Hr It. apply PyFacts.range_In in Hr.
    apply row_total; assumption. }
  { apply zeros_I. }
  exists pool. split; [exact E|]. split; [exact Lp|].
  intros k Hk.
  destruct (Z.eqb_spec (mask_at (Z.of_nat k)) 0) as [Ez|Nz].
  - destruct (Ip k Hk) as [H|[_ H]]; [assumption|contradiction].
  - assert (Hc : 0 < C) by (unfold N in Hk; nia).
    pose proof (Z.div_mod (Z.of_nat k) C ltac:(lia)) as Dm.
    pose proof (Z.mod_pos_bound (Z.of_nat k) C Hc) as Bm.
    assert (Bd : 0 <= Z.of_nat k / C < R).
    { split; [apply Z.div_pos; lia|].
      apply Z.div_lt_upper_bound; [assumption|]. unfold N in Hk. lia. }
    set (row := Z.of_nat k / C) in *. set (col := Z.of_nat k mod C) in *.
    assert (Ek : Z.of_nat k = row * C + col) by lia.
    change (Q k pool). replace k with (Z.to_nat (row * C + col)) by lia.
    refine (for_establishes I (Q (Z.to_nat (row * C + col))) _ _ row _ _
              _ _ _ zeros_I E).
    + intros j t t' Hj It Et. apply PyFacts.range_In in Hj.
      destruct (row_inv j t t' Hj It Et) as [It' [St _]].
      split; [assumption|apply St].
    + intros t t' It Et.
      destruct (row_inv row t t' Bd It Et) as [_ [_ Es]].
      apply Es; [assumption|]. rewrite <- Ek. assumption.
    + apply PyFacts.range_In. assumption.
Qed.

(** Inside the surface a linear index is marked exactly when its cell of
    the mask is not zero. *)
Lemma marked_iff (ind : Z) :
  0 <= ind < R * C ->
  (TrainVol.marked rng self ind <-> mask_at ind <> 0).
Proof.
  intros Hi. destruct mask_shape as [Wm [Rm [Cm _]]].
  assert (Hc : 0 < C) by nia.
  pose proof (Z.mod_pos_bound ind C Hc) as Bm.
  assert (Bd : 0 <= ind / C < R).
  { split; [apply Z.div_pos; lia|apply Z.div_lt_upper_bound; lia]. }
  assert (Ec : TrainVol.ind_to_coord rng self ind = Ok (ind / C, ind mod C)).
  { unfold TrainVol.ind_to_coord. fold C.
    destruct (Z.eqb_spec C 0); [lia|].
    rewrite CoordFacts.int_div by lia.
    rewrite Z.quot_div_nonneg by lia. reflexivity. }
  assert (Eg : Np.getitem2 (TrainVol.frag_mask rng self) (ind / C) (ind mod C)
               = Ok (mask_at ind)).
  { apply FeaturesMore.getitem2_inside; rewrite ?Rm, ?Cm; assumption. }
  unfold TrainVol.marked. split.
  - intros [row [col [m [E1 [E2 Hm]]]]]. rewrite Ec in E1.
    inversion E1; subst row col. rewrite Eg in E2. inversion E2; subst m.
    assumption.
  - intros Hm. exists (ind / C), (ind mod C), (mask_at ind).
    split; [assumption|]. split; assumption.
Qed.

(** The pool of line 119: the marked linear indices other than 0. *)
Lemma mask_pool :
  exists pool,
    for_ (Py.range 0 R) (fun row pool => for_ (Py.range 0 C) (body row) pool)
         (repeat 0 N) = Ok pool /\
    forall ind,
      In ind (filter (fun v => negb (v =? 0)) pool) <->
      0 < ind < TrainVol.total_vects rng self /\ TrainVol.marked rng self ind.
Proof.
  destruct mask_loop as [pool [E [Lp Hp]]].
  destruct mask_shape as [_ [_ [_ Tv]]].
  exists pool. split; [exact E|].
  intros ind. rewrite filter_In, Tv. split.
  - intros [Hin Hnz]. apply negb_true_iff in Hnz. apply Z.eqb_neq in Hnz.
    destruct (In_nth pool ind 0 Hin) as [k [Hk Ek]]. rewrite Lp in Hk.
    rewrite (Hp k Hk) in Ek.
    destruct (Z.eqb_spec (mask_at (Z.of_nat k)) 0) as [Ez|Nz]; [congruence|].
    subst ind. assert (B : 0 <= Z.of_nat k < R * C) by (unfold N in Hk; lia).
    split; [lia|]. apply marked_iff; assumption.
  - intros [Hi Hm]. apply marked_iff in Hm; [|lia].
    assert (Hk : (Z.to_nat ind < N)%nat) by (unfold N; lia).
    pose proof (Hp _ Hk) as Ek. rewrite Z2Nat.id in Ek by lia.
    destruct (Z.eqb_spec (mask_at ind) 0) as [Ez|Nz]; [contradiction|].
    split.
    + rewrite <- Ek. apply nth_In. rewrite Lp. assumption.
    + apply negb_true_iff. apply Z.eqb_neq. lia.
Qed.

End Mask.

Local Abbreviation t := (TrainVol.t rng).
Local Abbreviation make_train_with_style :=
  (TrainVol.make_train_with_style rng shuffle).

Lemma wf_set (self : t) (spot : Z) (pool : option (list Z)) (g : rng)
    (style : string) :
  TrainVol.wf rng self ->
  TrainVol.wf rng
    (TrainVol.set_cursor_pool rng (TrainVol.set_style rng self style)
       spot pool g).
Proof. intros H. exact H. Qed.

(** [make_train_with_style] up to the choice of the style. *)
Lemma make_train_unfold (self : t) (style : string) (dropout : Q) :
  TrainVol.wf rng self ->
  exists pool0,
    (forall ind,
       In ind pool0 <->
       0 < ind < TrainVol.total_vects rng self /\ TrainVol.marked rng self ind) /\
    make_train_with_style self style dropout =
    (let ind_pool := pool0 in
     if String.eqb style "drop" then
       let self := TrainVol.set_style rng self "drop" in
       let n := Z.of_nat (List.length ind_pool) in
       let '(ind_pool, g) := shuffle (TrainVol.gen rng self) ind_pool in
       let train_inds := Py.slice ind_pool 0 (Py.int (dropout * inject_Z n)) in
       let '(train_inds, g) := shuffle g train_inds in
       Ok (TrainVol.set_cursor_pool rng self (TrainVol.current_spot rng self)
             (Some train_inds) g)
     else if String.eqb style "rhalf" then
       let self := TrainVol.set_style rng self "rhalf" in
       let split :=
         (inject_Z (Z.of_nat (Np.dim1 (TrainVol.raw_volume rng self))) / 2)%Q in
       let train_inds :=
         filter (fun ind => negb (Qle_bool (inject_Z (ind mod 2)) split))
                ind_pool in
       let '(train_inds, g) := shuffle (TrainVol.gen rng self) train_inds in
       Ok (TrainVol.set_cursor_pool rng self (TrainVol.current_spot rng self)
             (Some train_inds) g)
     else if String.eqb style "lhalf" then
       let self := TrainVol.set_style rng self "lhalf" in
       let split :=
         (inject_Z (Z.of_nat (Np.dim1 (TrainVol.raw_volume rng self))) / 2)%Q in
       let train_inds :=
         filter (fun ind => negb (Qle_bool split (inject_Z (ind mod 2))))
                ind_pool in
       let '(train_inds, g) := shuffle (TrainVol.gen rng self) train_inds in
       Ok (TrainVol.set_cursor_pool rng self (TrainVol.current_spot rng self)
             (Some train_inds) g)
     else Raise UnboundLocalError).
Proof.
  intros Hwf.
  destruct (mask_pool self Hwf) as [pool [E Hp]].
  destruct (mask_shape self Hwf) as [_ [_ [_ Tv]]].
  exists (filter (fun v => negb (v =? 0)) pool). split; [exact Hp|].
  unfold TrainVol.make_train_with_style, TrainVol.check_dims.
  cbn [forallb].
  replace (0 <=? TrainVol.total_vects rng self) with true
    by (symmetry; apply Z.leb_le; rewrite Tv; lia).
  cbn [andb bind]. rewrite Tv. cbv zeta in E. rewrite E. reflexivity.
Qed.

(** [make_train_with_style] with one of the three styles. *)
Lemma make_train_runs (self : t) (style : string) (dropout : Q) :
  TrainVol.wf rng self ->
  (forall g l x, In x (fst (shuffle g l)) -> In x l) ->
  style = "drop"%string \/ style = "rhalf"%string \/ style = "lhalf"%string ->
  exists g pool,
    make_train_with_style self style dropout =
      Ok (TrainVol.set_cursor_pool rng (TrainVol.set_style rng self style)
            (TrainVol.current_spot rng self) (Some pool) g) /\
    forall ind, In ind pool ->
      0 < ind < TrainVol.total_vects rng self /\
      TrainVol.marked rng self ind.
Proof.
  intros Hwf Hsh Hst.
  destruct (make_train_unfold self style dropout Hwf) as [pool0 [Hp E]].
  rewrite E. cbv zeta.
  destruct Hst as [-> | [-> | ->]]; cbn [String.eqb Ascii.eqb Bool.eqb].
  - destruct (shuffle _ pool0) as [p1 g1] eqn:E1.
    destruct (shuffle g1 _) as [p2 g2] eqn:E2.
    do 2 eexists. split; [reflexivity|].
    intros ind Hin. apply Hp.
    apply (Hsh (TrainVol.gen rng (TrainVol.set_style rng self "drop")) pool0).
    rewrite E1. cbn [fst].
    eapply SamplerFacts.slice_incl.
    apply (Hsh g1). rewrite E2. exact Hin.
  - destruct (shuffle _ _) as [p1 g1] eqn:E1.
    do 2 eexists. split; [reflexivity|].
    intros ind Hin. apply Hp.
    eapply proj1. apply filter_In.
    eapply Hsh. rewrite E1. exact Hin.
  - destruct (shuffle _ _) as [p1 g1] eqn:E1.
    do 2 eexists. split; [reflexivity|].
    intros ind Hin. apply Hp.
    eapply proj1. apply filter_In.
    eapply Hsh. rewrite E1. exact Hin.
Qed.

(** X15: on a well-formed sampler, with a shuffle that only reorders,
    [make_train_with_style] with one of the three styles never raises.  The
    pool it stores holds only marked linear indices of the surface, never
    the index 0; the sampler stays well-formed, the style is recorded, and
    the cursor [current_spot] is left where it was. *)
Theorem make_train_with_style_pool (self : t) (style : string) (dropout : Q) :
  TrainVol.wf rng self ->
  (forall g l x, In x (fst (shuffle g l)) -> In x l) ->
  style = "drop"%string \/ style = "rhalf"%string \/ style = "lhalf"%string ->
  exists self' pool,
    make_train_with_style self style dropout = Ok self' /\
    TrainVol.train_inds rng self' = Some pool /\
    (forall ind, In ind pool ->
       0 < ind < TrainVol.total_vects rng self /\
       TrainVol.marked rng self ind) /\
    TrainVol.wf rng self' /\
    TrainVol.train_style rng self' = style /\
    TrainVol.current_spot rng self' = TrainVol.current_spot rng self.
Proof.
  intros Hwf Hsh Hst.
  destruct (make_train_runs self style dropout Hwf Hsh Hst)
    as [g [pool [E Hp]]].
  do 2 eexists. split; [exact E|]. split; [reflexivity|].
  split; [exact Hp|]. split; [exact Hwf|]. split; reflexivity.
Qed.

(** X16: from width 2 on, the style ['rhalf'] selects nothing: the test of
    line 134 compares [ind % 2], which is 0 or 1, with half the width.  The
    pool stored is empty whatever the mask. *)
Theorem make_train_rhalf_empty (self : t) (dropout : Q) :
  TrainVol.wf rng self ->
  (forall g l x, In x (fst (shuffle g l)) -> In x l) ->
  (2 <= Np.dim1 (TrainVol.raw_volume rng self))%nat ->
  exists self',
    make_train_with_style self "rhalf" dropout = Ok self' /\
    TrainVol.train_inds rng self' = Some [].
Proof.
  intros Hwf Hsh Hc.
  destruct (make_train_unfold self "rhalf" dropout Hwf) as [pool0 [Hp E]].
  rewrite E. cbv zeta. cbn [String.eqb Ascii.eqb Bool.eqb].
  rewrite filter_nil_all.
  2:{ intros ind _. apply rhalf_test. cbn. lia. }
  destruct (shuffle _ []) as [p1 g1] eqn:E1.
  eexists. split; [reflexivity|]. cbn. f_equal.
  destruct p1 as [|x p1]; [reflexivity|].
  exfalso.
  apply (Hsh (TrainVol.gen rng (TrainVol.set_style rng self "rhalf")) [] x).
  rewrite E1. left. reflexivity.
Qed.

(** X17: from width 3 on, the style ['lhalf'] selects everything: the test
    of line 141 compares [ind % 2] with half the width.  With a shuffle that
    keeps the elements, the pool stored holds every marked linear index
    other than 0, those of the right half included. *)
Theorem make_train_lhalf_all (self : t) (dropout : Q) :
  TrainVol.wf rng self ->
  (forall g l x, In x (fst (shuffle g l)) <-> In x l) ->
  (3 <= Np.dim1 (TrainVol.raw_volume rng self))%nat ->
  exists self' pool,
    make_train_with_style self "lhalf" dropout = Ok self' /\
    TrainVol.train_inds rng self' = Some pool /\
    forall ind,
      In ind pool <->
      0 < ind < TrainVol.total_vects rng self /\ TrainVol.marked rng self ind.
Proof.
  intros Hwf Hsh Hc.
  destruct (make_train_unfold self "lhalf" dropout Hwf) as [pool0 [Hp E]].
  rewrite E. cbv zeta. cbn [String.eqb Ascii.eqb Bool.eqb].
  rewrite filter_all.
  2:{ intros ind _. apply lhalf_test. cbn. lia. }
  destruct (shuffle _ pool0) as [p1 g1] eqn:E1.
  do 2 eexists. split; [reflexivity|]. split; [reflexivity|].
  intros ind. rewrite <- Hp.
  rewrite <- (Hsh (TrainVol.gen rng (TrainVol.set_style rng self "lhalf"))
                  pool0 ind).
  rewrite E1. reflexivity.
Qed.

(** X18: with any other style the mask is scanned and the call then raises
    [UnboundLocalError]: no branch binds [train_inds] (line 144). *)
Theorem make_train_unknown_style (self : t) (style : string) (dropout : Q) :
  TrainVol.wf rng self ->
  style <> "drop"%string -> style <> "rhalf"%string ->
  style <> "lhalf"%string ->
  make_train_with_style self style dropout = Raise UnboundLocalError.
Proof.
  intros Hwf H1 H2 H3.
  destruct (make_train_unfold self style dropout Hwf) as [pool0 [Hp E]].
  rewrite E. cbv zeta.
  apply String.eqb_neq in H1, H2, H3. rewrite H1, H2, H3. reflexivity.
Qed.

End WithRandom.

Lemma det_shuffle_In (g : nat) (l : list Z) (x : Z) :
  In x (fst (Fixtures.det_shuffle g l)) <-> In x l.
Proof. cbn. symmetry. apply in_rev. Qed.

Ltac fresh12_runs E :=
  match goal with
  | |- exists _, ?e = Ok ?tv /\ _ =>
      assert (E : e = Ok tv) by (vm_compute; reflexivity)
  | |- exists _ _, ?e = Ok ?tv /\ _ =>
      assert (E : e = Ok tv) by (vm_compute; reflexivity)
  | |- ?e = Ok ?tv /\ _ =>
      assert (E : e = Ok tv) by (vm_compute; reflexivity)
  end.

Ltac fresh12_wf := vm_compute; repeat split; repeat constructor.

(** The 12x12 sampler with the style ['drop']: every index of its pool lies
    strictly between 0 and 144. *)
Lemma make_train_with_style_pool_witness :
  exists tv self' pool,
    Fixtures.fresh12 = Ok tv /\
    TrainVol.make_train_with_style nat Fixtures.det_shuffle tv "drop" (6 # 10)
      = Ok self' /\
    TrainVol.train_inds nat self' = Some pool /\
    forall ind, In ind pool -> 0 < ind < 144.
Proof.
  eexists. fresh12_runs E.
  match type of E with
  | _ = Ok ?tv =>
      destruct (make_train_with_style_pool nat Fixtures.det_shuffle tv "drop"
                  (6 # 10))
        as [self' [pool [Em [Ep [Hp _]]]]]
  end.
  - fresh12_wf.
  - intros g l x. apply det_shuffle_In.
  - left. reflexivity.
  - exists self', pool. split; [exact E|]. split; [exact Em|].
    split; [exact Ep|]. intros ind Hin. apply (Hp ind Hin).
Defined.

(** The 12x12 sampler with the style ['rhalf']: the pool is empty. *)
Lemma make_train_rhalf_empty_witness :
  exists tv self',
    Fixtures.fresh12 = Ok tv /\
    TrainVol.make_train_with_style nat Fixtures.det_shuffle tv "rhalf" (6 # 10)
      = Ok self' /\
    TrainVol.train_inds nat self' = Some [].
Proof.
  eexists. fresh12_runs E.
  match type of E with
  | _ = Ok ?tv =>
      destruct (make_train_rhalf_empty nat Fixtures.det_shuffle tv (6 # 10))
        as [self' [Em Ep]]
  end.
  - fresh12_wf.
  - intros g l x. apply det_shuffle_In.
  - cbn. lia.
  - exists self'. split; [exact E|]. split; [exact Em|exact Ep].
Defined.

(** The 12x12 sampler with the style ['lhalf']: the index 53, of the point
    (4, 5), is marked and in the pool. *)
Lemma make_train_lhalf_all_witness :
  exists tv self' pool,
    Fixtures.fresh12 = Ok tv /\
    TrainVol.make_train_with_style nat Fixtures.det_shuffle tv "lhalf" (6 # 10)
      = Ok self' /\
    TrainVol.train_inds nat self' = Some pool /\
    In 53 pool.
Proof.
  eexists. fresh12_runs E.
  match type of E with
  | _ = Ok ?tv =>
      destruct (make_train_lhalf_all nat Fixtures.det_shuffle tv (6 # 10))
        as [self' [pool [Em [Ep Hp]]]]
  end.
  - fresh12_wf.
  - intros g l x. apply det_shuffle_In.
  - cbn. lia.
  - exists self', pool. split; [exact E|]. split; [exact Em|].
    split; [exact Ep|]. apply Hp. split; [cbn; lia|].
    exists 4, 5, 1. split; [reflexivity|]. split; [reflexivity|discriminate].
Defined.

(** The 12x12 sampler with a style that is none of the three. *)
Lemma make_train_unknown_style_witness :
  exists tv,
    Fixtures.fresh12 = Ok tv /\
    TrainVol.make_train_with_style nat Fixtures.det_shuffle tv "all" (6 # 10)
      = Raise UnboundLocalError.
Proof.
  eexists. fresh12_runs E. split; [exact E|].
  apply make_train_unknown_style; [fresh12_wf|discriminate..].
Defined.

End StyleFacts.

(** ** Further properties of trainvol.py: the constructor *)

Module InitFacts.

(** The relabelling loop never raises for a non-negative radius, and keeps
    the shape of the annotation. *)
Lemma adjust_ground_truth_shape (raw : Np.ndarray2 Z) (NR : Z) :
  0 <= NR ->
  exists gt,
    TrainVol.adjust_ground_truth raw NR = Ok gt /\ Np.wf2 gt /\
    Np.rows2 gt = Np.rows2 raw /\ Np.cols2 gt = Np.cols2 raw.
Proof.
  intros HNR.
  set (cond := fun i j : Z =>
         TrainVol.mean_is_one
           (Red.mean (Np.flatten2
              (Np.slice2 raw (i - NR) (i + NR) (j - NR) (j + NR))))).
  destruct (LoopFacts.paint_grid 0%Q cond (fun _ _ => TrainVol.ink_label)
              (Np.zeros2 0%Q (Np.rows2 raw) (Np.cols2 raw))
              (Py.range NR (Z.of_nat (Np.rows2 raw) - NR))
              (Py.range NR (Z.of_nat (Np.cols2 raw) - NR)))
    as [gt [E [W [R [C _]]]]].
  - apply LoopFacts.zeros2_wf.
  - intros i Hi. apply PyFacts.range_In in Hi. cbn. lia.
  - intros j Hj. apply PyFacts.range_In in Hj. cbn. lia.
  - exists gt. split; [exact E|]. split; [exact W|].
    split; [exact R|exact C].
Qed.

Section WithRandom.

Variable rng : Type.
Variable shuffle : rng -> list Z -> list Z * rng.
Variable randint : rng -> Z -> Z * rng.

Local Abbreviation init := (TrainVol.init rng).
Local Abbreviation next_batch := (TrainVol.next_batch rng shuffle randint).

(** The constructor on a volume of positive depth. *)
Lemma init_runs (volume : Np.ndarray3 Z) (truth : Np.ndarray2 Z)
    (CUT_IN CUT_BACK NR THRESH : Z) (g : rng) :
  Np.wf3 volume ->
  Np.shape2 truth = (Np.dim0 volume, Np.dim1 volume) ->
  0 <= NR -> Np.dim2 volume <> 0%nat ->
  exists gt mask surf,
    let tv :=
      TrainVol.mk rng 0 4 NR CUT_IN CUT_BACK volume (TrainVol.binarize truth)
        gt volume "drop"
        (Z.of_nat (Np.dim0 volume) * Z.of_nat (Np.dim1 volume))
        mask surf None g in
    init volume truth CUT_IN CUT_BACK NR THRESH g = Ok tv /\
    TrainVol.wf rng tv.
Proof.
  intros Hwf Hs HNR Hd.
  pose proof (f_equal fst Hs) as Rt. pose proof (f_equal snd Hs) as Ct.
  cbn [fst snd Np.shape2] in Rt, Ct.
  destruct (adjust_ground_truth_shape (TrainVol.binarize truth) NR HNR)
    as [gt [Eg [Wg [Rg Cg]]]].
  cbn [TrainVol.binarize Np.rows2 Np.cols2] in Rg, Cg.
  unfold TrainVol.init. rewrite Eg. cbn [bind].
  destruct (Red.max_axis2 volume) as [maxes|e] eqn:Hmax.
  2:{ unfold Red.max_axis2 in Hmax.
      destruct (Nat.eqb_spec (Np.dim2 volume) 0);
        [contradiction|discriminate]. }
  destruct (SurfaceMore.find_frag_surf_painted volume 4 THRESH maxes Hwf
              ltac:(lia) Hmax)
    as [mask [surf [E [[W1 [R1 [C1 _]]] [W2 [R2 [C2 _]]]]]]].
  cbn [Np.zeros2 Np.rows2 Np.cols2] in R1, C1, R2, C2.
  rewrite E. cbn [bind].
  exists gt, mask, surf. cbv zeta. split; [reflexivity|].
  unfold TrainVol.wf. cbn.
  refine (conj Hwf (conj eq_refl (conj eq_refl (conj W2 (conj _ (conj Wg
           (conj _ (conj W1 (conj _ eq_refl))))))))).
  - unfold Np.shape2. rewrite R2, C2. reflexivity.
  - unfold Np.shape2. rewrite Rg, Cg, Rt, Ct. reflexivity.
  - unfold Np.shape2. rewrite R1, C1. reflexivity.
Qed.

(** X19: on a well-formed volume and an annotation of the shape of its
    surface, with a non-negative radius, the constructor raises [ValueError]
    when the volume has depth 0 and otherwise returns a well-formed sampler:
    label map, mask and surface map have the shape of the surface, which is
    also [get_output_shape]; [total_vects] is rows times columns; the cursor
    is 0 and no pool is set. *)
Theorem init_well_formed (volume : Np.ndarray3 Z) (truth : Np.ndarray2 Z)
    (CUT_IN CUT_BACK NR THRESH : Z) (g : rng) :
  Np.wf3 volume ->
  Np.shape2 truth = (Np.dim0 volume, Np.dim1 volume) ->
  0 <= NR ->
  (Np.dim2 volume = 0%nat ->
   init volume truth CUT_IN CUT_BACK NR THRESH g = Raise ValueError) /\
  (Np.dim2 volume <> 0%nat ->
   exists tv,
     init volume truth CUT_IN CUT_BACK NR THRESH g = Ok tv /\
     TrainVol.wf rng tv /\
     TrainVol.raw_volume rng tv = volume /\
     TrainVol.get_output_shape rng tv = (Np.dim0 volume, Np.dim1 volume) /\
     TrainVol.total_vects rng tv =
       Z.of_nat (Np.dim0 volume) * Z.of_nat (Np.dim1 volume) /\
     TrainVol.current_spot rng tv = 0 /\
     TrainVol.train_inds rng tv = None).
Proof.
  intros Hwf Hs HNR. split.
  - intros Hd.
    destruct (adjust_ground_truth_shape (TrainVol.binarize truth) NR HNR)
      as [gt [Eg _]].
    unfold TrainVol.init. rewrite Eg. cbn [bind].
    unfold TrainVol.find_frag_surf_at_thresh, Red.max_axis2.
    rewrite Hd. reflexivity.
  - intros Hd.
    destruct (init_runs volume truth CUT_IN CUT_BACK NR THRESH g Hwf Hs HNR Hd)
      as [gt [mask [surf [E W]]]].
    eexists. split; [exact E|]. split; [exact W|]. repeat split.
Qed.

(** X20: a sampler fresh from the constructor has no pool: whatever the
    batch size, [next_batch] raises before [make_train_with_style] has been
    called, [ValueError] for a negative dimension of the batch and
    [AttributeError] otherwise. *)
Theorem next_batch_after_init (volume : Np.ndarray3 Z) (truth : Np.ndarray2 Z)
    (CUT_IN CUT_BACK NR THRESH : Z) (g : rng) (tv : TrainVol.t rng)
    (batch_size : Z) :
  init volume truth CUT_IN CUT_BACK NR THRESH g = Ok tv ->
  next_batch tv batch_size =
  if (0 <=? batch_size) && (0 <=? 2 * NR) && (0 <=? CUT_IN + CUT_BACK)
  then Raise AttributeError else Raise ValueError.
Proof.
  unfold TrainVol.init. intros E.
  destruct (TrainVol.adjust_ground_truth _ _) as [gt|e]; [|discriminate].
  cbn [bind] in E.
  destruct (TrainVol.find_frag_surf_at_thresh _ _ _) as [[mask surf]|e];
    [|discriminate].
  cbn [bind] in E. inversion E; subst tv; clear E.
  unfold TrainVol.next_batch, TrainVol.check_dims.
  cbn [forallb TrainVol.NR TrainVol.C_IN TrainVol.C_BACK
       TrainVol.current_spot TrainVol.total_vects TrainVol.train_inds].
  rewrite andb_true_r, andb_assoc.
  destruct ((0 <=? batch_size) && (0 <=? 2 * NR) && (0 <=? CUT_IN + CUT_BACK));
    [|reflexivity].
  cbn [bind].
  destruct (0 + batch_size >? _); reflexivity.
Qed.

End WithRandom.

Lemma slab12_wf : Np.wf3 Fixtures.slab12.
Proof. split; [reflexivity|repeat constructor]. Qed.

(** The constructor on the 12x12 step surface. *)
Lemma init_well_formed_witness :
  exists tv,
    Fixtures.fresh12 = Ok tv /\
    TrainVol.get_output_shape nat tv = (12, 12)%nat /\
    TrainVol.total_vects nat tv = 144.
Proof.
  destruct (init_well_formed nat Fixtures.slab12 Fixtures.ink12 1 1 1 2 0%nat
              slab12_wf eq_refl ltac:(lia))
    as [_ H].
  destruct H as [tv [E [_ [_ [S [T _]]]]]]; [cbn; lia|].
  exists tv. split; [exact E|]. split; [exact S|exact T].
Defined.

(** The first batch asked of the fresh 12x12 sampler. *)
Lemma next_batch_after_init_witness :
  exists tv,
    Fixtures.fresh12 = Ok tv /\
    TrainVol.next_batch nat Fixtures.det_shuffle Fixtures.det_randint tv 4
      = Raise AttributeError.
Proof.
  eexists.
  match goal with
  | |- ?e = Ok ?tv /\ _ => assert (E : e = Ok tv) by (vm_compute; reflexivity)
  end.
  split; [exact E|].
  exact (next_batch_after_init nat Fixtures.det_shuffle Fixtures.det_randint
           _ _ 1 1 1 2 _ _ 4 E).
Defined.

End InitFacts.

(** ** Further properties of trainvol.py: the prediction batch *)

Module PredictFacts.

Lemma range_NoDup (lo hi : Z) : NoDup (Py.range lo hi).
Proof.
  unfold Py.range. generalize (Z.to_nat (hi - lo)) as n. intros n.
  generalize 0%nat as a. induction n as [|n IH]; intros a; cbn [seq map].
  - constructor.
  - constructor; [|apply IH].
    rewrite in_map_iff. intros [k [E Hk]]. apply in_seq in Hk. lia.
Qed.

(** A loop over distinct indices whose step [j] only touches the part [j]
    of the state: each part goes from its state before, [B], to its state
    after, [A], at its own step, and is left alone by the others. *)
Lemma for_each {S} (P : S -> Prop) (D : Z -> Prop) (B A : Z -> S -> Prop)
    (body : Z -> S -> result S) (l : list Z) :
  NoDup l -> (forall i, In i l -> D i) ->
  (forall j t, In j l -> P t -> B j t ->
     exists t', body j t = Ok t' /\ P t' /\ A j t' /\
       forall i, D i -> i <> j -> (B i t -> B i t') /\ (A i t -> A i t')) ->
  forall s, P s -> (forall i, In i l -> B i s) ->
  exists s', for_ l body s = Ok s' /\ P s' /\
    (forall i, In i l -> A i s') /\
    (forall i, D i -> ~ In i l -> A i s -> A i s').
Proof.
  induction l as [|j l IH]; intros Hnd HD Hstep s Ps Bs.
  - exists s. split; [reflexivity|]. split; [assumption|].
    split; [intros i []|auto].
  - inversion Hnd as [|j' l' Hj Hnd']; subst.
    destruct (Hstep j s (or_introl eq_refl) Ps (Bs j (or_introl eq_refl)))
      as [t [Eb [Pt [Aj Hoth]]]].
    destruct (IH Hnd') with (s := t) as [s' [E [Ps' [Al Ao]]]].
    + intros i Hi. apply HD. right. assumption.
    + intros k u Hk. apply Hstep. right. assumption.
    + assumption.
    + intros i Hi. apply (Hoth i).
      * apply HD. right. assumption.
      * intros ->. contradiction.
      * apply Bs. right. assumption.
    + exists s'. cbn [for_]. rewrite Eb. cbn [bind].
      split; [assumption|]. split; [assumption|]. split.
      * intros i [<-|Hi]; [|apply Al; assumption].
        apply Ao; [apply HD; left; reflexivity|assumption|assumption].
      * intros i Di Hni Ai. apply Ao; [assumption| |].
        -- intros Hi. apply Hni. right. assumption.
        -- apply (Hoth i Di); [|assumption].
           intros ->. apply Hni. left. reflexivity.
Qed.

Section WithRandom.

Variable rng : Type.

Local Abbreviation t := (TrainVol.t rng).
Local Abbreviation window_at := (TrainVol.window_at rng).
Local Abbreviation predict_step := (TrainVol.predict_step rng).
Local Abbreviation get_predict_batch := (TrainVol.get_predict_batch rng).

Section Loop.

Variable self : t.
Hypothesis Hwf : TrainVol.wf rng self.

Let T := Z.to_nat (TrainVol.total_vects rng self).
Let w := Z.to_nat (2 * TrainVol.NR rng self).
Let h := Z.to_nat (TrainVol.C_IN rng self + TrainVol.C_BACK rng self).

Let P (x : Np.ndarray3 Z) : Prop :=
  Np.shape3 x = (T, w, h) /\ List.length (Np.items3 x) = T.

Let B (i : Z) (x : Np.ndarray3 Z) : Prop :=
  nth (Z.to_nat i) (Np.items3 x) [] = repeat (repeat 0 h) w.

Let A (i : Z) (x : Np.ndarray3 Z) : Prop :=
  exists row col to_put,
    window_at self i = Ok (row, col, to_put) /\
    nth (Z.to_nat i) (Np.items3 x) [] =
      if Np.shape2_eqb (Np.shape2 to_put) (w, h) then Np.items2 to_put
      else repeat (repeat 0 h) w.

Lemma predict_step_spec (j : Z) (x : Np.ndarray3 Z) :
  0 <= j < TrainVol.total_vects rng self -> P x -> B j x ->
  exists x',
    predict_step self j x = Ok x' /\ P x' /\ A j x' /\
    forall i, 0 <= i -> i <> j ->
      (B i x -> B i x') /\ (A i x -> A i x').
Proof.
  intros Hj [Sx Lx] Bj.
  pose proof (f_equal (fun s => fst (fst s)) Sx) as D0.
  pose proof (f_equal (fun s => snd (fst s)) Sx) as D1.
  pose proof (f_equal snd Sx) as D2.
  cbn [fst snd Np.shape3] in D0, D1, D2.
  destruct (SamplerFacts.window_total rng self j Hwf Hj)
    as [row [col [to_put [Ew _]]]].
  unfold TrainVol.predict_step. rewrite Ew. cbn [bind].
  assert (Hin : 0 <= j < Z.of_nat (Np.dim0 x)) by (rewrite D0; unfold T; lia).
  rewrite PyFacts.norm_index_inside by exact Hin. cbn [bind].
  rewrite D1, D2.
  destruct (Np.shape2_eqb (Np.shape2 to_put) (w, h)) eqn:Es.
  - destruct (SamplerFacts.setplane3_inside x j to_put Hin)
      as [x' [Ex [X0 [X1 [X2 Xi]]]]]; [rewrite D1, D2; exact Es|].
    exists x'. split; [exact Ex|].
    assert (Hn : forall k, nth k (Np.items3 x') [] =
                           if Nat.eqb k (Z.to_nat j) then Np.items2 to_put
                           else nth k (Np.items3 x) []).
    { intros k. rewrite Xi. apply LoopFacts.nth_upd. lia. }
    split; [split|split].
    + unfold Np.shape3. rewrite X0, X1, X2, D0, D1, D2. reflexivity.
    + rewrite Xi, LoopFacts.upd_length. assumption.
    + exists row, col, to_put. split; [exact Ew|].
      rewrite Hn, Nat.eqb_refl, Es. reflexivity.
    + intros i Hi Ne.
      assert (E : Nat.eqb (Z.to_nat i) (Z.to_nat j) = false)
        by (apply Nat.eqb_neq; lia).
      unfold B, A. rewrite Hn, E. split; auto.
  - exists x. split; [reflexivity|]. split; [split; assumption|].
    split; [|intros; split; auto].
    exists row, col, to_put. split; [exact Ew|]. rewrite Es. exact Bj.
Qed.

Lemma predict_loop :
  exists x,
    for_ (Py.range 0 (TrainVol.total_vects rng self)) (predict_step self)
         (Np.zeros3 0 T w h) = Ok x /\
    P x /\ forall i, 0 <= i < TrainVol.total_vects rng self -> A i x.
Proof.
  destruct (for_each P (fun i => 0 <= i) B A (predict_step self)
              (Py.range 0 (TrainVol.total_vects rng self)))
    with (s := Np.zeros3 0 T w h) as [x [E [Px [Ax _]]]].
  - apply range_NoDup.
  - intros i Hi. apply PyFacts.range_In in Hi. lia.
  - intros j x Hj Px Bj. apply PyFacts.range_In in Hj.
    apply predict_step_spec; assumption.
  - split; [reflexivity|]. cbn. apply repeat_length.
  - intros i Hi. apply PyFacts.range_In in Hi. unfold B. cbn.
    apply nth_repeat_lt. unfold T. lia.
  - exists x. split; [exact E|]. split; [exact Px|].
    intros i Hi. apply Ax. apply PyFacts.range_In. assumption.
Qed.

End Loop.

(** X21: on a well-formed sampler with a non-negative window,
    [get_predict_batch] never raises.  It returns one plane per linear index
    of the surface, in order: the plane of [ind] is the window of the volume
    at the point of [ind], not flipped, when that window has the full shape
    [(2 NR, C_IN + C_BACK)], and is left zero when the window is clipped by
    the border of the volume. *)
Theorem get_predict_batch_spec (self : t) :
  TrainVol.wf rng self ->
  0 <= TrainVol.NR rng self ->
  0 <= TrainVol.C_IN rng self + TrainVol.C_BACK rng self ->
  let w := Z.to_nat (2 * TrainVol.NR rng self) in
  let h := Z.to_nat (TrainVol.C_IN rng self + TrainVol.C_BACK rng self) in
  exists x,
    get_predict_batch self = Ok x /\
    Np.shape3 x = (Z.to_nat (TrainVol.total_vects rng self), w, h) /\
    forall ind, 0 <= ind < TrainVol.total_vects rng self ->
      exists row col to_put,
        window_at self ind = Ok (row, col, to_put) /\
        nth (Z.to_nat ind) (Np.items3 x) [] =
          if Np.shape2_eqb (Np.shape2 to_put) (w, h) then Np.items2 to_put
          else repeat (repeat 0 h) w.
Proof.
  intros Hwf Hn Hh w h.
  destruct (predict_loop self Hwf) as [x [E [[Sx _] Ax]]].
  exists x. split; [|split; [exact Sx|exact Ax]].
  unfold TrainVol.get_predict_batch, TrainVol.check_dims. cbn [forallb].
  assert (Ht : 0 <= TrainVol.total_vects rng self).
  { destruct Hwf as [_ [_ [_ [_ [_ [_ [_ [_ [_ Tv]]]]]]]]].
    cbv zeta in Tv. rewrite Tv. lia. }
  replace (0 <=? TrainVol.total_vects rng self) with true
    by (symmetry; apply Z.leb_le; lia).
  replace (0 <=? 2 * TrainVol.NR rng self) with true
    by (symmetry; apply Z.leb_le; lia).
  replace (0 <=? TrainVol.C_IN rng self + TrainVol.C_BACK rng self) with true
    by (symmetry; apply Z.leb_le; lia).
  cbn [andb bind]. exact E.
Qed.

End WithRandom.

(** The prediction batch of the 12x12 sampler: 144 planes of shape (2, 2);
    the plane of the index 53, the point (4, 5), is the window
    [[0, 5], [0, 5]] of the volume. *)
Lemma get_predict_batch_spec_witness :
  exists tv x,
    Fixtures.fresh12 = Ok tv /\
    TrainVol.get_predict_batch nat tv = Ok x /\
    Np.shape3 x = (144, 2, 2)%nat /\
    nth 53 (Np.items3 x) [] = [[0; 5]; [0; 5]].
Proof.
  eexists.
  match goal with
  | |- exists _, ?e = Ok ?tv /\ _ =>
      assert (E : e = Ok tv) by (vm_compute; reflexivity)
  end.
  match type of E with
  | _ = Ok ?tv =>
      destruct (get_predict_batch_spec nat tv) as [x [Ex [Sx Hx]]]
  end.
  - vm_compute. repeat split; repeat constructor.
  - vm_compute. discriminate.
  - vm_compute. discriminate.
  - exists x. split; [exact E|]. split; [exact Ex|]. split; [exact Sx|].
    destruct (Hx 53) as [row [col [to_put [Ew En]]]]; [cbn; lia|].
    vm_compute in Ew. inversion Ew; subst row col to_put.
    exact En.
Defined.

End PredictFacts.

(** ** Further properties of trainvol.py: from the constructor to a batch *)

Module PipelineFacts.

Section WithRandom.

Variable rng : Type.
Variable shuffle : rng -> list Z -> list Z * rng.
Variable randint : rng -> Z -> Z * rng.

(** X22: the three calls of a training run compose.  On a well-formed
    volume of positive depth and an annotation of the shape of its surface,
    with non-negative radius, window depth and batch size, a shuffle that
    only reorders and one of the three styles, the constructor, then
    [make_train_with_style], then [next_batch] all return; the batch has
    shape [(batch_size, 2 NR, CUT_IN + CUT_BACK)] and the cursor ends at
    [batch_size]. *)
Theorem first_batch_runs (volume : Np.ndarray3 Z) (truth : Np.ndarray2 Z)
    (CUT_IN CUT_BACK NR THRESH : Z) (g : rng) (style : string) (dropout : Q)
    (batch_size : Z) :
  Np.wf3 volume -> Np.dim2 volume <> 0%nat ->
  Np.shape2 truth = (Np.dim0 volume, Np.dim1 volume) ->
  0 <= NR -> 0 <= CUT_IN + CUT_BACK -> 0 <= batch_size ->
  (forall g l x, In x (fst (shuffle g l)) -> In x l) ->
  style = "drop"%string \/ style = "rhalf"%string \/ style = "lhalf"%string ->
  exists tv tv1 x y tv2,
    TrainVol.init rng volume truth CUT_IN CUT_BACK NR THRESH g = Ok tv /\
    TrainVol.make_train_with_style rng shuffle tv style dropout = Ok tv1 /\
    TrainVol.next_batch rng shuffle randint tv1 batch_size = Ok (x, y, tv2) /\
    Np.shape3 x =
      (Z.to_nat batch_size, Z.to_nat (2 * NR), Z.to_nat (CUT_IN + CUT_BACK)) /\
    TrainVol.current_spot rng tv2 = batch_size.
Proof.
  intros Hwf Hd Hs HNR Hh Hb Hsh Hst.
  destruct (InitFacts.init_runs rng volume truth CUT_IN CUT_BACK NR THRESH g
              Hwf Hs HNR Hd) as [gt [mask [surf [Ei Wi]]]].
  cbv zeta in Ei, Wi.
  set (tv := TrainVol.mk rng 0 4 NR CUT_IN CUT_BACK volume
               (TrainVol.binarize truth) gt volume "drop"
               (Z.of_nat (Np.dim0 volume) * Z.of_nat (Np.dim1 volume))
               mask surf None g) in *.
  destruct (StyleFacts.make_train_runs rng shuffle tv style dropout Wi Hsh Hst)
    as [g1 [pool [Em Hp]]].
  set (tv1 := TrainVol.set_cursor_pool rng (TrainVol.set_style rng tv style)
                (TrainVol.current_spot rng tv) (Some pool) g1) in *.
  destruct (SamplerFacts.next_batch_runs rng shuffle randint tv1 pool
              batch_size)
    as [x [y [tv2 [pool' [En [Sx [Sc _]]]]]]].
  - exact Wi.
  - reflexivity.
  - unfold TrainVol.in_range. apply Forall_forall. intros ind Hin.
    destruct (Hp ind Hin) as [B _]. cbn in B |- *. lia.
  - exact Hsh.
  - exact Hb.
  - exact HNR.
  - exact Hh.
  - exists tv, tv1, x, y, tv2.
    split; [exact Ei|]. split; [exact Em|]. split; [exact En|].
    split; [exact Sx|]. rewrite Sc. cbn.
    destruct (batch_size >? _); reflexivity.
Qed.

End WithRandom.

(** The run on the 12x12 step surface with the style ['lhalf'] and a batch
    of 4. *)
Lemma first_batch_runs_witness :
  exists tv tv1 x y tv2,
    Fixtures.fresh12 = Ok tv /\
    TrainVol.make_train_with_style nat Fixtures.det_shuffle tv "lhalf" (6 # 10)
      = Ok tv1 /\
    TrainVol.next_batch nat Fixtures.det_shuffle Fixtures.det_randint tv1 4
      = Ok (x, y, tv2) /\
    Np.shape3 x = (4, 2, 2)%nat /\
    TrainVol.current_spot nat tv2 = 4.
Proof.
  apply (first_batch_runs nat Fixtures.det_shuffle Fixtures.det_randint
           Fixtures.slab12 Fixtures.ink12 1 1 1 2 0%nat "lhalf" (6 # 10) 4).
  - exact InitFacts.slab12_wf.
  - cbn. lia.
  - reflexivity.
  - lia.
  - lia.
  - lia.
  - intros g l x. apply StyleFacts.det_shuffle_In.
  - right. right. reflexivity.
Defined.

End PipelineFacts.

(** ** Further properties of features.py: when the extraction returns *)

Module FeaturesTotal.

Local Abbreviation shaped := Features.shaped.
Local Abbreviation single_shaped := Features.single_shaped.
Local Abbreviation no_nan := Features.no_nan.

Ltac bind_inv H :=
  repeat match type of H with
  | bind ?c _ = Ok _ =>
      let E := fresh "E" in
      destruct c eqn:E; cbn [bind] in H; [|discriminate H]
  | (let '(_, _) := ?p in _) = Ok _ => destruct p
  end.

Lemma no_nan_zeros (rows cols : nat) :
  no_nan (Np.zeros2 (Features.Fin 0) rows cols).
Proof.
  unfold Features.no_nan. cbn. apply Forall_forall. intros r Hr.
  apply repeat_spec in Hr. subst r. apply Forall_forall. intros c Hc.
  apply repeat_spec in Hc. subst c. reflexivity.
Qed.

Lemma no_nan_setitem2 (a a' : Np.ndarray2 Features.f64) (i j : Z)
    (v : Features.f64) :
  NpSet.setitem2 a i j v = Ok a' -> no_nan a -> Features.is_nan v = false ->
  no_nan a'.
Proof.
  unfold NpSet.setitem2.
  destruct (Py.norm_index (Np.rows2 a) i); [|discriminate].
  destruct (Py.norm_index (Np.cols2 a) j); [|discriminate].
  intros E Ha Hv. inversion E; subst a'; clear E.
  unfold Features.no_nan in *. cbn.
  apply LoopFacts.upd_Forall; [|assumption].
  intros r Hr. apply LoopFacts.upd_Forall; [|assumption].
  intros c _. assumption.
Qed.

Lemma no_nan_nan_to_num (a : Np.ndarray2 Features.f64) :
  no_nan (Features.nan_to_num a).
Proof.
  unfold Features.no_nan, Features.nan_to_num. cbn.
  rewrite Forall_map. apply Forall_forall. intros r _.
  rewrite Forall_map. apply Forall_forall. intros c _.
  destruct c; reflexivity.
Qed.

(** [normalize] accepts a map without NaN that has a row and a column. *)
Lemma normalize_total (rows cols : nat) (a : Np.ndarray2 Features.f64) :
  shaped rows cols a -> rows <> 0%nat -> cols <> 0%nat -> no_nan a ->
  exists c, Features.normalize a = Ok c.
Proof.
  intros [W [R C]] Hr Hc Hn. unfold Features.normalize.
  assert (H : existsb (existsb Features.is_nan) (Np.items2 a) = false).
  { apply not_true_is_false. intros H.
    apply existsb_exists in H as [r [Hr' H]].
    apply existsb_exists in H as [c [Hc' H]].
    unfold Features.no_nan in Hn. rewrite Forall_forall in Hn.
    specialize (Hn r Hr'). rewrite Forall_forall in Hn.
    rewrite (Hn c Hc') in H. discriminate. }
  rewrite H, R, C.
  destruct (Nat.eqb_spec rows 0); [contradiction|].
  destruct (Nat.eqb_spec cols 0); [contradiction|].
  cbn. eexists. reflexivity.
Qed.

(** A step of the single-vector loop that returns has stored no NaN in the
    depth and the average maps: its window was not empty. *)
Lemma single_step_no_nan volume surf_pts CUT_IN CUT_BACK THRESH i j
    (m m' : Features.single) :
  Features.single_step volume surf_pts CUT_IN CUT_BACK THRESH i j m = Ok m' ->
  no_nan (Features.depth_vals m) -> no_nan (Features.avg_vals m) ->
  no_nan (Features.depth_vals m') /\ no_nan (Features.avg_vals m').
Proof.
  unfold Features.single_step. intros E N1 N2.
  bind_inv E. inversion E; subst m'; clear E. cbn. split.
  - eapply no_nan_setitem2; [eassumption|assumption|reflexivity].
  - eapply no_nan_setitem2; [eassumption|assumption|].
    match goal with
    | H : Red.min ?l = Ok _ |- Features.is_nan (Features.mean ?l) = false =>
        destruct l; [discriminate H|reflexivity]
    end.
Qed.

Section Extract.

Variable volume : Np.ndarray3 Z.
Variable surf_pts : Np.ndarray2 Z.
Variable CUT_IN CUT_BACK NR THRESH : Z.

Let rows := Np.dim0 volume.
Let cols := Np.dim1 volume.

Hypothesis Wv : Np.wf3 volume.
Hypothesis Ws : Np.wf2 surf_pts.
Hypothesis Sh : Np.shape2 surf_pts = (rows, cols).

Lemma surf_shape : Np.rows2 surf_pts = rows /\ Np.cols2 surf_pts = cols.
Proof.
  pose proof (f_equal fst Sh) as Rs. pose proof (f_equal snd Sh) as Cs.
  split; assumption.
Qed.

Let P (m : Features.single) : Prop :=
  single_shaped rows cols m /\
  no_nan (Features.depth_vals m) /\ no_nan (Features.avg_vals m).

Let PN (n : Features.neigh) : Prop :=
  shaped rows cols (Features.mean_neigh n) /\
  shaped rows cols (Features.sum_neigh n) /\
  shaped rows cols (Features.surf_stdev_neigh n) /\
  shaped rows cols (Features.depth_neigh n).

Hypothesis NE : forall i j srf cut vec,
  0 <= i < Z.of_nat rows -> 0 <= j < Z.of_nat cols ->
  Features.window surf_pts CUT_IN CUT_BACK i j = Ok (srf, cut) ->
  Np.getvec3 volume i j = Ok vec ->
  Py.slice vec srf cut <> [].

Lemma single_step_total (i j : Z) (m : Features.single) :
  0 <= i < Z.of_nat rows -> 0 <= j < Z.of_nat cols -> P m ->
  exists m',
    Features.single_step volume surf_pts CUT_IN CUT_BACK THRESH i j m = Ok m' /\
    P m'.
Proof.
  intros Hi Hj [Sm [N1 N2]]. destruct surf_shape as [Rs Cs].
  destruct (FeaturesMore.single_step_outcome rows cols volume surf_pts CUT_IN
              CUT_BACK THRESH i j m Wv eq_refl eq_refl Ws Rs Cs Hi Hj Sm)
    as [srf [cut [vec [Ew [Ev Out]]]]].
  pose proof (NE i j srf cut vec Hi Hj Ew Ev) as Hne.
  destruct (Py.slice vec srf cut); [contradiction|].
  destruct Out as [m' [E Sm']].
  exists m'. split; [exact E|]. split; [exact Sm'|].
  exact (single_step_no_nan _ _ _ _ _ _ _ _ _ E N1 N2).
Qed.

Lemma single_loop_total :
  let z := Np.zeros2 (Features.Fin 0) rows cols in
  exists s,
    for_ (Py.range 0 (Z.of_nat rows)) (fun i m =>
      for_ (Py.range 0 (Z.of_nat cols))
           (fun j m => Features.single_step volume surf_pts CUT_IN CUT_BACK
                         THRESH i j m) m)
      (Features.mk_single z z z z z z) = Ok s /\ P s.
Proof.
  intros z. apply (LoopFacts.for_total P).
  - intros i t Hi Pt. apply PyFacts.range_In in Hi.
    apply (LoopFacts.for_total P); [|assumption].
    intros j u Hj Pu. apply PyFacts.range_In in Hj.
    apply single_step_total; assumption.
  - pose proof (FeaturesFacts.shaped_zeros rows cols) as Z0.
    pose proof (no_nan_zeros rows cols) as N0.
    split; [|split; exact N0].
    exact (conj Z0 (conj Z0 (conj Z0 (conj Z0 (conj Z0 Z0))))).
Qed.

Lemma neigh_step_total (i j : Z) (n : Features.neigh) :
  0 <= i < Z.of_nat rows -> 0 <= j < Z.of_nat cols -> PN n ->
  exists n',
    Features.neigh_step volume surf_pts CUT_IN CUT_BACK NR THRESH i j n = Ok n' /\
    PN n'.
Proof.
  intros Hi Hj [S1 [S2 [S3 S4]]]. destruct surf_shape as [Rs Cs].
  unfold Features.neigh_step, Features.window.
  rewrite (FeaturesMore.getitem2_inside 0 surf_pts i j Ws)
    by (rewrite ?Rs, ?Cs; assumption).
  cbn [bind].
  match goal with
  | |- context [Features.mean ?l] => set (nv := l)
  end.
  destruct (FeaturesMore.shaped_set rows cols _ i j (Features.mean nv) S1 Hi Hj)
    as [a1 [E1 T1]].
  destruct (FeaturesMore.shaped_set rows cols _ i j (Features.sum nv) S2 Hi Hj)
    as [a2 [E2 T2]].
  destruct (FeaturesMore.shaped_set rows cols _ i j (Features.std nv) S3 Hi Hj)
    as [a3 [E3 T3]].
  destruct (FeaturesMore.shaped_set rows cols _ i j
              (Features.Fin (INR (Features.count_where (fun v => v <? THRESH) nv)))
              S4 Hi Hj)
    as [a4 [E4 T4]].
  rewrite E1. cbn [bind]. rewrite E2. cbn [bind]. rewrite E3. cbn [bind].
  rewrite E4. cbn [bind].
  eexists. split; [reflexivity|].
  exact (conj T1 (conj T2 (conj T3 T4))).
Qed.

Hypothesis HNR : 0 <= NR.

Lemma neigh_loop_total :
  let z := Np.zeros2 (Features.Fin 0) rows cols in
  exists n,
    for_ (Py.range NR (Z.of_nat rows - NR)) (fun i m =>
      for_ (Py.range NR (Z.of_nat cols - NR))
           (fun j m => Features.neigh_step volume surf_pts CUT_IN CUT_BACK NR
                         THRESH i j m) m)
      (Features.mk_neigh z z z z) = Ok n /\ PN n.
Proof.
  intros z. apply (LoopFacts.for_total PN).
  - intros i t Hi Pt. apply PyFacts.range_In in Hi.
    apply (LoopFacts.for_total PN); [|assumption].
    intros j u Hj Pu. apply PyFacts.range_In in Hj.
    apply neigh_step_total; [lia|lia|assumption].
  - pose proof (FeaturesFacts.shaped_zeros rows cols) as Z0.
    exact (conj Z0 (conj Z0 (conj Z0 Z0))).
Qed.

Hypothesis Hr : rows <> 0%nat.
Hypothesis Hc : cols <> 0%nat.

Lemma extract_total :
  exists F,
    Features.extract_for_vol None volume surf_pts CUT_IN CUT_BACK NR THRESH
      = Ok F /\
    Np.shape3 F = (rows, cols, 10%nat).
Proof.
  unfold Features.extract_for_vol. fold rows cols.
  destruct single_loop_total as [s [Es [[S1 [S2 [S3 [S4 [S5 S6]]]]] [N1 N2]]]].
  cbv zeta in Es. rewrite Es. cbn [bind].
  destruct neigh_loop_total as [n [En [M1 [M2 [M3 M4]]]]].
  cbv zeta in En.
  assert (NT : forall a, shaped rows cols a ->
             exists c, Features.normalize (Features.nan_to_num a) = Ok c).
  { intros a Sa. apply (normalize_total rows cols); try assumption.
    - apply FeaturesFacts.shaped_nan_to_num. assumption.
    - apply no_nan_nan_to_num. }
  destruct (NT _ S3) as [f0 E0].
  destruct (normalize_total rows cols _ S1 Hr Hc N1) as [f1 E1].
  destruct (normalize_total rows cols _ S2 Hr Hc N2) as [f2 E2].
  destruct (NT _ S4) as [f3 E3]. destruct (NT _ S5) as [f4 E4].
  destruct (NT _ S6) as [f5 E5].
  destruct (NT _ M1) as [f6 E6]. destruct (NT _ M2) as [f7 E7].
  destruct (NT _ M3) as [f8 E8]. destruct (NT _ M4) as [f9 E9].
  rewrite E0. cbn [bind]. rewrite E1. cbn [bind]. rewrite E2. cbn [bind].
  rewrite E3. cbn [bind]. rewrite E4. cbn [bind]. rewrite E5. cbn [bind].
  rewrite En. cbn [bind].
  rewrite E6. cbn [bind]. rewrite E7. cbn [bind]. rewrite E8. cbn [bind].
  rewrite E9. cbn [bind].
  eexists. split; reflexivity.
Qed.

End Extract.

(** X23: the uncached [extract_for_vol] returns whenever no depth window
    is empty: on a well-formed volume with at least one row and one column,
    a surface map of the shape of its first two axes and a non-negative
    neighbourhood radius, if the window [srf:cut] of every point of the
    surface holds at least one voxel, the call returns a feature image of
    shape [(rows, cols, 10)]. *)
Theorem extract_returns (volume : Np.ndarray3 Z) (surf_pts : Np.ndarray2 Z)
    (CUT_IN CUT_BACK NEIGH_RADIUS THRESH : Z) :
  Np.wf3 volume -> Np.wf2 surf_pts ->
  Np.shape2 surf_pts = (Np.dim0 volume, Np.dim1 volume) ->
  Np.dim0 volume <> 0%nat -> Np.dim1 volume <> 0%nat ->
  0 <= NEIGH_RADIUS ->
  (forall i j srf cut vec,
     0 <= i < Z.of_nat (Np.dim0 volume) ->
     0 <= j < Z.of_nat (Np.dim1 volume) ->
     Features.window surf_pts CUT_IN CUT_BACK i j = Ok (srf, cut) ->
     Np.getvec3 volume i j = Ok vec ->
     Py.slice vec srf cut <> []) ->
  exists F,
    Features.extract_for_vol None volume surf_pts CUT_IN CUT_BACK NEIGH_RADIUS
                             THRESH = Ok F /\
    Np.shape3 F = (Np.dim0 volume, Np.dim1 volume, 10%nat).
Proof.
  intros Wv Ws Sh Hr Hc HNR NE.
  exact (extract_total volume surf_pts CUT_IN CUT_BACK NEIGH_RADIUS THRESH
           Wv Ws Sh NE HNR Hr Hc).
Qed.

(** The 2x2x2 volume with the surface at depth 0 and a window of depth 2. *)
Lemma extract_returns_witness :
  exists F,
    Features.extract_for_vol None Fixtures.vol222 Fixtures.surf22 2 0 0 0
      = Ok F /\
    Np.shape3 F = (2, 2, 10)%nat.
Proof.
  apply (extract_returns Fixtures.vol222 Fixtures.surf22 2 0 0 0).
  - split; [reflexivity|repeat constructor].
  - split; [reflexivity|repeat constructor].
  - reflexivity.
  - discriminate.
  - discriminate.
  - lia.
  - intros i j srf cut vec Hi Hj.
    assert (Ci : i = 0 \/ i = 1) by (cbn in Hi; lia).
    assert (Cj : j = 0 \/ j = 1) by (cbn in Hj; lia).
    destruct Ci as [-> | ->], Cj as [-> | ->]; cbn;
      intros Ew Ev; inversion Ew; subst; inversion Ev; subst; discriminate.
Defined.

Lemma for_noop {S} (l : list Z) (body : Z -> S -> result S) (s : S) :
  (forall i t, In i l -> body i t = Ok t) -> for_ l body s = Ok s.
Proof.
  induction l as [|i l IH]; intros H; [reflexivity|].
  cbn [for_]. rewrite (H i s (or_introl eq_refl)). cbn [bind].
  apply IH. intros j t Hj. apply H. right. assumption.
Qed.

Lemma no_nan_empty_rows (rows : nat) :
  existsb (existsb Features.is_nan)
    (Np.items2 (Features.nan_to_num (Np.zeros2 (Features.Fin 0) rows 0)))
  = false.
Proof.
  cbn. induction rows as [|n IH]; [reflexivity|exact IH].
Qed.

(** X24: on a volume without rows or without columns the uncached
    [extract_for_vol] raises [ValueError]: the loops are not entered, and
    [normalize] rejects the first, empty, map. *)
Theorem extract_raises_on_empty_surface (volume : Np.ndarray3 Z)
    (surf_pts : Np.ndarray2 Z) (CUT_IN CUT_BACK NEIGH_RADIUS THRESH : Z) :
  Np.dim0 volume = 0%nat \/ Np.dim1 volume = 0%nat ->
  Features.extract_for_vol None volume surf_pts CUT_IN CUT_BACK NEIGH_RADIUS
                           THRESH = Raise ValueError.
Proof.
  intros [H|H]; unfold Features.extract_for_vol.
  - rewrite H. reflexivity.
  - rewrite for_noop by (intros i t _; rewrite H; reflexivity).
    cbn [bind Features.sum_vals]. rewrite H.
    unfold Features.normalize. rewrite no_nan_empty_rows.
    cbn [Np.cols2 Features.nan_to_num Np.zeros2 Nat.eqb].
    rewrite orb_true_r. reflexivity.
Qed.

(** A volume of shape (2, 0, 3). *)
Lemma extract_raises_on_empty_surface_witness :
  Features.extract_for_vol None (Np.zeros3 0 2 0 3) (Np.zeros2 0 2 0) 1 0 0 0
  = Raise ValueError.
Proof.
  apply extract_raises_on_empty_surface. right. reflexivity.
Defined.

End FeaturesTotal.

(** ** Further properties of trainvol.py: the inputs of a batch *)

Module BatchInputs.

Section WithRandom.

Variable rng : Type.
Variable shuffle : rng -> list Z -> list Z * rng.
Variable randint : rng -> Z -> Z * rng.

Local Abbreviation t := (TrainVol.t rng).
Local Abbreviation window_at := (TrainVol.window_at rng).
Local Abbreviation next_batch_step := (TrainVol.next_batch_step rng randint).
Local Abbreviation next_batch := (TrainVol.next_batch rng shuffle randint).

(** What one index leaves in its input plane: its window, as it is or
    upside down, when the window has the expected shape; the previous
    content [old] of the plane otherwise. *)
Let plane_of (self : t) (w h : nat) (ind : Z) (old p : list (list Z)) : Prop :=
  exists r c to_put,
    window_at self ind = Ok (r, c, to_put) /\
    if Np.shape2_eqb (Np.shape2 to_put) (w, h)
    then p = Np.items2 to_put \/ p = rev (Np.items2 to_put)
    else p = old.

Lemma setplane3_planes (x x2 : Np.ndarray3 Z) (k : nat) (p : Np.ndarray2 Z) :
  NpSet.setplane3 x (Z.of_nat k) p = Ok x2 ->
  List.length (Np.items3 x) = Np.dim0 x ->
  Np.shape3 x2 = Np.shape3 x /\
  List.length (Np.items3 x2) = Np.dim0 x /\
  forall i, nth i (Np.items3 x2) [] =
            if Nat.eqb i k then Np.items2 p else nth i (Np.items3 x) [].
Proof.
  unfold NpSet.setplane3. intros E Lx.
  destruct (Py.norm_index (Np.dim0 x) (Z.of_nat k)) as [k0|] eqn:Ek;
    [|discriminate].
  destruct (BatchFacts.norm_index_nonneg _ _ _ (Nat2Z.is_nonneg k) Ek)
    as [-> Hk].
  rewrite Nat2Z.id in E.
  destruct (Np.shape2_eqb (Np.shape2 p) (Np.dim1 x, Np.dim2 x));
    [|discriminate].
  inversion E; subst x2; clear E. cbn [Np.items3 Np.shape3 Np.dim0 Np.dim1 Np.dim2].
  split; [reflexivity|]. split; [rewrite LoopFacts.upd_length; assumption|].
  intros i. apply LoopFacts.nth_upd. lia.
Qed.

Lemma input_loop (self : t) (B w h : nat) (l : list Z) :
  forall (k : nat) (x : Np.ndarray3 Z) (y : Np.ndarray2 Q) (g : rng)
         (x' : Np.ndarray3 Z) (y' : Np.ndarray2 Q) (c' : Z) (g' : rng),
    for_ l (next_batch_step self) (x, y, Z.of_nat k, g) = Ok (x', y', c', g') ->
    Np.shape3 x = (B, w, h) -> List.length (Np.items3 x) = B ->
    Np.shape3 x' = (B, w, h) /\ List.length (Np.items3 x') = B /\
    (forall c, (c < k \/ k + List.length l <= c)%nat ->
       nth c (Np.items3 x') [] = nth c (Np.items3 x) []) /\
    (forall idx ind, nth_error l idx = Some ind ->
       plane_of self w h ind (nth (k + idx) (Np.items3 x) [])
                (nth (k + idx) (Np.items3 x') [])).
Proof.
  induction l as [|ind l IH]; intros k x y g x' y' c' g' E Sx Lx.
  - cbn in E. inversion E; subst x' y' c' g'. split; [assumption|].
    split; [assumption|]. split; [reflexivity|].
    intros [|idx] ind' H; discriminate.
  - cbn [for_] in E.
    destruct (next_batch_step self ind (x, y, Z.of_nat k, g))
      as [[[[x1 y1] c1] g1]|e] eqn:Es; [|discriminate].
    cbn [bind] in E.
    pose proof (f_equal (fun s => fst (fst s)) Sx) as D0.
    pose proof (f_equal (fun s => snd (fst s)) Sx) as D1.
    pose proof (f_equal snd Sx) as D2.
    cbn [fst snd Np.shape3] in D0, D1, D2.
    unfold TrainVol.next_batch_step in Es.
    destruct (window_at self ind) as [[[r c] to_put]|e] eqn:Ew; [|discriminate].
    cbn [bind] in Es.
    destruct (Py.norm_index (Np.dim0 x) (Z.of_nat k)) as [k0|] eqn:Ek;
      [|discriminate].
    cbn [bind] in Es.
    assert (Step :
      c1 = Z.of_nat (S k) /\ Np.shape3 x1 = (B, w, h) /\
      List.length (Np.items3 x1) = B /\
      (forall i, i <> k -> nth i (Np.items3 x1) [] = nth i (Np.items3 x) []) /\
      plane_of self w h ind (nth k (Np.items3 x) []) (nth k (Np.items3 x1) [])).
    { rewrite D1, D2 in Es.
      destruct (Np.shape2_eqb (Np.shape2 to_put) (w, h)) eqn:Esh.
      - destruct (randint g 10) as [rd g2].
        set (p := if rd mod 2 =? 0 then TrainVol.flipud to_put else to_put) in Es.
        destruct (NpSet.setplane3 x (Z.of_nat k) p) as [x2|e] eqn:Ex;
          [|discriminate].
        cbn [bind] in Es.
        destruct (Np.getitem2 _ r c) as [gt|e]; [|discriminate].
        cbn [bind] in Es.
        destruct (NpSet.setitem2 y _ 0 gt) as [ya|e]; [|discriminate].
        cbn [bind] in Es.
        destruct (NpSet.setitem2 ya _ 1 _) as [yb|e]; [|discriminate].
        cbn [bind] in Es. inversion Es; subst x1 y1 c1 g1; clear Es.
        destruct (setplane3_planes x x2 k p Ex) as [S2 [L2 N2]];
          [rewrite D0; assumption|].
        split; [lia|]. split; [rewrite S2; exact Sx|].
        split; [rewrite L2; exact D0|]. split.
        + intros i Hi. rewrite N2. apply Nat.eqb_neq in Hi. rewrite Hi.
          reflexivity.
        + exists r, c, to_put. split; [exact Ew|]. rewrite Esh.
          rewrite N2, Nat.eqb_refl. unfold p.
          destruct (rd mod 2 =? 0); [right|left]; reflexivity.
      - inversion Es; subst x1 y1 c1 g1; clear Es.
        split; [lia|]. split; [exact Sx|]. split; [exact Lx|].
        split; [reflexivity|].
        exists r, c, to_put. split; [exact Ew|]. rewrite Esh. reflexivity. }
    destruct Step as [-> [S1 [L1 [Oth Pl]]]].
    destruct (IH (S k) x1 y1 g1 x' y' c' g' E S1 L1) as [S' [L' [Keep Pls]]].
    split; [assumption|]. split; [assumption|]. split.
    + intros c0 Hc0. cbn [List.length] in Hc0.
      rewrite Keep by lia. apply Oth. lia.
    + intros [|idx] ind' Hn; cbn in Hn.
      * inversion Hn; subst ind'. rewrite Nat.add_0_r.
        rewrite Keep by lia. exact Pl.
      * specialize (Pls idx ind' Hn).
        replace (k + S idx)%nat with (S k + idx)%nat by lia.
        rewrite <- (Oth (S k + idx)%nat) by lia. exact Pls.
Qed.

Lemma zeros3_plane (B w h c : nat) :
  nth c (Np.items3 (Np.zeros3 0 B w h)) [] =
  if (c <? B)%nat then repeat (repeat 0 h) w else [].
Proof.
  cbn [Np.zeros3 Np.items3].
  destruct (Nat.ltb_spec c B).
  - apply nth_repeat_lt. assumption.
  - apply nth_overflow. rewrite repeat_length. assumption.
Qed.

(** X26: in every batch returned by [next_batch], the input array has
    shape [(batch_size, 2 NR, C_IN + C_BACK)].  The plane of the [c]-th index
    of the batch is the window of that index, as it is or upside down
    ([np.flipud]), when the window has the full shape, and is left all zero
    when the window is clipped; the planes past the last index of the batch
    are all zero too. *)
Theorem next_batch_inputs (self self' : t) (batch_size : Z)
    (x : Np.ndarray3 Z) (y : Np.ndarray2 Q) :
  next_batch self batch_size = Ok (x, y, self') ->
  let w := Z.to_nat (2 * TrainVol.NR rng self) in
  let h := Z.to_nat (TrainVol.C_IN rng self + TrainVol.C_BACK rng self) in
  exists pool,
    TrainVol.train_inds rng self' = Some pool /\
    Np.shape3 x = (Z.to_nat batch_size, w, h) /\
    let batch_inds :=
      Py.slice pool (TrainVol.current_spot rng self' - batch_size)
               (TrainVol.current_spot rng self') in
    forall c : nat, (c < Z.to_nat batch_size)%nat ->
      match nth_error batch_inds c with
      | Some ind =>
          exists row col to_put,
            window_at self ind = Ok (row, col, to_put) /\
            if Np.shape2_eqb (Np.shape2 to_put) (w, h)
            then nth c (Np.items3 x) [] = Np.items2 to_put \/
                 nth c (Np.items3 x) [] = rev (Np.items2 to_put)
            else nth c (Np.items3 x) [] = repeat (repeat 0 h) w
      | None => nth c (Np.items3 x) [] = repeat (repeat 0 h) w
      end.
Proof.
  unfold TrainVol.next_batch.
  destruct (TrainVol.check_dims _) as [[]|e]; [|discriminate].
  cbn [bind].
  set (B := Z.to_nat batch_size).
  set (w := Z.to_nat (2 * TrainVol.NR rng self)).
  set (h := Z.to_nat (TrainVol.C_IN rng self + TrainVol.C_BACK rng self)).
  intros E.
  assert (Main : forall self1 : t,
    (forall ind, window_at self1 ind = window_at self ind) ->
    (inds <- match TrainVol.train_inds rng self1 with
             | Some inds => Ok inds
             | None => Raise AttributeError
             end ;;
     '(to_return_x, to_return_y, _, g) <-
        for_ (Py.slice inds (TrainVol.current_spot rng self1)
                       (TrainVol.current_spot rng self1 + batch_size))
             (next_batch_step self1)
             (Np.zeros3 0 B w h, Np.zeros2 0%Q B 2, 0, TrainVol.gen rng self1) ;;
     Ok (to_return_x, to_return_y,
         TrainVol.set_cursor_pool rng self1
           (TrainVol.current_spot rng self1 + batch_size)
           (TrainVol.train_inds rng self1) g)) = Ok (x, y, self') ->
    exists pool,
      TrainVol.train_inds rng self' = Some pool /\
      Np.shape3 x = (B, w, h) /\
      forall c : nat, (c < B)%nat ->
        match nth_error
                (Py.slice pool (TrainVol.current_spot rng self' - batch_size)
                          (TrainVol.current_spot rng self')) c with
        | Some ind =>
            exists row col to_put,
              window_at self ind = Ok (row, col, to_put) /\
              if Np.shape2_eqb (Np.shape2 to_put) (w, h)
              then nth c (Np.items3 x) [] = Np.items2 to_put \/
                   nth c (Np.items3 x) [] = rev (Np.items2 to_put)
              else nth c (Np.items3 x) [] = repeat (repeat 0 h) w
        | None => nth c (Np.items3 x) [] = repeat (repeat 0 h) w
        end).
  { intros self1 Hw E1.
    destruct (TrainVol.train_inds rng self1) as [inds|] eqn:Ei; [|discriminate].
    cbn [bind] in E1.
    set (batch := Py.slice inds (TrainVol.current_spot rng self1)
                   (TrainVol.current_spot rng self1 + batch_size)) in *.
    destruct (for_ batch (next_batch_step self1) _)
      as [[[[x1 y1] c1] g1]|e] eqn:El; [|discriminate].
    cbn [bind] in E1. inversion E1; subst x1 y1 self'; clear E1.
    cbn [TrainVol.train_inds TrainVol.current_spot TrainVol.set_cursor_pool].
    replace (TrainVol.current_spot rng self1 + batch_size - batch_size)
      with (TrainVol.current_spot rng self1) by lia.
    fold batch.
    destruct (input_loop self1 B w h batch 0 _ _ _ _ _ _ _ El)
      as [S' [L' [Keep Pls]]];
      [reflexivity|cbn; apply repeat_length|].
    exists inds. split; [reflexivity|]. split; [assumption|].
    intros c Hc. subst batch.
    destruct (nth_error _ c) as [ind|] eqn:En.
    - destruct (Pls c ind En) as [r [cl [to_put [Ew Hp]]]].
      cbn [Nat.add] in Hp. rewrite zeros3_plane in Hp.
      replace (c <? B)%nat with true in Hp
        by (symmetry; apply Nat.ltb_lt; assumption).
      exists r, cl, to_put. rewrite <- Hw. split; [assumption|]. exact Hp.
    - apply nth_error_None in En.
      rewrite Keep by (right; cbn; lia).
      rewrite zeros3_plane.
      replace (c <? B)%nat with true
        by (symmetry; apply Nat.ltb_lt; assumption).
      reflexivity. }
  destruct (TrainVol.current_spot rng self + batch_size >?
            TrainVol.total_vects rng self).
  - destruct (TrainVol.train_inds rng self) as [inds|] eqn:Ei; [|discriminate].
    destruct (shuffle (TrainVol.gen rng self) inds) as [inds' g'] eqn:Es.
    cbn [bind] in E.
    exact (Main (TrainVol.set_cursor_pool rng self 0 (Some inds') g')
                (fun _ => eq_refl) E).
  - cbn [bind] in E.
    exact (Main self (fun _ => eq_refl) E).
Qed.

End WithRandom.

(** The first batch of the 12x12 sampler: the four planes are the window
    [[0, 5], [0, 5]], which reads the same upside down. *)
Lemma next_batch_inputs_witness :
  exists tv tv1 x y,
    Fixtures.sampler12 = Ok tv /\
    TrainVol.next_batch nat Fixtures.det_shuffle Fixtures.det_randint tv 4
      = Ok (x, y, tv1) /\
    Np.shape3 x = (4, 2, 2)%nat /\
    nth 0 (Np.items3 x) [] = [[0; 5]; [0; 5]].
Proof.
  do 4 eexists.
  split; [vm_compute; reflexivity|].
  match goal with
  | |- ?e = Ok (?x, ?y, ?s) /\ _ =>
      assert (E : e = Ok (x, y, s)) by (vm_compute; reflexivity)
  end.
  split; [exact E|].
  destruct (next_batch_inputs nat Fixtures.det_shuffle Fixtures.det_randint
              _ _ _ _ _ E)
    as [pool [Ep [Sx Pl]]].
  split; [exact Sx|].
  specialize (Pl 0%nat ltac:(cbn; lia)).
  vm_compute in Ep. inversion Ep; subst pool.
  destruct Pl as [row [col [to_put [Ew Hp]]]].
  vm_compute in Ew. inversion Ew; subst row col to_put.
  destruct Hp as [Hp|Hp]; exact Hp.
Defined.

End BatchInputs.
